(** * LiPow firmware: battery monitor and charge-regulator controller

    A shallow embedding of [Src/battery.c] and [Src/bq25703a_regulator.c]
    and the properties of the two control loops.

    Conventions.
    - C unsigned integers are [Z] values; where the source can wrap, the
      reduction modulo [2^w] is written out.
    - C [float] and [double] values are IEEE-754 numbers of the standard
      library's executable specification ([spec_float]); every arithmetic
      operator of the source is the correctly rounded operation of its
      format (binary32: precision 24, binary64: precision 53).
    - The firmware's globals, the output latches and a log of the commands
      sent to the hardware form one record, [World]; every C function that
      mutates them is a function [World -> World].
    - What the hardware answers (ADC samples, bus replies, input pins) is
      part of [World] as well and is never written by the firmware. *)

From Stdlib Require Import ZArith List Bool Lia QArith Qpower.
From Stdlib Require Import SpecFloat.
Import ListNotations.
Open Scope Z_scope.

(* ================================================================== *)
(** * Machine integers *)

Definition u8  (x : Z) : Z := x mod 2 ^ 8.
Definition u16 (x : Z) : Z := x mod 2 ^ 16.
Definition u32 (x : Z) : Z := x mod 2 ^ 32.

(** [x & (1 << i)] used as a C condition. *)
Definition bit_set (x i : Z) : bool := negb (Z.land x (Z.shiftl 1 i) =? 0).

(* ================================================================== *)
(** * Floating point *)

Module Flt.

Definition float := spec_float.

(** Integer to [float] / [double] conversion (round to nearest even). *)
Definition f32_of_Z (n : Z) : float := binary_normalize 24 128 n 0 false.
Definition f64_of_Z (n : Z) : float := binary_normalize 53 1024 n 0 false.

(** [(float) d] for a double [d], and the promotion of a float to double. *)
Definition f32_of_f64 (x : float) : float :=
  match x with
  | S754_finite s m e => binary_round 24 128 s m e
  | _ => x
  end.
Definition f64_of_f32 (x : float) : float :=
  match x with
  | S754_finite s m e => binary_round 53 1024 s m e
  | _ => x
  end.

Definition f32_sub := SFsub 24 128.
Definition f32_mul := SFmul 24 128.
Definition f32_div := SFdiv 24 128.
Definition f64_mul := SFmul 53 1024.
Definition f64_div := SFdiv 53 1024.

(** Decimal literals [n/d]: the nearest number of the format, which is
    what a correctly rounded division of the two integers returns. *)
Definition f32_lit (n d : Z) : float := f32_div (f32_of_Z n) (f32_of_Z d).
Definition f64_lit (n d : Z) : float := f64_div (f64_of_Z n) (f64_of_Z d).

Definition f_zero : float := S754_zero false.
Definition f_one  : float := f32_of_Z 1.

(** Signed mantissa and exponent of a finite number; zero is [0 * 2^0]. *)
Definition mant (x : float) : Z :=
  match x with
  | S754_finite s m _ => cond_Zopp s (Zpos m)
  | _ => 0
  end.
Definition expo (x : float) : Z :=
  match x with
  | S754_finite _ _ e => e
  | _ => 0
  end.

(** Comparison by value, valid across formats: [z1 * 2^e1] against
    [z2 * 2^e2], both scaled to the smaller exponent. *)
Definition cmp_scaled (z1 e1 z2 e2 : Z) : comparison :=
  let e := Z.min e1 e2 in
  Z.compare (z1 * 2 ^ (e1 - e)) (z2 * 2 ^ (e2 - e)).

Definition f_compare (x y : float) : option comparison :=
  match x, y with
  | S754_nan, _ | _, S754_nan => None
  | S754_infinity s1, S754_infinity s2 =>
      Some (match s1, s2 with
            | true, true | false, false => Eq
            | true, false => Lt
            | false, true => Gt
            end)
  | S754_infinity s, _ => Some (if s then Lt else Gt)
  | _, S754_infinity s => Some (if s then Gt else Lt)
  | _, _ => Some (cmp_scaled (mant x) (expo x) (mant y) (expo y))
  end.

(** The C operators [<], [>=] ... on floating operands; every comparison
    with a NaN is false. *)
Definition f_lt (x y : float) : bool :=
  match f_compare x y with Some Lt => true | _ => false end.
Definition f_le (x y : float) : bool :=
  match f_compare x y with Some (Lt | Eq) => true | _ => false end.
Definition f_gt (x y : float) : bool := f_lt y x.
Definition f_ge (x y : float) : bool := f_le y x.

(** Conversion to [uint32_t]: truncation toward zero.  C leaves the
    conversion of a NaN or of a value outside [0, 2^32) undefined; the
    model saturates, as the soft-float runtime of the target does. *)
Definition f_to_u32 (x : float) : Z :=
  match x with
  | S754_finite false m e => Z.min (Z.shiftl (Zpos m) e) (2 ^ 32 - 1)
  | S754_infinity false => 2 ^ 32 - 1
  | _ => 0
  end.

End Flt.
Import Flt.

(* ================================================================== *)
(** * Constants of the missing headers *)

(** Modelled from the spec: [main.h] is not among the sources; the spec
    (section 3) treats the connection states as booleans. *)
Definition CONNECTED : Z := 1.
Definition NOT_CONNECTED : Z := 0.

(** Modelled from the spec: [battery.h] is not among the sources.  Section
    4.4 step 3 accepts a cell count only if all lower ladder bits are set,
    which fixes the three masks. *)
Definition THREE_S_BITMASK : Z := 7.
Definition TWO_S_BITMASK : Z := 3.
Definition ONE_S_BITMASK : Z := 1.

(** Modelled from the spec: [usbpd.h] is not among the sources; section 6
    gives the three answers of [input_power_ready]. *)
Inductive InputPower := READY | NOT_READY | NO_USB_PD_SUPPLY.

Definition InputPower_eqb (a b : InputPower) : bool :=
  match a, b with
  | READY, READY | NOT_READY, NOT_READY
  | NO_USB_PD_SUPPLY, NO_USB_PD_SUPPLY => true
  | _, _ => false
  end.

(** Modelled from the spec: [bq25703a_regulator.h] is not among the
    sources.  Register addresses are those of the register map of
    section 6. *)
Definition CHARGE_CURRENT_ADDR : Z := 0x02.
Definition MAX_CHARGE_VOLTAGE_ADDR : Z := 0x04.
Definition MINIMUM_SYSTEM_VOLTAGE_ADDR : Z := 0x0D.

(** Modelled from the spec: the register map of section 6 calls both
    voltage registers "additive mV"; each constant is the register bit
    whose weight is the millivolt figure in its name.  MaxChargeVoltage
    is a 16-bit word counting in units of 1 mV from bit 0 (bits 4..14
    are used), split into a high byte (register 1) and a low byte
    (register 2); MinimumSystemVoltage is one byte counting in units of
    256 mV. *)
Definition MAX_VOLT_ADD_16384_MV : Z := 16384 / 256.
Definition MAX_VOLT_ADD_8192_MV : Z := 8192 / 256.
Definition MAX_VOLT_ADD_4096_MV : Z := 4096 / 256.
Definition MAX_VOLT_ADD_256_MV : Z := 256 / 256.
Definition MAX_VOLT_ADD_128_MV : Z := 128.
Definition MAX_VOLT_ADD_64_MV : Z := 64.
Definition MAX_VOLT_ADD_32_MV : Z := 32.
Definition MAX_VOLT_ADD_16_MV : Z := 16.
Definition MIN_VOLT_ADD_8192_MV : Z := 8192 / 256.
Definition MIN_VOLT_ADD_4096_MV : Z := 4096 / 256.
Definition MIN_VOLT_ADD_2048_MV : Z := 2048 / 256.
Definition MIN_VOLT_ADD_1024_MV : Z := 1024 / 256.
Definition MIN_VOLT_ADD_512_MV : Z := 512 / 256.
Definition MIN_VOLT_ADD_256_MV : Z := 256 / 256.

(** The remaining compile-time constants have no value in the sources or
    in the spec; they are parameters of the development.  Voltages are in
    the fixed-point units of the ADC interface. *)
Record Config := mkConfig {
  (* feature switches *)
  ENABLE_BALANCING : bool;
  FIXED_VOLTAGE_CHARGING : bool;
  ATTEMPT_UVP_RECOVERY : bool;
  NUM_SERIES : Z;
  FIXED_VOLTAGE_SETPOINT : Z;
  FIXED_VOLTAGE_PRECHARGE : Z;
  (* battery.h *)
  VOLTAGE_CONNECTED_THRESHOLD : Z;
  CELL_DELTA_V_ENABLE_BALANCING : Z;
  CELL_BALANCING_HYSTERESIS_V : Z;
  CELL_BALANCING_SCALAR_MAX : Z;
  MIN_CELL_V_FOR_BALANCING : Z;
  CELL_VOLTAGE_TO_ENABLE_CHARGING : Z;
  CELL_OVER_VOLTAGE_ENABLE_DISCHARGE : Z;
  CELL_OVER_VOLTAGE_DISABLE_CHARGING : Z;
  MIN_CELL_VOLTAGE_SAFE_LIMIT : Z;
  MAX_MCU_TEMP_C_FOR_OPERATION : Z;
  MCU_TEMP_C_RECOVERY : Z;
  BATTERY_ADC_MULTIPLIER : Z;
  (* bq25703a_regulator.h *)
  REG_ADC_MULTIPLIER : Z;
  VBAT_ADC_SCALE : Z;
  VBAT_ADC_OFFSET : Z;
  VSYS_ADC_SCALE : Z;
  VSYS_ADC_OFFSET : Z;
  ICHG_ADC_SCALE : Z;
  IIN_ADC_SCALE : Z;
  VBUS_ADC_SCALE : Z;
  VBUS_ADC_OFFSET : Z;
  CHARGING_ENABLED_MASK : Z;
  MAX_CHARGE_CURRENT_MA : Z;
  MAX_CHARGING_POWER : Z;
  TEMP_THROTTLE_THRESH_C : Z;
  BATTERY_DISCONNECT_THRESH : Z;
  UVP_RECOVERY_CURRENT_MA : Z;
  ASSUME_EFFICIENCY : float;
  CHARGE_TERM_CURRENT_MA : float;
  (* FreeRTOS *)
  portTICK_PERIOD_MS : Z
}.

(* ================================================================== *)
(** * State *)

(** [struct Battery] of battery.c. *)
Record Battery := mkBattery {
  xt60_connected : Z;
  balance_port_connected : Z;
  number_of_cells : Z;
  balancing_enabled : Z;
  requires_charging : Z;
  cell_over_voltage : Z;
  cell_balance_bitmask : Z
}.

(** [struct Regulator] of bq25703a_regulator.c. *)
Record Regulator := mkRegulator {
  connected : Z;
  charging_status : Z;
  max_charge_voltage : Z;
  input_current_limit : Z;
  min_input_voltage_limit : Z;
  vbus_voltage : Z;
  vbat_voltage : Z;
  vsys_voltage : Z;
  charge_current : Z;
  input_current : Z;
  max_charge_current_ma : Z
}.

(** Modelled from the spec: [error.c] is not among the sources.  Section
    4.3: the fault registry is a set over a closed enumeration with the
    operations set, clear, has and any.  The constructors carry the names
    of the flags used by the sources. *)
Inductive Fault :=
| REGULATOR_COMMUNICATION_ERROR
| VOLTAGE_INPUT_ERROR
| CELL_CONNECTION_ERROR
| CELL_VOLTAGE_ERROR
| MCU_OVER_TEMP.

Definition Fault_eqb (a b : Fault) : bool :=
  match a, b with
  | REGULATOR_COMMUNICATION_ERROR, REGULATOR_COMMUNICATION_ERROR
  | VOLTAGE_INPUT_ERROR, VOLTAGE_INPUT_ERROR
  | CELL_CONNECTION_ERROR, CELL_CONNECTION_ERROR
  | CELL_VOLTAGE_ERROR, CELL_VOLTAGE_ERROR
  | MCU_OVER_TEMP, MCU_OVER_TEMP => true
  | _, _ => false
  end.

Definition all_faults : list Fault :=
  [REGULATOR_COMMUNICATION_ERROR; VOLTAGE_INPUT_ERROR; CELL_CONNECTION_ERROR;
   CELL_VOLTAGE_ERROR; MCU_OVER_TEMP].

Definition Faults := Fault -> bool.

(** Output pins driven by the two tasks. *)
Inductive Pin :=
| ILIM_HIZ | FAN_ENn | EN_OTG
| CELL_1S_DIS_EN | CELL_2S_DIS_EN | CELL_3S_DIS_EN | CELL_4S_DIS_EN.

Definition Pin_eqb (a b : Pin) : bool :=
  match a, b with
  | ILIM_HIZ, ILIM_HIZ | FAN_ENn, FAN_ENn | EN_OTG, EN_OTG
  | CELL_1S_DIS_EN, CELL_1S_DIS_EN | CELL_2S_DIS_EN, CELL_2S_DIS_EN
  | CELL_3S_DIS_EN, CELL_3S_DIS_EN | CELL_4S_DIS_EN, CELL_4S_DIS_EN => true
  | _, _ => false
  end.

Definition GPIO_PIN_SET : bool := true.
Definition GPIO_PIN_RESET : bool := false.

(** Commands sent to the hardware and scheduler, most recent first. *)
Inductive Event :=
| EvGpioWrite (p : Pin) (level : bool)
| EvI2cWrite (addr : Z) (data : list Z)
| EvChargeStatusRead
| EvAdcConversion (polls : nat)
| EvDelay (ticks : Z).

(** Modelled from the spec: [adc_interface.c] is not among the sources;
    section 6 lists the readings of the analog sampler. *)
Record AdcValues := mkAdc {
  battery_voltage : Z;
  cell_voltage_0 : Z;
  cell_voltage_1 : Z;
  cell_voltage_2 : Z;
  cell_voltage_3 : Z;
  two_s_voltage : Z;
  three_s_voltage : Z;
  four_s_voltage : Z;
  mcu_temperature : Z
}.

(** Modelled from the spec: [usbpd.c] is not among the sources; section 6
    lists what the USB-PD collaborator reports. *)
Record UsbPd := mkUsbPd {
  input_power_ready : InputPower;
  max_input_current : Z;
  max_input_power : Z
}.

(** What the bus answers to one driver operation.  The transport
    ([I2C_Transfer], [I2C_Receive]) waits on the bus lease and on the DMA
    engine; the model keeps its outcome only: whether a timeout raised
    [REGULATOR_COMMUNICATION_ERROR] during the operation, the bytes found
    in the receive buffer afterwards, and, for an ADC conversion, how many
    times the start bit had to be polled. *)
Record BusReply := mkBusReply {
  comm_fault : bool;
  rx : list Z;
  polls : nat
}.

Definition quiet_bus : BusReply := mkBusReply false [] 0.

Record World := mkWorld {
  (* battery.c *)
  battery_state : Battery;
  cell_connected_bitmask : Z;
  (* error.c *)
  error_state : Faults;
  (* bq25703a_regulator.c *)
  regulator : Regulator;
  precharging_state : Z;
  termination_counter : Z;
  precharge_timeout : Z;
  initial_precharge_wakeup : Z;
  (* outputs *)
  gpio : Pin -> bool;
  trace : list Event;
  (* inputs *)
  adc : AdcValues;
  usbpd : UsbPd;
  chrg_ok_pin : Z;
  bus : list BusReply
}.

(** ** Field updates *)

Definition set_battery_state (b : Battery) (w : World) : World :=
  mkWorld b (cell_connected_bitmask w) (error_state w) (regulator w)
    (precharging_state w) (termination_counter w) (precharge_timeout w)
    (initial_precharge_wakeup w) (gpio w) (trace w) (adc w) (usbpd w)
    (chrg_ok_pin w) (bus w).

Definition set_cell_connected_bitmask (m : Z) (w : World) : World :=
  mkWorld (battery_state w) m (error_state w) (regulator w)
    (precharging_state w) (termination_counter w) (precharge_timeout w)
    (initial_precharge_wakeup w) (gpio w) (trace w) (adc w) (usbpd w)
    (chrg_ok_pin w) (bus w).

Definition set_error_state (e : Faults) (w : World) : World :=
  mkWorld (battery_state w) (cell_connected_bitmask w) e (regulator w)
    (precharging_state w) (termination_counter w) (precharge_timeout w)
    (initial_precharge_wakeup w) (gpio w) (trace w) (adc w) (usbpd w)
    (chrg_ok_pin w) (bus w).

Definition set_regulator (r : Regulator) (w : World) : World :=
  mkWorld (battery_state w) (cell_connected_bitmask w) (error_state w) r
    (precharging_state w) (termination_counter w) (precharge_timeout w)
    (initial_precharge_wakeup w) (gpio w) (trace w) (adc w) (usbpd w)
    (chrg_ok_pin w) (bus w).

Definition set_precharging_state (p : Z) (w : World) : World :=
  mkWorld (battery_state w) (cell_connected_bitmask w) (error_state w)
    (regulator w) p (termination_counter w) (precharge_timeout w)
    (initial_precharge_wakeup w) (gpio w) (trace w) (adc w) (usbpd w)
    (chrg_ok_pin w) (bus w).

Definition set_termination_counter (c : Z) (w : World) : World :=
  mkWorld (battery_state w) (cell_connected_bitmask w) (error_state w)
    (regulator w) (precharging_state w) c (precharge_timeout w)
    (initial_precharge_wakeup w) (gpio w) (trace w) (adc w) (usbpd w)
    (chrg_ok_pin w) (bus w).

Definition set_precharge_timeout (t : Z) (w : World) : World :=
  mkWorld (battery_state w) (cell_connected_bitmask w) (error_state w)
    (regulator w) (precharging_state w) (termination_counter w) t
    (initial_precharge_wakeup w) (gpio w) (trace w) (adc w) (usbpd w)
    (chrg_ok_pin w) (bus w).

Definition set_initial_precharge_wakeup (i : Z) (w : World) : World :=
  mkWorld (battery_state w) (cell_connected_bitmask w) (error_state w)
    (regulator w) (precharging_state w) (termination_counter w)
    (precharge_timeout w) i (gpio w) (trace w) (adc w) (usbpd w)
    (chrg_ok_pin w) (bus w).

Definition set_gpio (g : Pin -> bool) (w : World) : World :=
  mkWorld (battery_state w) (cell_connected_bitmask w) (error_state w)
    (regulator w) (precharging_state w) (termination_counter w)
    (precharge_timeout w) (initial_precharge_wakeup w) g (trace w) (adc w)
    (usbpd w) (chrg_ok_pin w) (bus w).

Definition log (ev : Event) (w : World) : World :=
  mkWorld (battery_state w) (cell_connected_bitmask w) (error_state w)
    (regulator w) (precharging_state w) (termination_counter w)
    (precharge_timeout w) (initial_precharge_wakeup w) (gpio w)
    (ev :: trace w) (adc w) (usbpd w) (chrg_ok_pin w) (bus w).

Definition set_bus (b : list BusReply) (w : World) : World :=
  mkWorld (battery_state w) (cell_connected_bitmask w) (error_state w)
    (regulator w) (precharging_state w) (termination_counter w)
    (precharge_timeout w) (initial_precharge_wakeup w) (gpio w) (trace w)
    (adc w) (usbpd w) (chrg_ok_pin w) b.

Definition set_xt60_connected (v : Z) (b : Battery) : Battery :=
  mkBattery v (balance_port_connected b) (number_of_cells b)
    (balancing_enabled b) (requires_charging b) (cell_over_voltage b)
    (cell_balance_bitmask b).
Definition set_balance_port_connected (v : Z) (b : Battery) : Battery :=
  mkBattery (xt60_connected b) v (number_of_cells b) (balancing_enabled b)
    (requires_charging b) (cell_over_voltage b) (cell_balance_bitmask b).
Definition set_number_of_cells (v : Z) (b : Battery) : Battery :=
  mkBattery (xt60_connected b) (balance_port_connected b) v
    (balancing_enabled b) (requires_charging b) (cell_over_voltage b)
    (cell_balance_bitmask b).
Definition set_balancing_enabled (v : Z) (b : Battery) : Battery :=
  mkBattery (xt60_connected b) (balance_port_connected b) (number_of_cells b)
    v (requires_charging b) (cell_over_voltage b) (cell_balance_bitmask b).
Definition set_requires_charging (v : Z) (b : Battery) : Battery :=
  mkBattery (xt60_connected b) (balance_port_connected b) (number_of_cells b)
    (balancing_enabled b) v (cell_over_voltage b) (cell_balance_bitmask b).
Definition set_cell_over_voltage (v : Z) (b : Battery) : Battery :=
  mkBattery (xt60_connected b) (balance_port_connected b) (number_of_cells b)
    (balancing_enabled b) (requires_charging b) v (cell_balance_bitmask b).
Definition set_cell_balance_bitmask (v : Z) (b : Battery) : Battery :=
  mkBattery (xt60_connected b) (balance_port_connected b) (number_of_cells b)
    (balancing_enabled b) (requires_charging b) (cell_over_voltage b) v.

(** [battery_state.field = v;] *)
Definition upd_battery (f : Battery -> Battery) (w : World) : World :=
  set_battery_state (f (battery_state w)) w.
(** [regulator.field = v;] *)
Definition upd_regulator (f : Regulator -> Regulator) (w : World) : World :=
  set_regulator (f (regulator w)) w.

Definition set_charging_status (v : Z) (r : Regulator) : Regulator :=
  mkRegulator (connected r) v (max_charge_voltage r) (input_current_limit r)
    (min_input_voltage_limit r) (vbus_voltage r) (vbat_voltage r)
    (vsys_voltage r) (charge_current r) (input_current r)
    (max_charge_current_ma r).
Definition set_connected (v : Z) (r : Regulator) : Regulator :=
  mkRegulator v (charging_status r) (max_charge_voltage r)
    (input_current_limit r) (min_input_voltage_limit r) (vbus_voltage r)
    (vbat_voltage r) (vsys_voltage r) (charge_current r) (input_current r)
    (max_charge_current_ma r).
Definition set_max_charge_current_ma (v : Z) (r : Regulator) : Regulator :=
  mkRegulator (connected r) (charging_status r) (max_charge_voltage r)
    (input_current_limit r) (min_input_voltage_limit r) (vbus_voltage r)
    (vbat_voltage r) (vsys_voltage r) (charge_current r) (input_current r) v.
(** The five fields refreshed by one ADC conversion. *)
Definition set_adc_readings (vbat vsys ichg iin vbus : Z) (r : Regulator)
  : Regulator :=
  mkRegulator (connected r) (charging_status r) (max_charge_voltage r)
    (input_current_limit r) (min_input_voltage_limit r) vbus vbat vsys ichg
    iin (max_charge_current_ma r).

(* ================================================================== *)
(** * Collaborators *)

(** ** error.c *)

Definition Set_Error_State (f : Fault) (w : World) : World :=
  set_error_state (fun g => if Fault_eqb g f then true else error_state w g) w.

Definition Clear_Error_State (f : Fault) (w : World) : World :=
  set_error_state (fun g => if Fault_eqb g f then false else error_state w g) w.

(** [(Get_Error_State() & f) == f] *)
Definition has_error (f : Fault) (w : World) : bool := error_state w f.

(** [Get_Error_State() == 0] *)
Definition no_error (w : World) : bool :=
  forallb (fun f => negb (error_state w f)) all_faults.

(** ** adc_interface.c *)

Definition Get_Battery_Voltage (w : World) : Z := battery_voltage (adc w).
Definition Get_Two_S_Voltage (w : World) : Z := two_s_voltage (adc w).
Definition Get_Three_S_Voltage (w : World) : Z := three_s_voltage (adc w).
Definition Get_Four_S_Voltage (w : World) : Z := four_s_voltage (adc w).
Definition Get_MCU_Temperature (w : World) : Z := mcu_temperature (adc w).
Definition Get_Cell_Voltage (i : Z) (w : World) : Z :=
  match i with
  | 0 => cell_voltage_0 (adc w)
  | 1 => cell_voltage_1 (adc w)
  | 2 => cell_voltage_2 (adc w)
  | 3 => cell_voltage_3 (adc w)
  | _ => 0
  end.

(** ** usbpd.c *)

Definition Get_Input_Power_Ready (w : World) : InputPower :=
  input_power_ready (usbpd w).
Definition Get_Max_Input_Current (w : World) : Z := max_input_current (usbpd w).
Definition Get_Max_Input_Power (w : World) : Z := max_input_power (usbpd w).

(** ** HAL and scheduler *)

Definition HAL_GPIO_WritePin (p : Pin) (level : bool) (w : World) : World :=
  log (EvGpioWrite p level)
    (set_gpio (fun q => if Pin_eqb q p then level else gpio w q) w).

Definition vTaskDelay (ticks : Z) (w : World) : World := log (EvDelay ticks) w.

(** The reply to the next driver operation; a bus that has nothing more
    to say answers [quiet_bus]. *)
Definition next_reply (w : World) : BusReply * World :=
  match bus w with
  | [] => (quiet_bus, w)
  | r :: rest => (r, set_bus rest w)
  end.

(** The indices of [for (int i = lo; i < hi; i++)]. *)
Definition for_range (lo hi : Z) : list Z :=
  map Z.of_nat (seq (Z.to_nat lo) (Z.to_nat hi - Z.to_nat lo)).

(* ================================================================== *)
(** * battery.c *)

Section Firmware.

Variable cfg : Config.

Definition Get_Regulator_Charging_State (w : World) : Z :=
  charging_status (regulator w).

(** ** [Balancing_GPIO_Control] *)
Definition Balancing_GPIO_Control (cell_balancing_gpio_bitmask : Z) (w : World)
  : World :=
  let w := if bit_set cell_balancing_gpio_bitmask 3
           then HAL_GPIO_WritePin CELL_4S_DIS_EN GPIO_PIN_SET w
           else HAL_GPIO_WritePin CELL_4S_DIS_EN GPIO_PIN_RESET w in
  let w := if bit_set cell_balancing_gpio_bitmask 2
           then HAL_GPIO_WritePin CELL_3S_DIS_EN GPIO_PIN_SET w
           else HAL_GPIO_WritePin CELL_3S_DIS_EN GPIO_PIN_RESET w in
  let w := if bit_set cell_balancing_gpio_bitmask 1
           then HAL_GPIO_WritePin CELL_2S_DIS_EN GPIO_PIN_SET w
           else HAL_GPIO_WritePin CELL_2S_DIS_EN GPIO_PIN_RESET w in
  if bit_set cell_balancing_gpio_bitmask 0
  then HAL_GPIO_WritePin CELL_1S_DIS_EN GPIO_PIN_SET w
  else HAL_GPIO_WritePin CELL_1S_DIS_EN GPIO_PIN_RESET w.

(** ** [Balance_Battery] *)

(** The first loop: [(min_cell_voltage, max_cell_voltage)]. *)
Definition min_max_step (w : World) (mm : Z * Z) (i : Z) : Z * Z :=
  let '(min_cell_voltage, max_cell_voltage) := mm in
  let min_cell_voltage :=
    if Get_Cell_Voltage i w <? min_cell_voltage
    then Get_Cell_Voltage i w else min_cell_voltage in
  let max_cell_voltage :=
    if max_cell_voltage <? Get_Cell_Voltage i w
    then Get_Cell_Voltage i w else max_cell_voltage in
  (min_cell_voltage, max_cell_voltage).

Definition min_max_cell_voltage (w : World) : Z * Z :=
  fold_left (min_max_step w)
    (for_range 1 (number_of_cells (battery_state w)))
    (Get_Cell_Voltage 0 w, Get_Cell_Voltage 0 w).

(** [scalar]: the thresholds are relaxed while the XT60 is connected and
    tighten as the highest cell approaches the charge-enable voltage. *)
Definition balancing_scalar (w : World) (max_cell_voltage : Z) : float :=
  if xt60_connected (battery_state w) =? CONNECTED then
    let scalar :=
      f32_mul (f32_of_Z (CELL_BALANCING_SCALAR_MAX cfg))
        (f32_sub f_one
           (f32_div
              (f32_sub (f32_of_Z max_cell_voltage)
                       (f32_of_Z (MIN_CELL_V_FOR_BALANCING cfg)))
              (f32_sub (f32_of_Z (CELL_VOLTAGE_TO_ENABLE_CHARGING cfg))
                       (f32_of_Z (MIN_CELL_V_FOR_BALANCING cfg))))) in
    if f_lt scalar f_one then f_one else scalar
  else f_one.

(** The hysteresis latch on [battery_state.balancing_enabled]. *)
Definition update_balancing_enabled
    (min_cell_voltage max_cell_voltage : Z) (scalar : float) (w : World)
  : World :=
  let delta := f32_of_Z (u32 (max_cell_voltage - min_cell_voltage)) in
  if f_ge delta (f32_mul (f32_of_Z (CELL_DELTA_V_ENABLE_BALANCING cfg)) scalar)
     && (MIN_CELL_V_FOR_BALANCING cfg <? min_cell_voltage)
     && (balancing_enabled (battery_state w) =? 0)
  then upd_battery (set_balancing_enabled 1) w
  else if (f_lt delta (f32_mul (f32_of_Z (CELL_BALANCING_HYSTERESIS_V cfg)) scalar)
           && (balancing_enabled (battery_state w) =? 1))
          || (min_cell_voltage <? MIN_CELL_V_FOR_BALANCING cfg)
  then upd_battery (set_balancing_enabled 0) w
  else w.

(** Body of the second loop: the discharge bit of cell [i]. *)
Definition cell_balance_step (min_cell_voltage : Z) (scalar : float)
    (w : World) (i : Z) : World :=
  let mask := cell_balance_bitmask (battery_state w) in
  if (balancing_enabled (battery_state w) =? 1)
     && f_ge (f32_of_Z (u32 (Get_Cell_Voltage i w - min_cell_voltage)))
             (f32_mul (f32_of_Z (CELL_BALANCING_HYSTERESIS_V cfg)) scalar)
  then upd_battery (set_cell_balance_bitmask (u8 (Z.lor mask (Z.shiftl 1 i)))) w
  else if CELL_OVER_VOLTAGE_ENABLE_DISCHARGE cfg <=? Get_Cell_Voltage i w
  then upd_battery (set_cell_balance_bitmask (u8 (Z.lor mask (Z.shiftl 1 i)))) w
  else upd_battery
         (set_cell_balance_bitmask (u8 (Z.land mask (Z.lnot (Z.shiftl 1 i))))) w.

(** The condition that admits the balancing branch. *)
Definition balancing_gate (w : World) : bool :=
  ENABLE_BALANCING cfg
  && (balance_port_connected (battery_state w) =? CONNECTED)
  && no_error w.

Definition Balance_Battery (w : World) : World :=
  if balancing_gate w then
    let '(min_cell_voltage, max_cell_voltage) := min_max_cell_voltage w in
    let scalar := balancing_scalar w max_cell_voltage in
    let w := update_balancing_enabled min_cell_voltage max_cell_voltage scalar w in
    let w := fold_left (cell_balance_step min_cell_voltage scalar)
               (for_range 0 (number_of_cells (battery_state w))) w in
    Balancing_GPIO_Control (cell_balance_bitmask (battery_state w)) w
  else
    upd_battery (set_balancing_enabled 0) (Balancing_GPIO_Control 0 w).

(** ** [Balance_Connection_State] *)

(** One ladder tap: set or clear [bit] of [cell_connected_bitmask]. *)
Definition ladder_bit (present : bool) (bit : Z) (w : World) : World :=
  if present
  then set_cell_connected_bitmask (u8 (Z.lor (cell_connected_bitmask w) bit)) w
  else set_cell_connected_bitmask
         (u8 (Z.land (cell_connected_bitmask w) (Z.lnot bit))) w.

Definition ladder_probe (w : World) : World :=
  let th := VOLTAGE_CONNECTED_THRESHOLD cfg in
  let w := ladder_bit ((th <? Get_Four_S_Voltage w) && (th <? Get_Cell_Voltage 3 w)) 8 w in
  let w := ladder_bit ((th <? Get_Three_S_Voltage w) && (th <? Get_Cell_Voltage 2 w)) 4 w in
  let w := ladder_bit ((th <? Get_Two_S_Voltage w) && (th <? Get_Cell_Voltage 1 w)) 2 w in
  ladder_bit (th <? Get_Cell_Voltage 0 w) 1 w.

Definition accept_cells (n : Z) (w : World) : World :=
  Clear_Error_State CELL_CONNECTION_ERROR (upd_battery (set_number_of_cells n) w).
Definition reject_cells (w : World) : World :=
  Set_Error_State CELL_CONNECTION_ERROR (upd_battery (set_number_of_cells 0) w).

Definition infer_cell_count (w : World) : World :=
  let m := cell_connected_bitmask w in
  if bit_set m 3 then
    if Z.land m THREE_S_BITMASK =? THREE_S_BITMASK
    then accept_cells 4 w else reject_cells w
  else if bit_set m 2 then
    if Z.land m TWO_S_BITMASK =? TWO_S_BITMASK
    then accept_cells 3 w else reject_cells w
  else if bit_set m 1 then
    if Z.land m ONE_S_BITMASK =? ONE_S_BITMASK
    then accept_cells 2 w else reject_cells w
  else accept_cells 0 w.

Definition Balance_Connection_State (w : World) : World :=
  let w := infer_cell_count (ladder_probe w) in
  if 1 <? number_of_cells (battery_state w)
  then upd_battery (set_balance_port_connected CONNECTED) w
  else upd_battery (set_balance_port_connected NOT_CONNECTED) w.

(** ** [Cell_Voltage_Safety_Check] *)
Definition safety_step (w : World) (ou : Z * Z) (i : Z) : Z * Z :=
  let '(over_voltage_temp, under_voltage_temp) := ou in
  (if CELL_OVER_VOLTAGE_DISABLE_CHARGING cfg <? Get_Cell_Voltage i w
   then 1 else over_voltage_temp,
   if Get_Cell_Voltage i w <? MIN_CELL_VOLTAGE_SAFE_LIMIT cfg
   then 1 else under_voltage_temp).

Definition Cell_Voltage_Safety_Check (w : World) : World :=
  let '(over_voltage_temp, under_voltage_temp) :=
    fold_left (safety_step w)
      (for_range 0 (number_of_cells (battery_state w))) (0, 0) in
  let w := if under_voltage_temp =? 1
           then Set_Error_State CELL_VOLTAGE_ERROR w
           else Clear_Error_State CELL_VOLTAGE_ERROR w in
  upd_battery (set_cell_over_voltage over_voltage_temp) w.

(** ** [MCU_Temperature_Safety_Check] *)
Definition MCU_Temperature_Safety_Check (w : World) : World :=
  if MAX_MCU_TEMP_C_FOR_OPERATION cfg <? Get_MCU_Temperature w
  then Set_Error_State MCU_OVER_TEMP w
  else if has_error MCU_OVER_TEMP w
          && (Get_MCU_Temperature w <? MCU_TEMP_C_RECOVERY cfg)
  then Clear_Error_State MCU_OVER_TEMP w
  else w.

(** ** [Battery_Connection_State]: one iteration of the battery monitor *)

(** The state in which the balancing step of the iteration is reached. *)
Definition before_balancing (w : World) : World :=
  let w := if VOLTAGE_CONNECTED_THRESHOLD cfg <? Get_Battery_Voltage w
           then upd_battery (set_xt60_connected CONNECTED) w
           else upd_battery (set_xt60_connected NOT_CONNECTED) w in
  let w := if ENABLE_BALANCING cfg
           then Balance_Connection_State w
           else Clear_Error_State CELL_CONNECTION_ERROR
                  (upd_battery (set_number_of_cells (u8 (NUM_SERIES cfg)))
                     (upd_battery (set_balance_port_connected CONNECTED) w)) in
  let w := MCU_Temperature_Safety_Check w in
  if ENABLE_BALANCING cfg then Cell_Voltage_Safety_Check w else w.

(** Only update the balancing state if charging is off. *)
Definition balancing_step (w : World) : World :=
  if ENABLE_BALANCING cfg
  then if Get_Regulator_Charging_State w =? 0 then Balance_Battery w else w
  else w.

Definition update_requires_charging (w : World) : World :=
  let b := battery_state w in
  if (xt60_connected b =? CONNECTED) && (balance_port_connected b =? CONNECTED)
  then if Get_Battery_Voltage w
          <? u32 (number_of_cells b * CELL_VOLTAGE_TO_ENABLE_CHARGING cfg)
       then upd_battery (set_requires_charging 1) w
       else upd_battery (set_requires_charging 0) w
  else upd_battery (set_requires_charging 0) w.

Definition Battery_Connection_State (w : World) : World :=
  update_requires_charging (balancing_step (before_balancing w)).

(** ** Accessors *)
Definition Get_Balance_Connection_State (w : World) : Z :=
  balance_port_connected (battery_state w).
Definition Get_Balancing_State (w : World) : Z :=
  if balancing_enabled (battery_state w) =? 1
  then cell_balance_bitmask (battery_state w) else 0.
Definition Get_Requires_Charging_State (w : World) : Z :=
  requires_charging (battery_state w).
Definition Get_Number_Of_Cells (w : World) : Z :=
  number_of_cells (battery_state w).
Definition Get_XT60_Connection_State (w : World) : Z :=
  xt60_connected (battery_state w).
Definition Get_Cell_Over_Voltage_State (w : World) : Z :=
  cell_over_voltage (battery_state w).

End Firmware.

(* ================================================================== *)
(** * bq25703a_regulator.c *)

Section Regulator.

Variable cfg : Config.

Definition Get_VBAT_ADC_Reading (w : World) : Z := vbat_voltage (regulator w).
Definition Get_Charge_Current_ADC_Reading (w : World) : Z :=
  charge_current (regulator w).
Definition Get_Max_Charge_Current (w : World) : Z :=
  max_charge_current_ma (regulator w).
Definition Get_Precharge_State (w : World) : Z := precharging_state w.

(** ** Bus operations *)

(** One driver operation on the bus: the command is logged, the reply is
    consumed, and a transport timeout raises the communication fault. *)
Definition bus_operation (ev : Event) (w : World) : BusReply * World :=
  let '(r, w) := next_reply w in
  let w := log ev w in
  (r, if comm_fault r
      then Set_Error_State REGULATOR_COMMUNICATION_ERROR w else w).

Definition I2C_Write_Register (addr_to_write data : Z) (w : World) : World :=
  snd (bus_operation (EvI2cWrite addr_to_write [data]) w).

Definition I2C_Write_Two_Byte_Register (addr_to_write lsb_data msb_data : Z)
    (w : World) : World :=
  snd (bus_operation (EvI2cWrite addr_to_write [lsb_data; msb_data]) w).

Definition Read_Charge_Okay (w : World) : Z := chrg_ok_pin w.

(** ** [Read_Charge_Status] *)
Definition Read_Charge_Status (w : World) : World :=
  let '(r, w) := bus_operation EvChargeStatusRead w in
  if negb (Z.land (u8 (nth 1 (rx r) 0)) (CHARGING_ENABLED_MASK cfg) =? 0)
  then upd_regulator (set_charging_status 1) w
  else upd_regulator (set_charging_status 0) w.

(** ** [Regulator_Read_ADC] *)
Definition Regulator_Read_ADC (w : World) : World :=
  let '(r, w) := next_reply w in
  let w := log (EvAdcConversion (polls r)) w in
  let w := if comm_fault r
           then Set_Error_State REGULATOR_COMMUNICATION_ERROR w else w in
  let temp k := u8 (nth k (rx r) 0) in
  upd_regulator
    (set_adc_readings
       (u32 (temp 0%nat * VBAT_ADC_SCALE cfg + VBAT_ADC_OFFSET cfg))
       (u32 (temp 1%nat * VSYS_ADC_SCALE cfg + VSYS_ADC_OFFSET cfg))
       (u32 (temp 2%nat * ICHG_ADC_SCALE cfg))
       (u32 (temp 3%nat * IIN_ADC_SCALE cfg))
       (u32 (temp 4%nat * VBUS_ADC_SCALE cfg + VBUS_ADC_OFFSET cfg))) w.

(** ** [Regulator_HI_Z] *)
Definition Regulator_HI_Z (hi_z_en : Z) (w : World) : World :=
  if hi_z_en =? 1
  then HAL_GPIO_WritePin FAN_ENn GPIO_PIN_SET
         (HAL_GPIO_WritePin ILIM_HIZ GPIO_PIN_RESET w)
  else HAL_GPIO_WritePin FAN_ENn GPIO_PIN_RESET
         (HAL_GPIO_WritePin ILIM_HIZ GPIO_PIN_SET w).

(** ** [Set_Charge_Current] *)

(** The two register bytes for a limit in mA, [(register_1, register_2)]. *)
Definition charge_current_registers (charge_current_limit : Z) : Z * Z :=
  let charge_current :=
    if negb (charge_current_limit =? 0) then charge_current_limit / 64 else 0 in
  let charge_current := if 128 <? charge_current then 128 else charge_current in
  if (0 <=? charge_current) || (charge_current <=? 128)
  then (u8 (Z.shiftr charge_current 2), u8 (Z.shiftl charge_current 6))
  else (0, 0).

Definition Set_Charge_Current (charge_current_limit : Z) (w : World) : World :=
  let charge_current_limit :=
    if MAX_CHARGE_CURRENT_MA cfg <? charge_current_limit
    then MAX_CHARGE_CURRENT_MA cfg else charge_current_limit in
  let w := upd_regulator (set_max_charge_current_ma charge_current_limit) w in
  let '(charge_current_register_1_value, charge_current_register_2_value) :=
    charge_current_registers charge_current_limit in
  I2C_Write_Two_Byte_Register CHARGE_CURRENT_ADDR
    charge_current_register_2_value charge_current_register_1_value w.

(** ** [Set_Charge_Voltage] *)

(** [(max_charge_register_1_value, max_charge_register_2_value,
      minimum_system_voltage_value)] *)
Definition charge_voltage_registers (number_of_cells : Z) : Z * Z * Z :=
  if FIXED_VOLTAGE_CHARGING cfg then
    let target_charge_voltage := u16 (FIXED_VOLTAGE_SETPOINT cfg) in
    let fastcharge_threshold := u16 (FIXED_VOLTAGE_PRECHARGE cfg) in
    (u8 (Z.shiftr (Z.land target_charge_voltage 0xFF00) 8),
     u8 (Z.land target_charge_voltage 0x00FF),
     u8 (Z.shiftr (Z.land fastcharge_threshold 0xFF00) 8))
  else if (0 <? number_of_cells) || (number_of_cells <? 5) then
    match number_of_cells with
    | 1 => (MAX_VOLT_ADD_4096_MV,
            Z.lor MAX_VOLT_ADD_64_MV MAX_VOLT_ADD_32_MV,
            Z.lor (Z.lor MIN_VOLT_ADD_2048_MV MIN_VOLT_ADD_512_MV)
                  MIN_VOLT_ADD_256_MV)
    | 2 => (MAX_VOLT_ADD_8192_MV,
            Z.lor (Z.lor MAX_VOLT_ADD_128_MV MAX_VOLT_ADD_64_MV)
                  MAX_VOLT_ADD_16_MV,
            Z.lor (Z.lor MIN_VOLT_ADD_4096_MV MIN_VOLT_ADD_1024_MV)
                  MIN_VOLT_ADD_512_MV)
    | 3 => (Z.lor (Z.lor MAX_VOLT_ADD_8192_MV MAX_VOLT_ADD_4096_MV)
                  MAX_VOLT_ADD_256_MV,
            Z.lor MAX_VOLT_ADD_32_MV MAX_VOLT_ADD_16_MV,
            Z.lor MIN_VOLT_ADD_8192_MV MIN_VOLT_ADD_256_MV)
    | 4 => (Z.lor MAX_VOLT_ADD_16384_MV MAX_VOLT_ADD_256_MV,
            Z.lor MAX_VOLT_ADD_128_MV MAX_VOLT_ADD_32_MV,
            Z.lor (Z.lor MIN_VOLT_ADD_8192_MV MIN_VOLT_ADD_2048_MV)
                  MIN_VOLT_ADD_1024_MV)
    | _ => (0, 0, MIN_VOLT_ADD_1024_MV)
    end
  else (0, 0, MIN_VOLT_ADD_1024_MV).

Definition Set_Charge_Voltage (number_of_cells : Z) (w : World) : World :=
  let '(max_charge_register_1_value, max_charge_register_2_value,
        minimum_system_voltage_value) :=
    charge_voltage_registers number_of_cells in
  let w := I2C_Write_Register MINIMUM_SYSTEM_VOLTAGE_ADDR
             minimum_system_voltage_value w in
  I2C_Write_Two_Byte_Register MAX_CHARGE_VOLTAGE_ADDR
    max_charge_register_2_value max_charge_register_1_value w.

(** ** [Calculate_Max_Charge_Power] *)

(** The power allowed by the source, before the thermal throttle.
    [ASSUME_EFFICIENCY] is taken to be a [float] constant, like the
    arithmetic around it. *)
Definition input_limited_power (w : World) : Z :=
  let charging_power_mw :=
    f_to_u32
      (f32_mul
         (f32_mul (f32_of_Z (vbus_voltage (regulator w) / REG_ADC_MULTIPLIER cfg))
                  (f32_of_Z (Get_Max_Input_Current w)))
         (ASSUME_EFFICIENCY cfg)) in
  let charging_power_mw :=
    if MAX_CHARGING_POWER cfg <? charging_power_mw
    then MAX_CHARGING_POWER cfg else charging_power_mw in
  if Get_Max_Input_Power w <? charging_power_mw
  then f_to_u32 (f32_mul (f32_of_Z (Get_Max_Input_Power w))
                         (ASSUME_EFFICIENCY cfg))
  else charging_power_mw.

(** [power_scalar] after its two clamps. *)
Definition power_scalar (mcu_temperature : Z) : float :=
  let temperature := f32_of_Z mcu_temperature in
  let power_scalar :=
    f32_sub f_one
      (f32_sub
         (f32_of_f64 (f64_mul (f64_lit 333 10000) (f64_of_f32 temperature)))
         (f32_lit 166 100)) in
  let power_scalar := if f_gt power_scalar f_one then f_one else power_scalar in
  if f_lt power_scalar f_zero then f_zero else power_scalar.

(** Throttle charging power if temperature is too high. *)
Definition thermal_throttle (mcu_temperature charging_power_mw : Z) : Z :=
  if TEMP_THROTTLE_THRESH_C cfg <? mcu_temperature
  then f_to_u32 (f32_mul (f32_of_Z charging_power_mw)
                         (power_scalar mcu_temperature))
  else charging_power_mw.

Definition Calculate_Max_Charge_Power (w : World) : Z :=
  thermal_throttle (Get_MCU_Temperature w) (input_limited_power w).

(** ** [Control_Charger_Output] *)

Definition balance_connection_state (w : World) : Z :=
  if ENABLE_BALANCING cfg then Get_Balance_Connection_State w else CONNECTED.

(** The condition under which the output may be enabled. *)
Definition output_gate (w : World) : bool :=
  (Get_XT60_Connection_State w =? CONNECTED)
  && (balance_connection_state w =? CONNECTED)
  && no_error w
  && InputPower_eqb (Get_Input_Power_Ready w) READY
  && (Get_Cell_Over_Voltage_State w =? 0).

(** [charge_current_meas_ma < CHARGE_TERM_CURRENT_MA] with the battery
    not asking for charge. *)
Definition termination_condition (w : World) : bool :=
  let charge_current_meas_ma :=
    f32_mul
      (f32_div (f32_of_Z (Get_Charge_Current_ADC_Reading w))
               (f32_of_Z (REG_ADC_MULTIPLIER cfg)))
      (f32_of_Z 1000) in
  (Get_Requires_Charging_State w =? 0)
  && f_lt charge_current_meas_ma (CHARGE_TERM_CURRENT_MA cfg).

(** The tail of the enabled branch, after the output has been enabled. *)
Definition charge_termination (w : World) : World :=
  let xDelay := 500 / portTICK_PERIOD_MS cfg in
  if termination_condition w then
    let w := set_termination_counter (u16 (termination_counter w + 1)) w in
    if 3 <? termination_counter w
    then vTaskDelay xDelay (Regulator_HI_Z 1 w)
    else w
  else set_termination_counter 0 w.

(** Check if XT60 was disconnected. *)
Definition disconnect_probe (w : World) : World :=
  let xDelay := 500 / portTICK_PERIOD_MS cfg in
  if u32 (BATTERY_DISCONNECT_THRESH cfg * Get_Number_Of_Cells w)
     <? vbat_voltage (regulator w)
  then Regulator_HI_Z 0 (vTaskDelay (xDelay * 2) (Regulator_HI_Z 1 w))
  else w.

Definition enable_output (w : World) : World :=
  let w := Set_Charge_Voltage
             (if ENABLE_BALANCING cfg
              then Get_Number_Of_Cells w else u8 (NUM_SERIES cfg)) w in
  let charging_current_ma :=
    f_to_u32
      (f32_div (f32_of_Z (Calculate_Max_Charge_Power w))
               (f32_of_Z (Get_Battery_Voltage w / BATTERY_ADC_MULTIPLIER cfg))) in
  let w := Set_Charge_Current charging_current_ma w in
  Regulator_HI_Z 0 w.

Definition Control_Charger_Output (w : World) : World :=
  if output_gate w
  then charge_termination (disconnect_probe (enable_output w))
  else Set_Charge_Current 0 (Set_Charge_Voltage 0 (Regulator_HI_Z 1 w)).

(** ** [vRegulator]: the body of the task loop *)

(** [regulator_vbat_voltage < (NUM_SERIES * 3.1)], the float against the
    double. *)
Definition vbat_needs_precharge (w : World) : bool :=
  let regulator_vbat_voltage :=
    f32_div (f32_of_Z (Get_VBAT_ADC_Reading w))
            (f32_of_Z (REG_ADC_MULTIPLIER cfg)) in
  f_lt regulator_vbat_voltage
       (f64_mul (f64_of_Z (NUM_SERIES cfg)) (f64_lit 31 10)).

(** [while(ticks) { ...; ticks--; }] of the precharge pulse. *)
Fixpoint precharge_pulse (ticks : nat) (w : World) : World :=
  match ticks with
  | O => w
  | S ticks' =>
      let xDelay := 250 / portTICK_PERIOD_MS cfg in
      let w := Set_Charge_Voltage (u8 (NUM_SERIES cfg)) w in
      let w := Set_Charge_Current (UVP_RECOVERY_CURRENT_MA cfg) w in
      let w := Regulator_HI_Z 0 w in
      let w := Read_Charge_Status w in
      let w := Regulator_Read_ADC w in
      let w := vTaskDelay xDelay w in
      precharge_pulse ticks' w
  end.

(** The number of ticks of the next pulse: a longer wakeup pulse first. *)
Definition pulse_ticks (w : World) : nat :=
  if negb (initial_precharge_wakeup w =? 0) then 20%nat else 12%nat.

(** One pass through the body of the precharge loop. *)
Definition precharge_attempt (w : World) : World :=
  let ticks := pulse_ticks w in
  let w := set_precharging_state 1 w in
  let w := if negb (initial_precharge_wakeup w =? 0)
           then set_initial_precharge_wakeup 0 w else w in
  let w := precharge_pulse ticks w in
  set_precharge_timeout (u16 (precharge_timeout w - 1)) w.

(** The precharge loop.  [fuel] bounds the recursion; the second component
    records the ticks of each pass, oldest first. *)
Fixpoint precharge_loop (fuel : nat) (w : World) : World * list nat :=
  match fuel with
  | O => (w, [])
  | S fuel' =>
      if (1 <? precharge_timeout w) && vbat_needs_precharge w
      then let '(w', passes) := precharge_loop fuel' (precharge_attempt w) in
           (w', pulse_ticks w :: passes)
      else (w, [])
  end.

(** [while(ticks) { vTaskDelay; Read_Charge_Status; Regulator_Read_ADC;
    ticks--; }] after the precharge. *)
Fixpoint settle (ticks : nat) (w : World) : World :=
  match ticks with
  | O => w
  | S ticks' =>
      let xDelay := 250 / portTICK_PERIOD_MS cfg in
      settle ticks' (Regulator_Read_ADC (Read_Charge_Status (vTaskDelay xDelay w)))
  end.

(** [if(precharge_timeout) { ... }] *)
Definition precharge_exit (w : World) : World :=
  if negb (precharge_timeout w =? 0) then
    let w := set_precharging_state 0 w in
    let w := set_precharge_timeout 0 w in
    let w := Regulator_HI_Z 1 w in
    settle 4 w
  else w.

(** The [ATTEMPT_UVP_RECOVERY] block.  The loop counter decreases with
    every pass, so its value is fuel enough. *)
Definition uvp_recovery (w : World) : World * list nat :=
  let '(w, passes) := precharge_loop (Z.to_nat (precharge_timeout w)) w in
  (precharge_exit w, passes).

(** The output decision of one pass of the task loop; [timer_count] is a
    local that starts at 0 in every pass. *)
Definition charger_dispatch (w : World) : World :=
  if ENABLE_BALANCING cfg then
    let timer_count := 0 in
    let timer_count := u8 (timer_count + 1) in
    if timer_count <? 90 then Control_Charger_Output w
    else if 100 <? timer_count then w
    else Regulator_HI_Z 1 w
  else Control_Charger_Output w.

(** The state in which the output decision of the pass is taken. *)
Definition before_control (w : World) : World :=
  let w := if negb (Read_Charge_Okay w =? 1)
           then Set_Error_State VOLTAGE_INPUT_ERROR w
           else if has_error VOLTAGE_INPUT_ERROR w
           then Clear_Error_State VOLTAGE_INPUT_ERROR w
           else w in
  let w := if has_error REGULATOR_COMMUNICATION_ERROR w
           then upd_regulator (set_connected 0) w else w in
  let w := Read_Charge_Status w in
  let w := Regulator_Read_ADC w in
  if ATTEMPT_UVP_RECOVERY cfg then fst (uvp_recovery w) else w.

Definition vRegulator_iteration (w : World) : World :=
  let xDelay := 250 / portTICK_PERIOD_MS cfg in
  vTaskDelay xDelay (charger_dispatch (before_control w)).

End Regulator.


(* ================================================================== *)
(** * bq25703a_regulator.c: the start of the regulator task *)

(** The registers and identifiers of [bq25703a_regulator.h] used before
    the task loop; like the constants of [Config] they have no value in
    the sources and are parameters. *)
Record DriverIds := mkDriverIds {
  MANUFACTURER_ID_ADDR : Z;
  DEVICE_ID_ADDR : Z;
  BQ26703A_MANUFACTURER_ID : Z;
  BQ26703A_DEVICE_ID : Z;
  CHARGE_OPTION_0_ADDR : Z;
  ADC_OPTION_ADDR : Z;
  ADC_ENABLED_BITMASK : Z
}.

Section Boot.

Variable cfg : Config.
Variable ids : DriverIds.

Definition Get_Regulator_Connection_State (w : World) : Z :=
  connected (regulator w).
Definition Get_VBUS_ADC_Reading (w : World) : Z := vbus_voltage (regulator w).
Definition Get_Input_Current_ADC_Reading (w : World) : Z :=
  input_current (regulator w).

(** ** [I2C_Read_Register]

    The address byte is transferred on its own (a write that carries no
    data byte), then the reply is received; the result is the receive
    buffer. *)
Definition I2C_Read_Register (addr_to_read : Z) (w : World)
  : list Z * World :=
  let '(r, w) := bus_operation (EvI2cWrite addr_to_read []) w in
  (rx r, w).

(** ** [Query_Regulator_Connection] *)
Definition Query_Regulator_Connection (w : World) : Z * World :=
  let '(buffer, w) := I2C_Read_Register (MANUFACTURER_ID_ADDR ids) w in
  let manufacturer_id := u8 (nth 0 buffer 0) in
  let '(buffer, w) := I2C_Read_Register (DEVICE_ID_ADDR ids) w in
  let device_id := u8 (nth 0 buffer 0) in
  if (device_id =? BQ26703A_DEVICE_ID ids)
     && (manufacturer_id =? BQ26703A_MANUFACTURER_ID ids)
  then (CONNECTED, Clear_Error_State REGULATOR_COMMUNICATION_ERROR w)
  else (NOT_CONNECTED, Set_Error_State REGULATOR_COMMUNICATION_ERROR w).

(** ** [Regulator_OTG_EN] *)
Definition Regulator_OTG_EN (otg_en : Z) (w : World) : World :=
  if otg_en =? 0
  then HAL_GPIO_WritePin EN_OTG GPIO_PIN_RESET w
  else HAL_GPIO_WritePin EN_OTG GPIO_PIN_SET w.

(** ** [Regulator_Set_Charge_Option_0]: [0b00100110] and [0b00001110] *)
Definition Regulator_Set_Charge_Option_0 (w : World) : World :=
  let charge_option_0_register_1_value := 38 in
  let charge_option_0_register_2_value := 14 in
  I2C_Write_Two_Byte_Register (CHARGE_OPTION_0_ADDR ids)
    charge_option_0_register_2_value charge_option_0_register_1_value w.

(** ** [Regulator_Set_ADC_Option] *)
Definition Regulator_Set_ADC_Option (w : World) : World :=
  let ADC_lsb_3A := u8 (ADC_ENABLED_BITMASK ids) in
  I2C_Write_Register (ADC_OPTION_ADDR ids) ADC_lsb_3A w.

(** ** [vRegulator]: what the task does before it enters its loop *)
Definition vRegulator_init (w : World) : World :=
  let xDelay := 250 / portTICK_PERIOD_MS cfg in
  (* Disable the output of the regulator for safety *)
  let w := Regulator_HI_Z 1 w in
  (* Disable OTG mode *)
  let w := Regulator_OTG_EN 0 w in
  (* Check if the regulator is connected *)
  let '(c, w) := Query_Regulator_Connection w in
  let w := upd_regulator (set_connected c) w in
  let w := Regulator_Set_Charge_Option_0 w in
  let w := Regulator_Set_ADC_Option w in
  vTaskDelay xDelay w.

End Boot.

(* ================================================================== *)
(** * Vocabulary of the properties *)

(** ** Cell ladder (spec section 4.4, step 3)

    [k] is the highest ladder bit that is set; a gap is a clear bit below
    it. *)
Definition highest_ladder_bit (m k : Z) : Prop :=
  Z.testbit m k = true /\ forall j, k < j <= 3 -> Z.testbit m j = false.
Definition ladder_gap (m k : Z) : Prop :=
  exists j, 0 <= j < k /\ Z.testbit m j = false.
Definition ladder_contiguous (m k : Z) : Prop :=
  forall j, 0 <= j < k -> Z.testbit m j = true.

(** What the balancing step owns: the latch, the discharge mask, the
    output latches and the command log (and the regulator record it
    consults). *)
Definition balancing_untouched (w w' : World) : Prop :=
  balancing_enabled (battery_state w') = balancing_enabled (battery_state w)
  /\ cell_balance_bitmask (battery_state w') = cell_balance_bitmask (battery_state w)
  /\ gpio w' = gpio w
  /\ trace w' = trace w
  /\ regulator w' = regulator w.

(** Some fault is set. *)
Definition any_fault (w : World) : Prop := exists f, error_state w f = true.

(** All four discharge resistors are off and the latch is open. *)
Definition discharge_off (w : World) : Prop :=
  gpio w CELL_1S_DIS_EN = GPIO_PIN_RESET
  /\ gpio w CELL_2S_DIS_EN = GPIO_PIN_RESET
  /\ gpio w CELL_3S_DIS_EN = GPIO_PIN_RESET
  /\ gpio w CELL_4S_DIS_EN = GPIO_PIN_RESET
  /\ balancing_enabled (battery_state w) = 0.

(** ** The balancing latch in the words of the spec (section 4.4) *)

Section SpecLatch.

Variable cfg : Config.

(** [scalar = max(1, CELL_BALANCING_SCALAR_MAX * (1 - (vmax - V_CELL_MIN_BALANCE)
    / (V_CELL_CHARGE_ENABLE - V_CELL_MIN_BALANCE)))] with the XT60 connected,
    1 otherwise; the arithmetic is that of C [float]. *)
Definition f_max (a b : float) : float := if f_lt b a then a else b.






End SpecLatch.


(** ** Values of floats as rationals *)

(** [2^e] *)
Definition Q2 (e : Z) : Q := Qpower 2 e.

(** [m * 2^e] *)
Definition scaled (m e : Z) : Q := (inject_Z m * Q2 e)%Q.

(** What the soft-float conversion makes of a value that is neither
    positive and finite nor positive infinity. *)
Definition not_positive (x : float) : Prop :=
  match x with
  | S754_finite false _ _ | S754_infinity false => False
  | _ => True
  end.

(** A float that is zero or positive with a value of at most [N]. *)
Definition at_most (x : float) (N : Z) : Prop :=
  match x with
  | S754_zero _ => True
  | S754_finite false m e => (scaled (Zpos m) e <= inject_Z N)%Q
  | _ => False
  end.

(** A scalar the code has clamped to [0, 1] (or a NaN, which no
    comparison catches). *)
Definition unit_scalar (s : float) : Prop :=
  f_gt s f_one = false /\ f_lt s f_zero = false.

(** ** Frames *)

(** What no driver operation touches: the battery record, the statics of
    the two tasks and the inputs. *)
Definition driver_quiet (w w' : World) : Prop :=
  battery_state w' = battery_state w
  /\ cell_connected_bitmask w' = cell_connected_bitmask w
  /\ precharging_state w' = precharging_state w
  /\ termination_counter w' = termination_counter w
  /\ precharge_timeout w' = precharge_timeout w
  /\ initial_precharge_wakeup w' = initial_precharge_wakeup w
  /\ adc w' = adc w
  /\ usbpd w' = usbpd w
  /\ chrg_ok_pin w' = chrg_ok_pin w.

(** ** Charge current and charge voltage commands *)

(** The limit kept by [Set_Charge_Current]. *)
Definition clamp_current (cfg : Config) (charge_current_limit : Z) : Z :=
  Z.min charge_current_limit (MAX_CHARGE_CURRENT_MA cfg).

(** The current in mA that the two bytes of a ChargeCurrent write stand
    for (spec section 4.1): a 7-bit code in steps of 64 mA, its low two
    bits in the top of the low byte. *)
Definition decode_charge_current (lsb msb : Z) : Z :=
  64 * (4 * msb + lsb / 64).

(** A command that is not a ChargeCurrent write above the ceiling. *)
Definition current_command_ok (cfg : Config) (ev : Event) : Prop :=
  match ev with
  | EvI2cWrite addr [lsb; msb] =>
      addr = CHARGE_CURRENT_ADDR ->
      decode_charge_current lsb msb <= MAX_CHARGE_CURRENT_MA cfg
  | _ => True
  end.

(** The voltage in mV that the two bytes of a MaxChargeVoltage write
    stand for, and the one byte of a MinimumSystemVoltage write. *)
Definition decode_max_charge_voltage (lsb msb : Z) : Z := 256 * msb + lsb.
Definition decode_minimum_system_voltage (b : Z) : Z := 256 * b.

(** The setpoints of spec section 6 and the minimum system voltages of
    the table in [Set_Charge_Voltage], in mV. *)
Definition charge_voltage_mv (cells : Z) : Z :=
  match cells with
  | 1 => 4192 | 2 => 8400 | 3 => 12592 | 4 => 16800 | _ => 0
  end.
Definition minimum_system_mv (cells : Z) : Z :=
  match cells with
  | 1 => 2816 | 2 => 5632 | 3 => 8448 | 4 => 11264 | _ => 1024
  end.

(** The conditions under which the output stays disabled. *)
Definition output_blocked (cfg : Config) (w : World) : Prop :=
  Get_XT60_Connection_State w <> CONNECTED
  \/ balance_connection_state cfg w <> CONNECTED
  \/ any_fault w
  \/ Get_Input_Power_Ready w <> READY
  \/ Get_Cell_Over_Voltage_State w <> 0.

(** The commands of the disabled branch, most recent first: current 0,
    the charge voltage registers for 0 cells, fan off, high impedance. *)
Definition disable_commands (cfg : Config) : list Event :=
  [EvI2cWrite CHARGE_CURRENT_ADDR [0; 0];
   EvI2cWrite MAX_CHARGE_VOLTAGE_ADDR
     [snd (fst (charge_voltage_registers cfg 0));
      fst (fst (charge_voltage_registers cfg 0))];
   EvI2cWrite MINIMUM_SYSTEM_VOLTAGE_ADDR [snd (charge_voltage_registers cfg 0)];
   EvGpioWrite FAN_ENn GPIO_PIN_SET;
   EvGpioWrite ILIM_HIZ GPIO_PIN_RESET].

(** Every fault that is set in [w] is still set in [w']. *)
Definition faults_kept (w w' : World) : Prop :=
  forall f, error_state w f = true -> error_state w' f = true.

(** The stored limit and every ChargeCurrent write so far respect the
    ceiling. *)
Definition under_ceiling (cfg : Config) (w : World) : Prop :=
  Get_Max_Charge_Current w <= MAX_CHARGE_CURRENT_MA cfg
  /\ Forall (current_command_ok cfg) (trace w).

(** ** The thermal scalar in the words of the spec (section 4.5, step 5b)

    [s = 1 - (0.0333 * T - 1.66)] clamped to [0, 1]; the arithmetic is
    that of the C expression: the product in [double], the rest in
    [float]. *)
Definition f_min (a b : float) : float := if f_lt a b then a else b.

Definition clamp_unit (x : float) : float := f_max f_zero (f_min f_one x).

Definition spec_thermal_scalar (T : Z) : float :=
  clamp_unit
    (f32_sub f_one
       (f32_sub
          (f32_of_f64 (f64_mul (f64_lit 333 10000) (f64_of_f32 (f32_of_Z T))))
          (f32_lit 166 100))).

(** A positive float, or plus infinity, of value at least [N * 2^k]. *)
Definition at_least (x : float) (N k : Z) : Prop :=
  match x with
  | S754_finite false m e => (scaled N k <= scaled (Zpos m) e)%Q
  | S754_infinity false => True
  | _ => False
  end.

(** A float with the sign bit set: a negative number, minus infinity or
    minus zero. *)
Definition negative (x : float) : Prop :=
  match x with
  | S754_zero true | S754_infinity true | S754_finite true _ _ => True
  | _ => False
  end.

(** A float that is exactly zero. *)
Definition is_zero (x : float) : bool :=
  match x with S754_zero _ => true | _ => false end.

(** The scalar over a range of temperatures: 1 up to 49 degrees, strictly
    between 0 and 1 from 50 to 79, and 0 from 80 on. *)
Definition scalar_is_one (T : Z) : bool :=
  match f_compare (power_scalar T) f_one with Some Eq => true | _ => false end.
Definition scalar_is_partial (T : Z) : bool :=
  f_lt f_zero (power_scalar T) && f_lt (power_scalar T) f_one.
Definition scalar_is_zero (T : Z) : bool := is_zero (power_scalar T).

(** [lo, lo + 1, ..., lo + n - 1] *)
Definition Z_range (lo : Z) (n : nat) : list Z :=
  map (fun k => lo + Z.of_nat k) (seq 0 n).

(** ** UVP recovery *)

(** The commands of the settle ticks after the precharge, most recent
    first; [ps] are the poll counts of the conversions, most recent
    first: each tick waits, refreshes the charge status and takes one
    set of samples. *)
Definition settle_events (cfg : Config) (ps : list nat) : list Event :=
  flat_map (fun p => [EvAdcConversion p; EvChargeStatusRead;
                      EvDelay (250 / portTICK_PERIOD_MS cfg)]) ps.

(** The commands of the ticks of the precharge pulses, most recent
    first; [ps] are the poll counts of the conversions, most recent
    first: each tick writes the charge voltage registers for
    [NUM_SERIES] cells and the recovery current, releases high impedance
    (the fan with it), reads the charge status, takes one set of samples
    and waits. *)
Definition pulse_events (cfg : Config) (ps : list nat) : list Event :=
  flat_map
    (fun p =>
       [EvDelay (250 / portTICK_PERIOD_MS cfg);
        EvAdcConversion p;
        EvChargeStatusRead;
        EvGpioWrite FAN_ENn GPIO_PIN_RESET;
        EvGpioWrite ILIM_HIZ GPIO_PIN_SET;
        EvI2cWrite CHARGE_CURRENT_ADDR
          [snd (charge_current_registers
                  (clamp_current cfg (UVP_RECOVERY_CURRENT_MA cfg)));
           fst (charge_current_registers
                  (clamp_current cfg (UVP_RECOVERY_CURRENT_MA cfg)))];
        EvI2cWrite MAX_CHARGE_VOLTAGE_ADDR
          [snd (fst (charge_voltage_registers cfg (u8 (NUM_SERIES cfg))));
           fst (fst (charge_voltage_registers cfg (u8 (NUM_SERIES cfg))))];
        EvI2cWrite MINIMUM_SYSTEM_VOLTAGE_ADDR
          [snd (charge_voltage_registers cfg (u8 (NUM_SERIES cfg)))]]) ps.

(** The reply that the driver operation number [k], counted from 0 in
    [w], receives. *)
Definition reply_at (k : nat) (w : World) : BusReply := nth k (bus w) quiet_bus.

(** The charge status that a reply to the status read stands for. *)
Definition status_of (cfg : Config) (r : BusReply) : Z :=
  if Z.land (u8 (nth 1 (rx r) 0)) (CHARGING_ENABLED_MASK cfg) =? 0 then 0 else 1.

(** The samples that the bytes of a conversion stand for, and the samples
    stored in the regulator record: battery, system, charge current,
    input current, bus. *)
Definition samples_of (cfg : Config) (r : BusReply) : Z * Z * Z * Z * Z :=
  (u32 (u8 (nth 0 (rx r) 0) * VBAT_ADC_SCALE cfg + VBAT_ADC_OFFSET cfg),
   u32 (u8 (nth 1 (rx r) 0) * VSYS_ADC_SCALE cfg + VSYS_ADC_OFFSET cfg),
   u32 (u8 (nth 2 (rx r) 0) * ICHG_ADC_SCALE cfg),
   u32 (u8 (nth 3 (rx r) 0) * IIN_ADC_SCALE cfg),
   u32 (u8 (nth 4 (rx r) 0) * VBUS_ADC_SCALE cfg + VBUS_ADC_OFFSET cfg)).

Definition stored_samples (w : World) : Z * Z * Z * Z * Z :=
  (vbat_voltage (regulator w), vsys_voltage (regulator w),
   charge_current (regulator w), input_current (regulator w),
   vbus_voltage (regulator w)).

(** ** Charge termination *)

(** A pass in which the termination test is made and holds. *)
Definition terminating_pass (cfg : Config) (w : World) : Prop :=
  output_gate cfg w = true /\ termination_condition cfg w = true.

(** The ticks of the scheduler among the commands. *)
Definition is_delay (ev : Event) : bool :=
  match ev with EvDelay _ => true | _ => false end.

(* ================================================================== *)
(** * Vocabulary of the further properties *)

(** ** Battery monitor *)

(** The ladder bitmask that the samples alone stand for. *)
Definition ladder_of_samples (cfg : Config) (w : World) : Z :=
  let th := VOLTAGE_CONNECTED_THRESHOLD cfg in
  (if (th <? Get_Four_S_Voltage w) && (th <? Get_Cell_Voltage 3 w) then 8 else 0)
  + (if (th <? Get_Three_S_Voltage w) && (th <? Get_Cell_Voltage 2 w) then 4 else 0)
  + (if (th <? Get_Two_S_Voltage w) && (th <? Get_Cell_Voltage 1 w) then 2 else 0)
  + (if th <? Get_Cell_Voltage 0 w then 1 else 0).

(** The four ladder writes on a bitmask, for the four tap results. *)
Definition ladder_writes (m : Z) (b3 b2 b1 b0 : bool) : Z :=
  let step (m : Z) (b : bool) (bit : Z) :=
    if b then u8 (Z.lor m bit) else u8 (Z.land m (Z.lnot bit)) in
  step (step (step (step m b3 8) b2 4) b1 2) b0 1.

Definition taps_value (b3 b2 b1 b0 : bool) : Z :=
  (if b3 then 8 else 0) + (if b2 then 4 else 0) + (if b1 then 2 else 0)
  + (if b0 then 1 else 0).

Definition ladder_writes_ok (b3 b2 b1 b0 : bool) (m : Z) : bool :=
  ladder_writes m b3 b2 b1 b0 =? Z.lor (Z.land m 240) (taps_value b3 b2 b1 b0).

(** The discharge pin of cell [i]; cell 0 is the 1S resistor. *)
Definition discharge_pin (i : Z) : Pin :=
  match i with
  | 0 => CELL_1S_DIS_EN
  | 1 => CELL_2S_DIS_EN
  | 2 => CELL_3S_DIS_EN
  | _ => CELL_4S_DIS_EN
  end.

(** A write to one of the four discharge pins. *)
Definition discharge_write (ev : Event) : Prop :=
  match ev with
  | EvGpioWrite (CELL_1S_DIS_EN | CELL_2S_DIS_EN | CELL_3S_DIS_EN
                 | CELL_4S_DIS_EN) _ => True
  | _ => False
  end.

(** What belongs to the regulator task and to the hardware it talks to:
    its record, its statics, its three pins, its two faults, the bus,
    and the inputs. *)
Definition regulator_side (w : World) :=
  (regulator w, precharging_state w, termination_counter w,
   precharge_timeout w, initial_precharge_wakeup w,
   (gpio w ILIM_HIZ, gpio w FAN_ENn, gpio w EN_OTG),
   (error_state w REGULATOR_COMMUNICATION_ERROR,
    error_state w VOLTAGE_INPUT_ERROR),
   bus w, (adc w, usbpd w, chrg_ok_pin w)).

(** The log grew by writes to the discharge pins only. *)
Definition logged_discharge_writes (w w' : World) : Prop :=
  exists evs, trace w' = evs ++ trace w /\ Forall discharge_write evs.

(** What the balancing step leaves alone in the battery record, with the
    ladder bitmask and the fault registry. *)
Definition outside_balancing (w : World) :=
  (xt60_connected (battery_state w), balance_port_connected (battery_state w),
   number_of_cells (battery_state w), requires_charging (battery_state w),
   cell_over_voltage (battery_state w), cell_connected_bitmask w,
   error_state w).

(** The decision of the second loop of [Balance_Battery] for cell [i]:
    balancing is on and the cell is at least the scaled hysteresis above
    the lowest cell, or the cell is over voltage. *)
Definition cell_selected (cfg : Config) (latch min_cell_voltage : Z)
    (scalar : float) (w : World) (i : Z) : bool :=
  ((latch =? 1)
   && f_ge (f32_of_Z (u32 (Get_Cell_Voltage i w - min_cell_voltage)))
           (f32_mul (f32_of_Z (CELL_BALANCING_HYSTERESIS_V cfg)) scalar))
  || (CELL_OVER_VOLTAGE_ENABLE_DISCHARGE cfg <=? Get_Cell_Voltage i w).

(** ** Regulator task *)

(** What belongs to the battery monitor and to the sampler: the battery
    record, the ladder bitmask, the four discharge pins, the three
    faults of the monitor, and the inputs. *)
Definition monitor_side (w : World) :=
  (battery_state w, cell_connected_bitmask w,
   (gpio w CELL_1S_DIS_EN, gpio w CELL_2S_DIS_EN,
    gpio w CELL_3S_DIS_EN, gpio w CELL_4S_DIS_EN),
   (error_state w CELL_CONNECTION_ERROR, error_state w CELL_VOLTAGE_ERROR,
    error_state w MCU_OVER_TEMP),
   (adc w, usbpd w, chrg_ok_pin w)).

(** The fan runs exactly when the output is enabled: the fan-enable
    line is active low, the high-impedance line is low for high
    impedance. *)
Definition fan_follows_output (w : World) : Prop :=
  gpio w FAN_ENn = negb (gpio w ILIM_HIZ).

(** What the regulator task owns: its record, its statics and its three
    pins.  Nothing else in the firmware writes them. *)
Definition regulator_owned (w : World) :=
  (regulator w, precharging_state w, termination_counter w,
   precharge_timeout w, initial_precharge_wakeup w,
   (gpio w ILIM_HIZ, gpio w FAN_ENn, gpio w EN_OTG)).

(** [at_pass cfg ids w0 n w]: started in [w0], the regulator task has
    run its initialisation and [n] passes of its loop and is about to
    start the next pass in [w].  After the initialisation and after
    every pass the other tasks and the hardware may have changed
    whatever the regulator task does not own. *)
Inductive at_pass (cfg : Config) (ids : DriverIds) (w0 : World)
  : nat -> World -> Prop :=
| at_first_pass w :
    regulator_owned w = regulator_owned (vRegulator_init cfg ids w0) ->
    at_pass cfg ids w0 0 w
| at_next_pass n w w' :
    at_pass cfg ids w0 n w ->
    regulator_owned w' = regulator_owned (vRegulator_iteration cfg w) ->
    at_pass cfg ids w0 (S n) w'.

(** The state in which a pass of the task loop reaches the UVP recovery
    block. *)
Definition before_recovery (cfg : Config) (w : World) : World :=
  let w := if negb (Read_Charge_Okay w =? 1)
           then Set_Error_State VOLTAGE_INPUT_ERROR w
           else if has_error VOLTAGE_INPUT_ERROR w
           then Clear_Error_State VOLTAGE_INPUT_ERROR w
           else w in
  let w := if has_error REGULATOR_COMMUNICATION_ERROR w
           then upd_regulator (set_connected 0) w else w in
  Regulator_Read_ADC cfg (Read_Charge_Status cfg w).

(** The commands of the initialisation, most recent first. *)
Definition boot_commands (cfg : Config) (ids : DriverIds) : list Event :=
  [EvDelay (250 / portTICK_PERIOD_MS cfg);
   EvI2cWrite (ADC_OPTION_ADDR ids) [u8 (ADC_ENABLED_BITMASK ids)];
   EvI2cWrite (CHARGE_OPTION_0_ADDR ids) [14; 38];
   EvI2cWrite (DEVICE_ID_ADDR ids) [];
   EvI2cWrite (MANUFACTURER_ID_ADDR ids) [];
   EvGpioWrite EN_OTG GPIO_PIN_RESET;
   EvGpioWrite FAN_ENn GPIO_PIN_SET;
   EvGpioWrite ILIM_HIZ GPIO_PIN_RESET].

(** The identifiers that the regulator answers to the query: the first
    byte of the first and of the second reply. *)
Definition answered_manufacturer_id (w : World) : Z :=
  u8 (nth 0 (rx (nth 0 (bus w) quiet_bus)) 0).
Definition answered_device_id (w : World) : Z :=
  u8 (nth 0 (rx (nth 1 (bus w) quiet_bus)) 0).

(** The pins of the regulator task as it leaves them: the fan follows
    the output and OTG is disabled. *)
Definition pins_settled (w : World) : Prop :=
  fan_follows_output w /\ gpio w EN_OTG = GPIO_PIN_RESET.

(** One tick of the precharge pulse. *)
Definition precharge_tick (cfg : Config) (w : World) : World :=
  vTaskDelay (250 / portTICK_PERIOD_MS cfg)
    (Regulator_Read_ADC cfg
       (Read_Charge_Status cfg
          (Regulator_HI_Z 0
             (Set_Charge_Current cfg (UVP_RECOVERY_CURRENT_MA cfg)
                (Set_Charge_Voltage cfg (u8 (NUM_SERIES cfg)) w))))).

(** The statics of the UVP recovery. *)
Definition recovery_over (w : World) : Prop :=
  precharge_timeout w = 0 /\ precharging_state w = 0.

(** What the battery monitor can find wrong with the pack or the board:
    the controller too hot, a counted cell below the safe limit, or a
    counted cell above the voltage that disables charging ([n] is the
    cell count). *)
Definition pack_unsafe (cfg : Config) (w : World) (n : Z) : Prop :=
  MAX_MCU_TEMP_C_FOR_OPERATION cfg < Get_MCU_Temperature w
  \/ (ENABLE_BALANCING cfg = true
      /\ exists i, 0 <= i < n
           /\ (Get_Cell_Voltage i w < MIN_CELL_VOLTAGE_SAFE_LIMIT cfg
               \/ CELL_OVER_VOLTAGE_DISABLE_CHARGING cfg < Get_Cell_Voltage i w)).

(** The log only grows. *)
Definition trace_extends (w w' : World) : Prop :=
  exists evs, trace w' = evs ++ trace w.

(** What a pass of the regulator task settles before it reads the
    regulator: the connection flag and the input-voltage fault. *)
Definition pass_flags (w : World) :=
  (connected (regulator w), error_state w VOLTAGE_INPUT_ERROR).
(* ================================================================== *)
(** * An example configuration

    Values in the style of the board's headers, used to evaluate the
    model at concrete inputs.  Voltages are in units of 10 microvolts
    (multiplier 100000); powers in mW; currents in mA. *)

Definition example_config : Config :=
  {| ENABLE_BALANCING := true;
     FIXED_VOLTAGE_CHARGING := false;
     ATTEMPT_UVP_RECOVERY := true;
     NUM_SERIES := 4;
     FIXED_VOLTAGE_SETPOINT := 16800;
     FIXED_VOLTAGE_PRECHARGE := 12288;
     VOLTAGE_CONNECTED_THRESHOLD := 150000;
     CELL_DELTA_V_ENABLE_BALANCING := 1500;
     CELL_BALANCING_HYSTERESIS_V := 1000;
     CELL_BALANCING_SCALAR_MAX := 10;
     MIN_CELL_V_FOR_BALANCING := 300000;
     CELL_VOLTAGE_TO_ENABLE_CHARGING := 418000;
     CELL_OVER_VOLTAGE_ENABLE_DISCHARGE := 420000;
     CELL_OVER_VOLTAGE_DISABLE_CHARGING := 422000;
     MIN_CELL_VOLTAGE_SAFE_LIMIT := 200000;
     MAX_MCU_TEMP_C_FOR_OPERATION := 80;
     MCU_TEMP_C_RECOVERY := 70;
     BATTERY_ADC_MULTIPLIER := 100000;
     REG_ADC_MULTIPLIER := 100000;
     VBAT_ADC_SCALE := 6400;
     VBAT_ADC_OFFSET := 288000;
     VSYS_ADC_SCALE := 6400;
     VSYS_ADC_OFFSET := 288000;
     ICHG_ADC_SCALE := 6400;
     IIN_ADC_SCALE := 5000;
     VBUS_ADC_SCALE := 6400;
     VBUS_ADC_OFFSET := 320000;
     CHARGING_ENABLED_MASK := 4;
     MAX_CHARGE_CURRENT_MA := 6000;
     MAX_CHARGING_POWER := 60000;
     TEMP_THROTTLE_THRESH_C := 50;
     BATTERY_DISCONNECT_THRESH := 421500;
     UVP_RECOVERY_CURRENT_MA := 128;
     ASSUME_EFFICIENCY := f32_lit 9 10;
     CHARGE_TERM_CURRENT_MA := f32_of_Z 100;
     portTICK_PERIOD_MS := 1 |}.

Definition no_faults : Faults := fun _ => false.

(** The globals as the C runtime initialises them, with all outputs low,
    a 3S pack at 3.6 V per cell on both connectors and a 20 V / 3 A
    source. *)
Definition example_world : World :=
  {| battery_state := mkBattery 0 0 0 0 0 0 0;
     cell_connected_bitmask := 0;
     error_state := no_faults;
     regulator := mkRegulator 0 0 0 0 0 0 0 0 0 0 0;
     precharging_state := 0;
     termination_counter := 0;
     precharge_timeout := 300;
     initial_precharge_wakeup := 1;
     gpio := fun _ => false;
     trace := [];
     adc := mkAdc 1080000 360000 360000 360000 0 720000 1080000 0 25;
     usbpd := mkUsbPd READY 3000 60000;
     chrg_ok_pin := 1;
     bus := [] |}.

(** The example world with the regulator reporting 20 V on VBUS and the
    controller at [T] degrees. *)
Definition world_at_temperature (T : Z) : World :=
  {| battery_state := mkBattery 1 1 3 0 1 0 0;
     cell_connected_bitmask := 7;
     error_state := no_faults;
     regulator := mkRegulator 1 0 0 0 0 2000000 1080000 1080000 0 0 0;
     precharging_state := 0;
     termination_counter := 0;
     precharge_timeout := 0;
     initial_precharge_wakeup := 0;
     gpio := fun _ => false;
     trace := [];
     adc := mkAdc 1080000 360000 360000 360000 0 720000 1080000 0 T;
     usbpd := mkUsbPd READY 3000 60000;
     chrg_ok_pin := 1;
     bus := [] |}.

(** A full 3S pack left on the charger: connected on both connectors, no
    fault, the source ready, no charge required and no charge current
    measured; [c] is the value of the termination counter. *)
Definition terminating_world (c : Z) : World :=
  {| battery_state := mkBattery 1 1 3 0 0 0 0;
     cell_connected_bitmask := 7;
     error_state := no_faults;
     regulator := mkRegulator 1 0 0 0 0 2000000 1254400 1254400 0 0 0;
     precharging_state := 0;
     termination_counter := c;
     precharge_timeout := 0;
     initial_precharge_wakeup := 0;
     gpio := fun _ => false;
     trace := [];
     adc := mkAdc 1254000 418000 418000 418000 0 836000 1254000 0 25;
     usbpd := mkUsbPd READY 3000 60000;
     chrg_ok_pin := 1;
     bus := [] |}.


(** The same pack with the latch open and 20 mV between the cells, both
    above the floor. *)
Definition unbalanced_world : World :=
  {| battery_state := mkBattery 0 1 2 0 0 0 0;
     cell_connected_bitmask := 3;
     error_state := no_faults;
     regulator := mkRegulator 1 0 0 0 0 0 0 0 0 0 0;
     precharging_state := 0;
     termination_counter := 0;
     precharge_timeout := 0;
     initial_precharge_wakeup := 0;
     gpio := fun _ => false;
     trace := [];
     adc := mkAdc 0 380000 382000 0 0 762000 0 0 25;
     usbpd := mkUsbPd NOT_READY 0 0;
     chrg_ok_pin := 1;
     bus := [] |}.

(** A 4S ladder with the second tap missing (scenario S4 of the spec). *)
Definition gap_world : World :=
  {| battery_state := mkBattery 0 0 0 0 0 0 0;
     cell_connected_bitmask := 0;
     error_state := no_faults;
     regulator := mkRegulator 1 0 0 0 0 0 0 0 0 0 0;
     precharging_state := 0;
     termination_counter := 0;
     precharge_timeout := 0;
     initial_precharge_wakeup := 0;
     gpio := fun _ => false;
     trace := [];
     adc := mkAdc 1110000 370000 0 370000 370000 0 740000 1110000 25;
     usbpd := mkUsbPd READY 3000 60000;
     chrg_ok_pin := 1;
     bus := [] |}.

(** The regulator reports charging while two discharge resistors are on. *)
Definition charging_world : World :=
  {| battery_state := mkBattery 1 1 3 1 1 0 5;
     cell_connected_bitmask := 7;
     error_state := no_faults;
     regulator := mkRegulator 1 1 0 0 0 2000000 1080000 1080000 96000 0 1500;
     precharging_state := 0;
     termination_counter := 0;
     precharge_timeout := 0;
     initial_precharge_wakeup := 0;
     gpio := fun p => match p with
                      | CELL_1S_DIS_EN | CELL_3S_DIS_EN => true
                      | _ => false
                      end;
     trace := [];
     adc := mkAdc 1080000 362000 359000 361000 0 721000 1080000 0 25;
     usbpd := mkUsbPd READY 3000 60000;
     chrg_ok_pin := 1;
     bus := [] |}.

(** The controller above its operating temperature, one cell above the
    over-voltage discharge threshold, the latch closed and a resistor on
    (scenario S3 of the spec with a fault on top). *)
Definition overheated_world : World :=
  {| battery_state := mkBattery 1 1 3 1 1 0 1;
     cell_connected_bitmask := 7;
     error_state := fun f => Fault_eqb f MCU_OVER_TEMP;
     regulator := mkRegulator 1 0 0 0 0 2000000 1080000 1080000 0 0 1500;
     precharging_state := 0;
     termination_counter := 0;
     precharge_timeout := 0;
     initial_precharge_wakeup := 0;
     gpio := fun p => match p with CELL_1S_DIS_EN => true | _ => false end;
     trace := [];
     adc := mkAdc 1205000 425000 390000 390000 0 815000 1205000 0 85;
     usbpd := mkUsbPd READY 3000 60000;
     chrg_ok_pin := 1;
     bus := [] |}.

(** A bus on which the regulator reports 12.48 V on VBAT at the twentieth
    conversion: five driver operations per tick of the precharge pulse,
    the last of them the ADC conversion. *)
Definition recovering_bus : list BusReply :=
  flat_map (fun k => [quiet_bus; quiet_bus; quiet_bus; quiet_bus;
                      mkBusReply false [if (k =? 19)%nat then 150 else 0] 1])
           (seq 0 20).

(** Boot with a pack under its UVP threshold that recovers during the
    first pulse. *)
Definition uvp_world : World :=
  {| battery_state := mkBattery 0 0 0 0 0 0 0;
     cell_connected_bitmask := 0;
     error_state := no_faults;
     regulator := mkRegulator 1 0 0 0 0 2000000 288000 288000 0 0 0;
     precharging_state := 0;
     termination_counter := 0;
     precharge_timeout := 300;
     initial_precharge_wakeup := 1;
     gpio := fun _ => false;
     trace := [];
     adc := mkAdc 1120000 280000 280000 280000 280000 560000 840000 1120000 25;
     usbpd := mkUsbPd READY 3000 60000;
     chrg_ok_pin := 1;
     bus := recovering_bus |}.

(** ** Further examples *)

(** Registers and identifiers in the style of the data sheet. *)
Definition example_ids : DriverIds :=
  {| MANUFACTURER_ID_ADDR := 0x2E;
     DEVICE_ID_ADDR := 0x2F;
     BQ26703A_MANUFACTURER_ID := 0x40;
     BQ26703A_DEVICE_ID := 0x78;
     CHARGE_OPTION_0_ADDR := 0x00;
     ADC_OPTION_ADDR := 0x3A;
     ADC_ENABLED_BITMASK := 0x7F |}.

(** The example configuration with fixed-voltage charging compiled in. *)
Definition fixed_voltage_config : Config :=
  {| ENABLE_BALANCING := ENABLE_BALANCING example_config;
     FIXED_VOLTAGE_CHARGING := true;
     ATTEMPT_UVP_RECOVERY := ATTEMPT_UVP_RECOVERY example_config;
     NUM_SERIES := NUM_SERIES example_config;
     FIXED_VOLTAGE_SETPOINT := FIXED_VOLTAGE_SETPOINT example_config;
     FIXED_VOLTAGE_PRECHARGE := FIXED_VOLTAGE_PRECHARGE example_config;
     VOLTAGE_CONNECTED_THRESHOLD := VOLTAGE_CONNECTED_THRESHOLD example_config;
     CELL_DELTA_V_ENABLE_BALANCING := CELL_DELTA_V_ENABLE_BALANCING example_config;
     CELL_BALANCING_HYSTERESIS_V := CELL_BALANCING_HYSTERESIS_V example_config;
     CELL_BALANCING_SCALAR_MAX := CELL_BALANCING_SCALAR_MAX example_config;
     MIN_CELL_V_FOR_BALANCING := MIN_CELL_V_FOR_BALANCING example_config;
     CELL_VOLTAGE_TO_ENABLE_CHARGING := CELL_VOLTAGE_TO_ENABLE_CHARGING example_config;
     CELL_OVER_VOLTAGE_ENABLE_DISCHARGE :=
       CELL_OVER_VOLTAGE_ENABLE_DISCHARGE example_config;
     CELL_OVER_VOLTAGE_DISABLE_CHARGING :=
       CELL_OVER_VOLTAGE_DISABLE_CHARGING example_config;
     MIN_CELL_VOLTAGE_SAFE_LIMIT := MIN_CELL_VOLTAGE_SAFE_LIMIT example_config;
     MAX_MCU_TEMP_C_FOR_OPERATION := MAX_MCU_TEMP_C_FOR_OPERATION example_config;
     MCU_TEMP_C_RECOVERY := MCU_TEMP_C_RECOVERY example_config;
     BATTERY_ADC_MULTIPLIER := BATTERY_ADC_MULTIPLIER example_config;
     REG_ADC_MULTIPLIER := REG_ADC_MULTIPLIER example_config;
     VBAT_ADC_SCALE := VBAT_ADC_SCALE example_config;
     VBAT_ADC_OFFSET := VBAT_ADC_OFFSET example_config;
     VSYS_ADC_SCALE := VSYS_ADC_SCALE example_config;
     VSYS_ADC_OFFSET := VSYS_ADC_OFFSET example_config;
     ICHG_ADC_SCALE := ICHG_ADC_SCALE example_config;
     IIN_ADC_SCALE := IIN_ADC_SCALE example_config;
     VBUS_ADC_SCALE := VBUS_ADC_SCALE example_config;
     VBUS_ADC_OFFSET := VBUS_ADC_OFFSET example_config;
     CHARGING_ENABLED_MASK := CHARGING_ENABLED_MASK example_config;
     MAX_CHARGE_CURRENT_MA := MAX_CHARGE_CURRENT_MA example_config;
     MAX_CHARGING_POWER := MAX_CHARGING_POWER example_config;
     TEMP_THROTTLE_THRESH_C := TEMP_THROTTLE_THRESH_C example_config;
     BATTERY_DISCONNECT_THRESH := BATTERY_DISCONNECT_THRESH example_config;
     UVP_RECOVERY_CURRENT_MA := UVP_RECOVERY_CURRENT_MA example_config;
     ASSUME_EFFICIENCY := ASSUME_EFFICIENCY example_config;
     CHARGE_TERM_CURRENT_MA := CHARGE_TERM_CURRENT_MA example_config;
     portTICK_PERIOD_MS := portTICK_PERIOD_MS example_config |}.

(** A 3S pack on both connectors, no fault, the first cell at 4.25 V and
    the discharge mask left at cell 4 by an earlier pack. *)
Definition over_voltage_world : World :=
  {| battery_state := mkBattery 1 1 3 0 0 0 8;
     cell_connected_bitmask := 7;
     error_state := no_faults;
     regulator := mkRegulator 1 0 0 0 0 2000000 1205000 1205000 0 0 0;
     precharging_state := 0;
     termination_counter := 0;
     precharge_timeout := 0;
     initial_precharge_wakeup := 0;
     gpio := fun _ => false;
     trace := [];
     adc := mkAdc 1205000 425000 390000 390000 0 815000 1205000 0 25;
     usbpd := mkUsbPd READY 3000 60000;
     chrg_ok_pin := 1;
     bus := [] |}.

(** Boot with the over-temperature fault already set and a regulator
    that reports no battery voltage. *)
Definition faulted_boot_world : World :=
  {| battery_state := mkBattery 0 0 0 0 0 0 0;
     cell_connected_bitmask := 0;
     error_state := fun f => Fault_eqb f MCU_OVER_TEMP;
     regulator := mkRegulator 1 0 0 0 0 0 0 0 0 0 0;
     precharging_state := 0;
     termination_counter := 0;
     precharge_timeout := 300;
     initial_precharge_wakeup := 1;
     gpio := fun _ => false;
     trace := [];
     adc := mkAdc 0 0 0 0 0 0 0 0 85;
     usbpd := mkUsbPd READY 3000 60000;
     chrg_ok_pin := 1;
     bus := [] |}.

(* ================================================================== *)
(** * Floating-point facts *)


(** ** Shifting a mantissa right *)

Lemma iter_pos_nat {A} (f : A -> A) p x :
  iter_pos f p x = Nat.iter (Pos.to_nat p) f x.
Proof.
  revert x. induction p as [p IH | p IH |]; intros x.
  - cbn [iter_pos]. rewrite !IH. rewrite Pos2Nat.inj_xI.
    replace (S (2 * Pos.to_nat p)) with (Pos.to_nat p + (Pos.to_nat p + 1))%nat by lia.
    rewrite !Nat.iter_add. reflexivity.
  - cbn [iter_pos]. rewrite !IH. rewrite Pos2Nat.inj_xO.
    replace (2 * Pos.to_nat p)%nat with (Pos.to_nat p + Pos.to_nat p)%nat by lia.
    rewrite Nat.iter_add. reflexivity.
  - reflexivity.
Qed.

(** One step halves the mantissa and remembers whether anything was
    lost. *)
Lemma shr_1_spec m r s :
  0 <= m ->
  shr_m (shr_1 (Build_shr_record m r s)) = m / 2
  /\ (shr_r (shr_1 (Build_shr_record m r s))
      || shr_s (shr_1 (Build_shr_record m r s))
      = negb (m mod 2 =? 0) || r || s).
Proof.
  intros Hm. destruct m as [| p | p]; [| | lia].
  - simpl. split; [reflexivity |]. now destruct r, s.
  - destruct p as [p | p |]; simpl shr_1; simpl shr_m; simpl shr_r; simpl shr_s.
    + split. { rewrite Pos2Z.inj_xI. rewrite Z.mul_comm, Z.div_add_l by lia.
               now rewrite (Z.div_small 1 2) by lia. }
      rewrite Pos2Z.inj_xI. rewrite Z.add_comm, Z.mul_comm, Z.mod_add by lia.
      now destruct r, s.
    + split. { rewrite Pos2Z.inj_xO. now rewrite Z.mul_comm, Z.div_mul by lia. }
      rewrite Pos2Z.inj_xO. rewrite Z.mul_comm, Z.mod_mul by lia.
      now destruct r, s.
    + split; [reflexivity |]. now destruct r, s.
Qed.

Lemma shr_iter_spec k m :
  0 <= m ->
  let rec := Nat.iter k shr_1 (Build_shr_record m false false) in
  shr_m rec = m / 2 ^ Z.of_nat k
  /\ (shr_r rec || shr_s rec = negb (m mod 2 ^ Z.of_nat k =? 0)).
Proof.
  intros Hm. induction k as [| k IH].
  - simpl. rewrite Z.div_1_r, Z.mod_1_r. now split.
  - cbv zeta in *. rewrite Nat.iter_succ.
    destruct (Nat.iter k shr_1 (Build_shr_record m false false)) as [m' r' s'].
    simpl shr_m in IH; simpl shr_r in IH; simpl shr_s in IH.
    destruct IH as [IH1 IH2].
    assert (Hm' : 0 <= m') by (rewrite IH1; apply Z.div_pos; lia).
    destruct (shr_1_spec m' r' s' Hm') as [H1 H2].
    rewrite H1, H2, IH1. rewrite <- orb_assoc, IH2.
    rewrite Nat2Z.inj_succ, Z.pow_succ_r by lia.
    split.
    + rewrite Z.div_div by lia. f_equal. lia.
    + assert (P : 0 < 2 ^ Z.of_nat k) by (apply Z.pow_pos_nonneg; lia).
      rewrite (Z.mul_comm 2). rewrite Z.rem_mul_r by lia.
      pose proof (Z.mod_pos_bound m (2 ^ Z.of_nat k) P).
      pose proof (Z.mod_pos_bound (m / 2 ^ Z.of_nat k) 2 ltac:(lia)).
      destruct (Z.eqb_spec (m mod 2 ^ Z.of_nat k) 0);
        destruct (Z.eqb_spec ((m / 2 ^ Z.of_nat k) mod 2) 0);
        destruct (Z.eqb_spec (m mod 2 ^ Z.of_nat k
                              + 2 ^ Z.of_nat k * ((m / 2 ^ Z.of_nat k) mod 2)) 0);
        simpl; try reflexivity; exfalso; nia.
Qed.

Lemma digits2_pos_size p : digits2_pos p = Pos.size p.
Proof. induction p; simpl; congruence. Qed.

(** [2^(d-1) <= m < 2^d] for the number of digits [d] of [m]. *)
Lemma digits2_bounds p :
  2 ^ (Zpos (digits2_pos p) - 1) <= Zpos p < 2 ^ Zpos (digits2_pos p).
Proof.
  rewrite digits2_pos_size. split.
  - pose proof (Pos.size_le p) as H.
    assert (H' : 2 ^ Zpos (Pos.size p) <= 2 * Zpos p).
    { rewrite <- Pos2Z.inj_pow. lia. }
    replace (Zpos (Pos.size p)) with (Z.succ (Zpos (Pos.size p) - 1)) in H' by lia.
    rewrite Z.pow_succ_r in H' by lia. lia.
  - pose proof (Pos.size_gt p) as H.
    rewrite <- Pos2Z.inj_pow. lia.
Qed.

Section Shift.

Variables prec emax : Z.

Lemma shr_fexp_spec m e :
  0 <= m ->
  let n := fexp prec emax (Zdigits2 m + e) - e in
  let rec := fst (shr_fexp prec emax m e loc_Exact) in
  let e' := snd (shr_fexp prec emax m e loc_Exact) in
  (n <= 0 -> shr_m rec = m /\ e' = e /\ loc_of_shr_record rec = loc_Exact)
  /\ (0 < n -> shr_m rec = m / 2 ^ n /\ e' = e + n
              /\ (m mod 2 ^ n = 0 -> loc_of_shr_record rec = loc_Exact)).
Proof.
  intros Hm n rec e'. subst rec e'. unfold shr_fexp. fold n.
  unfold shr. simpl shr_record_of_loc.
  destruct n as [| p | p] eqn:En.
  - split; [intros _; now simpl | lia].
  - split; [lia | intros _]. simpl fst; simpl snd.
    rewrite iter_pos_nat.
    destruct (shr_iter_spec (Pos.to_nat p) m Hm) as [H1 H2].
    rewrite positive_nat_Z in H1, H2.
    split; [exact H1 | split; [reflexivity |]].
    intros Hz. rewrite Hz in H2. simpl in H2.
    destruct (Nat.iter (Pos.to_nat p) shr_1 _) as [m' r' s']. simpl in *.
    apply orb_false_iff in H2. destruct H2 as [-> ->]. reflexivity.
  - split; [intros _; now simpl | lia].
Qed.

Lemma round_nearest_even_bounds m l :
  m <= round_nearest_even m l <= m + 1
  /\ (l = loc_Exact -> round_nearest_even m l = m).
Proof.
  destruct l as [| c]; simpl.
  - split; [lia | reflexivity].
  - destruct c; [destruct (Z.even m) | |]; split; try lia; discriminate.
Qed.

End Shift.

(** ** Values as rationals *)


Lemma Q2_pos e : (0 < Q2 e)%Q.
Proof. apply Qpower_0_lt. reflexivity. Qed.

Lemma Q2_add a b : (Q2 (a + b) == Q2 a * Q2 b)%Q.
Proof. apply Qpower_plus. discriminate. Qed.

Lemma Q2_Z e : 0 <= e -> (Q2 e == inject_Z (2 ^ e))%Q.
Proof. intros He. unfold Q2. now rewrite Zpower_Qpower. Qed.


Lemma scaled_shift_down m e n :
  0 <= m -> 0 < n -> (scaled (m / 2 ^ n) (e + n) <= scaled m e)%Q.
Proof.
  intros Hm Hn. unfold scaled. rewrite Z.add_comm, Q2_add, (Q2_Z n) by lia.
  rewrite Qmult_assoc, <- inject_Z_mult.
  apply Qmult_le_compat_r; [| apply Qlt_le_weak, Q2_pos].
  rewrite <- Zle_Qle. rewrite Z.mul_comm. apply Z.mul_div_le.
  apply Z.pow_pos_nonneg; lia.
Qed.

Lemma scaled_shift_exact m e n :
  0 < n -> m mod 2 ^ n = 0 -> (scaled (m / 2 ^ n) (e + n) == scaled m e)%Q.
Proof.
  intros Hn Hz. unfold scaled. rewrite Z.add_comm, Q2_add, (Q2_Z n) by lia.
  rewrite Qmult_assoc, <- inject_Z_mult.
  assert (P : 0 < 2 ^ n) by (apply Z.pow_pos_nonneg; lia).
  replace (m / 2 ^ n * 2 ^ n) with m; [reflexivity |].
  rewrite (Z.div_mod m (2 ^ n)) at 1 by lia. lia.
Qed.

Lemma scaled_mono m m' e : m <= m' -> (scaled m e <= scaled m' e)%Q.
Proof.
  intros H. unfold scaled.
  apply Qmult_le_compat_r; [now rewrite <- Zle_Qle | apply Qlt_le_weak, Q2_pos].
Qed.

(** A value below an integer [N], on a grid that contains the integers,
    stays below [N] when moved up to the next point of the grid. *)
Lemma scaled_next_le m e N :
  e <= 0 -> (scaled m e < inject_Z N)%Q -> (scaled (m + 1) e <= inject_Z N)%Q.
Proof.
  intros He H. unfold scaled in *.
  assert (HN : (inject_Z N == inject_Z (N * 2 ^ (- e)) * Q2 e)%Q).
  { rewrite inject_Z_mult, <- (Q2_Z (- e)) by lia.
    rewrite <- Qmult_assoc, <- Q2_add. replace (- e + e) with 0 by lia.
    unfold Q2. simpl. ring. }
  rewrite HN in *. apply Qmult_lt_r in H; [| apply Q2_pos].
  apply Qmult_le_compat_r; [| apply Qlt_le_weak, Q2_pos].
  rewrite <- Zlt_Qlt in H. rewrite <- Zle_Qle. lia.
Qed.

Lemma scaled_ge_pow m e : 1 <= m -> (Q2 e <= scaled m e)%Q.
Proof.
  intros H. unfold scaled. rewrite <- (Qmult_1_l (Q2 e)) at 1.
  apply Qmult_le_compat_r; [| apply Qlt_le_weak, Q2_pos].
  change 1%Q with (inject_Z 1). now rewrite <- Zle_Qle.
Qed.

Lemma Q2_mono a b : a <= b -> (Q2 a <= Q2 b)%Q.
Proof.
  intros H. replace b with (a + (b - a)) by lia. rewrite Q2_add.
  rewrite <- (Qmult_1_r (Q2 a)) at 1.
  apply Qmult_le_l; [apply Q2_pos |].
  rewrite (Q2_Z (b - a)) by lia. change 1%Q with (inject_Z 1).
  rewrite <- Zle_Qle. assert (0 < 2 ^ (b - a)) by (apply Z.pow_pos_nonneg; lia). lia.
Qed.

(** ** Rounding never crosses a small integer *)

Section RoundBelow.

Variables prec emax : Z.
Hypothesis Hprec : 0 < prec.
Hypothesis Hemax : 2 * prec <= emax.

Lemma fexp_le_0 d e :
  fexp prec emax (d + e) <= 0 \/ fexp prec emax (d + e) = d + e - prec.
Proof. unfold fexp, emin. lia. Qed.

(** The result of rounding [mx * 2^ex <= N] for an integer [N < 2^prec]. *)
Lemma binary_round_aux_le sx mx ex N :
  0 <= N < 2 ^ prec ->
  (scaled (Zpos mx) ex <= inject_Z N)%Q ->
  match binary_round_aux prec emax sx (Zpos mx) ex loc_Exact with
  | S754_zero s => s = sx
  | S754_finite s m e => s = sx /\ (scaled (Zpos m) e <= inject_Z N)%Q
  | _ => False
  end.
Proof.
  intros HN Hle. unfold binary_round_aux.
  pose proof (shr_fexp_spec prec emax (Zpos mx) ex ltac:(lia)) as S1.
  cbv zeta in S1.
  destruct (shr_fexp prec emax (Zpos mx) ex loc_Exact) as [rec1 e1].
  simpl fst in S1; simpl snd in S1.
  set (n1 := fexp prec emax (Zdigits2 (Zpos mx) + ex) - ex) in *.
  set (m1 := shr_m rec1) in *.
  set (m2 := round_nearest_even m1 (loc_of_shr_record rec1)).
  destruct (round_nearest_even_bounds m1 (loc_of_shr_record rec1)) as [Hb Hx].
  fold m2 in Hb, Hx.
  assert (H2 : 0 <= m2 /\ (scaled m2 e1 <= inject_Z N)%Q).
  { destruct S1 as [Sa Sb]. destruct (Z_le_gt_dec n1 0) as [Hn | Hn].
    - destruct (Sa Hn) as (Em & Ee & El). rewrite (Hx El), Em, Ee.
      split; [lia | exact Hle].
    - destruct (Sb ltac:(lia)) as (Em & Ee & El).
      assert (P : 0 < 2 ^ n1) by (apply Z.pow_pos_nonneg; lia).
      assert (Hm1 : 0 <= m1) by (rewrite Em; apply Z.div_pos; lia).
      split; [lia |].
      destruct (Z.eq_dec (Zpos mx mod 2 ^ n1) 0) as [Hz | Hnz].
      + rewrite (Hx (El Hz)), Em, Ee.
        now rewrite scaled_shift_exact by lia.
      + (* something was lost: the value is strictly above [m1 * 2^e1] *)
        assert (Hlt : (scaled m1 e1 < scaled (Zpos mx) ex)%Q).
        { rewrite Ee. unfold scaled.
          rewrite Z.add_comm, Q2_add, (Q2_Z n1), Qmult_assoc by lia.
          rewrite <- inject_Z_mult. apply Qmult_lt_compat_r; [apply Q2_pos |].
          rewrite <- Zlt_Qlt. rewrite Em.
          pose proof (Z.div_mod (Zpos mx) (2 ^ n1) ltac:(lia)).
          pose proof (Z.mod_pos_bound (Zpos mx) (2 ^ n1) P). lia. }
        apply Qle_trans with (scaled (m1 + 1) e1); [apply scaled_mono; lia |].
        apply scaled_next_le; [| eapply Qlt_le_trans; eassumption].
        rewrite Ee. unfold n1. simpl Zdigits2.
        destruct (fexp_le_0 (Zpos (digits2_pos mx)) ex) as [H0 | H0]; [lia |].
        (* otherwise the value has more than [prec] digits *)
        destruct (Z_le_gt_dec (Zpos (digits2_pos mx) + ex - prec) 0) as [|Hbig];
          [lia | exfalso].
        assert (Hge : (inject_Z (2 ^ prec) <= scaled (Zpos mx) ex)%Q).
        { rewrite <- Q2_Z by lia.
          apply Qle_trans with (Q2 (Zpos (digits2_pos mx) - 1 + ex));
            [apply Q2_mono; lia |].
          rewrite Q2_add. unfold scaled.
          apply Qmult_le_compat_r; [| apply Qlt_le_weak, Q2_pos].
          rewrite Q2_Z by lia. rewrite <- Zle_Qle. apply digits2_bounds. }
        assert (Hc : (inject_Z (2 ^ prec) <= inject_Z N)%Q)
          by (eapply Qle_trans; eassumption).
        rewrite <- Zle_Qle in Hc. lia. }
  destruct H2 as [Hm2 Hv2].
  pose proof (shr_fexp_spec prec emax m2 e1 Hm2) as S2. cbv zeta in S2.
  destruct (shr_fexp prec emax m2 e1 loc_Exact) as [rec3 e3].
  simpl fst in S2; simpl snd in S2.
  set (n2 := fexp prec emax (Zdigits2 m2 + e1) - e1) in *.
  assert (H3 : 0 <= shr_m rec3 /\ (scaled (shr_m rec3) e3 <= inject_Z N)%Q).
  { destruct S2 as [Sa Sb]. destruct (Z_le_gt_dec n2 0) as [Hn | Hn].
    - destruct (Sa Hn) as (Em & Ee & _). rewrite Em, Ee. now split.
    - destruct (Sb ltac:(lia)) as (Em & Ee & _). rewrite Em, Ee.
      split; [apply Z.div_pos; [lia | apply Z.pow_pos_nonneg; lia] |].
      eapply Qle_trans; [apply scaled_shift_down; lia | exact Hv2]. }
  destruct H3 as [Hm3 Hv3].
  destruct (shr_m rec3) as [| m3 | m3]; [reflexivity | | lia].
  destruct (Z.leb_spec e3 (emax - prec)) as [He | He]; [now split |].
  (* an overflow would need a value of at least [2^(emax - prec + 1)] *)
  assert (Hge : (Q2 e3 <= inject_Z N)%Q).
  { apply Qle_trans with (scaled (Zpos m3) e3);
      [apply scaled_ge_pow; lia | exact Hv3]. }
  assert (Hc : (inject_Z (2 ^ prec) <= inject_Z N)%Q).
  { eapply Qle_trans; [| exact Hge]. rewrite <- Q2_Z by lia. apply Q2_mono. lia. }
  rewrite <- Zle_Qle in Hc. lia.
Qed.

End RoundBelow.

(** ** Consequences for the operations of the model *)

Lemma pos_iter_xO m d : Zpos (Pos.iter xO m d) = Zpos m * 2 ^ Zpos d.
Proof.
  induction d as [| d IH] using Pos.peano_ind.
  - simpl. lia.
  - rewrite Pos.iter_succ, Pos2Z.inj_xO, IH, Pos2Z.inj_succ, Z.pow_succ_r by lia.
    lia.
Qed.

Lemma shl_align_scaled mx ex ex' :
  (scaled (Zpos (fst (shl_align mx ex ex'))) (snd (shl_align mx ex ex'))
   == scaled (Zpos mx) ex)%Q.
Proof.
  unfold shl_align. destruct (ex' - ex) as [| d | d] eqn:E; simpl;
    try reflexivity.
  rewrite pos_iter_xO. unfold scaled.
  rewrite inject_Z_mult, <- (Q2_Z (Zpos d)) by lia.
  rewrite <- Qmult_assoc, <- Q2_add.
  replace (Zpos d + ex') with ex by lia. reflexivity.
Qed.


Lemma not_positive_to_u32 x : not_positive x -> f_to_u32 x = 0.
Proof. destruct x as [s | [|] | | [|] m e]; simpl; tauto. Qed.


Lemma f_to_u32_nonneg x : 0 <= f_to_u32 x.
Proof.
  destruct x as [s | [|] | | [|] m e]; simpl; try lia.
  apply Z.min_glb; [| lia]. apply Z.shiftl_nonneg. lia.
Qed.

Lemma at_most_to_u32 x N : 0 <= N -> at_most x N -> f_to_u32 x <= N.
Proof.
  intros HN H. destruct x as [s | s | | [|] m e]; simpl in *; try tauto; try lia.
  etransitivity; [apply Z.le_min_l |].
  destruct (Z_le_gt_dec 0 e) as [He | He].
  - rewrite Z.shiftl_mul_pow2 by lia. unfold scaled in H.
    rewrite Q2_Z, <- inject_Z_mult, <- Zle_Qle in H by lia. exact H.
  - rewrite Z.shiftl_div_pow2 by lia.
    assert (P : 0 < 2 ^ (- e)) by (apply Z.pow_pos_nonneg; lia).
    apply Z.div_le_upper_bound; [exact P |].
    unfold scaled in H.
    assert (H' : (inject_Z (Zpos m) <= inject_Z (2 ^ (- e) * N))%Q).
    { rewrite inject_Z_mult, <- (Q2_Z (- e)) by lia.
      apply (Qmult_le_r _ _ (Q2 e)); [apply Q2_pos |].
      eapply Qle_trans; [exact H |].
      rewrite (Qmult_comm (Q2 (- e))), <- Qmult_assoc, <- Q2_add.
      replace (- e + e) with 0 by lia. unfold Q2. simpl. rewrite Qmult_1_r.
      apply Qle_refl. }
    now rewrite <- Zle_Qle in H'.
Qed.

Section Binary32.

Let prec := 24.
Let emax := 128.

Lemma binary_round_le sx mx ex N :
  0 <= N < 2 ^ prec ->
  (scaled (Zpos mx) ex <= inject_Z N)%Q ->
  match binary_round prec emax sx mx ex with
  | S754_zero s => s = sx
  | S754_finite s m e => s = sx /\ (scaled (Zpos m) e <= inject_Z N)%Q
  | _ => False
  end.
Proof.
  intros HN H. unfold binary_round.
  pose proof (shl_align_scaled mx ex
                (fexp prec emax (Zpos (digits2_pos mx) + ex))) as E.
  destruct (shl_align mx ex _) as [mz ez]. simpl in E.
  apply binary_round_aux_le; [unfold prec; lia | unfold prec, emax; lia | exact HN |].
  now rewrite E.
Qed.

(** An integer below [2^24] converts to a float that does not exceed it. *)
Lemma f32_of_Z_at_most n : 0 <= n < 2 ^ 24 -> at_most (f32_of_Z n) n.
Proof.
  intros Hn. unfold f32_of_Z, binary_normalize.
  destruct n as [| p | p]; [exact I | | lia].
  pose proof (binary_round_le false p 0 (Zpos p) Hn) as H.
  fold prec emax.
  destruct (binary_round prec emax false p 0) as [s | s | | s m e].
  - exact I.
  - apply H. unfold scaled, Q2. simpl. rewrite Qmult_1_r. apply Qle_refl.
  - apply H. unfold scaled, Q2. simpl. rewrite Qmult_1_r. apply Qle_refl.
  - destruct H as [-> H]; [| exact H].
    unfold scaled, Q2. simpl. rewrite Qmult_1_r. apply Qle_refl.
Qed.

(** The sign of a negative integer survives the conversion. *)
Lemma binary_round_aux_sign sx m e l :
  match binary_round_aux prec emax sx m e l with
  | S754_zero s | S754_infinity s | S754_finite s _ _ => s = sx
  | S754_nan => True
  end.
Proof.
  unfold binary_round_aux.
  destruct (shr_fexp prec emax m e l) as [r1 e1].
  destruct (shr_fexp prec emax _ e1 loc_Exact) as [r2 e2].
  destruct (shr_m r2); [reflexivity | | exact I].
  now destruct (e2 <=? emax - prec).
Qed.

Lemma f32_of_Z_negative n :
  n < 0 ->
  match f32_of_Z n with
  | S754_zero s | S754_infinity s | S754_finite s _ _ => s = true
  | S754_nan => True
  end.
Proof.
  intros Hn. unfold f32_of_Z, binary_normalize. destruct n as [| p | p]; try lia.
  unfold binary_round. destruct (shl_align p 0 _) as [mz ez].
  apply binary_round_aux_sign.
Qed.

End Binary32.

(** ** Comparisons *)

Lemma scaled_common z e e0 :
  e0 <= e -> (scaled z e == scaled (z * 2 ^ (e - e0)) e0)%Q.
Proof.
  intros H. unfold scaled. rewrite inject_Z_mult, <- (Q2_Z (e - e0)) by lia.
  rewrite <- Qmult_assoc, <- Q2_add. replace (e - e0 + e0) with e by lia.
  reflexivity.
Qed.

Lemma cmp_scaled_not_Lt z1 e1 z2 e2 :
  cmp_scaled z1 e1 z2 e2 <> Lt -> (scaled z2 e2 <= scaled z1 e1)%Q.
Proof.
  unfold cmp_scaled. intros H.
  rewrite (scaled_common z1 e1 (Z.min e1 e2)), (scaled_common z2 e2 (Z.min e1 e2))
    by lia.
  apply scaled_mono.
  destruct (Z.compare_spec (z1 * 2 ^ (e1 - Z.min e1 e2))
                           (z2 * 2 ^ (e2 - Z.min e1 e2))); try lia.
  now contradiction H.
Qed.

Lemma scaled_one : (scaled 8388608 (-23) == 1)%Q.
Proof. vm_compute. reflexivity. Qed.

Lemma f_one_eq : f_one = S754_finite false 8388608 (-23).
Proof. reflexivity. Qed.


Lemma unit_scalar_cases s :
  unit_scalar s ->
  match s with
  | S754_nan | S754_zero _ => True
  | S754_finite false m e => (scaled (Zpos m) e <= 1)%Q
  | _ => False
  end.
Proof.
  intros [H1 H0]. unfold f_gt, f_lt in *. rewrite f_one_eq in H1.
  destruct s as [s | [|] | | [|] m e]; simpl in *; try exact I;
    try discriminate.
  - (* negative *)
    unfold cmp_scaled in H0.
    assert (P : 0 < 2 ^ (e - Z.min e 0)) by (apply Z.pow_pos_nonneg; lia).
    destruct (Z.compare_spec (Z.neg m * 2 ^ (e - Z.min e 0))
                             (0 * 2 ^ (0 - Z.min e 0))); try discriminate; nia.
  - (* positive *)
    assert (Hn : cmp_scaled 8388608 (-23) (Zpos m) e <> Lt).
    { intros E. rewrite E in H1. discriminate. }
    apply cmp_scaled_not_Lt in Hn.
    now rewrite scaled_one in Hn.
Qed.

Lemma f_le_unit_scalar s :
  f_le f_zero s = true -> f_le s f_one = true -> unit_scalar s.
Proof.
  unfold unit_scalar, f_gt, f_le, f_lt. rewrite f_one_eq.
  destruct s as [s | [|] | | [|] m e]; simpl; try discriminate; try tauto.
  - unfold cmp_scaled.
    destruct (Z.compare_spec (0 * 2 ^ (0 - Z.min 0 e))
                (Z.neg m * 2 ^ (e - Z.min 0 e))); try discriminate.
    + assert (P : 0 < 2 ^ (e - Z.min 0 e)) by (apply Z.pow_pos_nonneg; lia). nia.
    + assert (P : 0 < 2 ^ (e - Z.min 0 e)) by (apply Z.pow_pos_nonneg; lia). nia.
  - intros _ H. split.
    + unfold cmp_scaled in *. rewrite (Z.min_comm (-23) e).
      rewrite Z.compare_antisym.
      destruct (Z.pos m * 2 ^ (e - Z.min e (-23))
                ?= 8388608 * 2 ^ (-23 - Z.min e (-23))); simpl; congruence.
    + unfold cmp_scaled.
      assert (P : 0 < 2 ^ (e - Z.min e 0)) by (apply Z.pow_pos_nonneg; lia).
      destruct (Z.compare_spec (Z.pos m * 2 ^ (e - Z.min e 0))
                  (0 * 2 ^ (0 - Z.min e 0))); try reflexivity. nia.
Qed.

(** ** Scaling a small integer by a unit scalar *)

Lemma scale_finite mx ex ms es N :
  0 <= N < 2 ^ 24 ->
  (scaled (Zpos mx) ex <= inject_Z N)%Q ->
  (scaled (Zpos ms) es <= 1)%Q ->
  at_most (f32_mul (S754_finite false mx ex) (S754_finite false ms es)) N.
Proof.
  intros HN Hx Hs. unfold f32_mul, SFmul. simpl xorb.
  pose proof (binary_round_aux_le 24 128 ltac:(lia) ltac:(lia) false
                (mx * ms) (ex + es) N HN) as H.
  assert (Hp : (scaled (Zpos (mx * ms)) (ex + es) <= inject_Z N)%Q).
  { unfold scaled in *. rewrite Pos2Z.inj_mul, inject_Z_mult, Q2_add.
    setoid_replace (inject_Z (Zpos mx) * inject_Z (Zpos ms) * (Q2 ex * Q2 es))%Q
      with ((inject_Z (Zpos mx) * Q2 ex) * (inject_Z (Zpos ms) * Q2 es))%Q by ring.
    rewrite <- (Qmult_1_r (inject_Z N)).
    apply Qmult_le_compat_nonneg; (split; [| assumption]);
      (apply Qmult_le_0_compat; [now rewrite <- (Zle_Qle 0) | apply Qlt_le_weak, Q2_pos]). }
  specialize (H Hp).
  destruct (binary_round_aux 24 128 false (Zpos (mx * ms)) (ex + es) loc_Exact)
    as [s | s | | s m e]; simpl; try tauto.
  destruct H as [-> H]. exact H.
Qed.

(** [n * s], truncated, does not exceed [n] when [0 <= n < 2^24] and the
    scalar lies in [0, 1]. *)
Lemma scale_at_most x s N :
  0 <= N < 2 ^ 24 -> at_most x N -> unit_scalar s ->
  f_to_u32 (f32_mul x s) <= N.
Proof.
  intros HN Hx Hs. apply unit_scalar_cases in Hs.
  destruct x as [sx | sx | | [|] mx ex]; simpl in Hx; try tauto.
  - (* zero *)
    rewrite not_positive_to_u32; [lia |].
    destruct s as [s | [|] | | [|] m e]; simpl in *; tauto.
  - destruct s as [ss | [|] | | [|] ms es]; simpl in Hs; try contradiction.
    + rewrite not_positive_to_u32; [lia | exact I].
    + rewrite not_positive_to_u32; [lia | exact I].
    + apply at_most_to_u32; [lia |]. now apply scale_finite.
Qed.

Lemma scale_negative x s :
  match x with
  | S754_zero sx | S754_infinity sx | S754_finite sx _ _ => sx = true
  | S754_nan => True
  end ->
  unit_scalar s -> f_to_u32 (f32_mul x s) = 0.
Proof.
  intros Hx Hs. apply unit_scalar_cases in Hs. apply not_positive_to_u32.
  destruct x as [sx | sx | | sx mx ex]; try subst sx;
    destruct s as [ss | [|] | | [|] ms es]; simpl in *; try tauto.
  pose proof (binary_round_aux_sign true (Zpos (mx * ms)) (ex + es) loc_Exact) as H.
  destruct (binary_round_aux 24 128 true _ _ _) as [s | s | | s m e];
    simpl in *; try subst s; exact I.
Qed.

Theorem f32_scale_le n s :
  n < 2 ^ 24 -> unit_scalar s ->
  f_to_u32 (f32_mul (f32_of_Z n) s) <= Z.max n 0.
Proof.
  intros Hn Hs. destruct (Z_lt_ge_dec n 0) as [Hneg | Hpos].
  - rewrite scale_negative; [lia | now apply f32_of_Z_negative | exact Hs].
  - rewrite Z.max_l by lia.
    apply scale_at_most; [lia | apply f32_of_Z_at_most; lia | exact Hs].
Qed.

(** ** Rounding never falls below a number of the format *)

Lemma scaled_pos m e : 0 < m -> (0 < scaled m e)%Q.
Proof.
  intros H. unfold scaled. apply Qmult_lt_0_compat; [| apply Q2_pos].
  now rewrite <- (Zlt_Qlt 0).
Qed.

Lemma scaled_le_inv m m' e : (scaled m e <= scaled m' e)%Q -> m <= m'.
Proof.
  unfold scaled. intros H. apply Qmult_le_r in H; [| apply Q2_pos].
  now rewrite <- Zle_Qle in H.
Qed.

Lemma digits2_Z_bounds m :
  0 < m -> 2 ^ (Zdigits2 m - 1) <= m < 2 ^ Zdigits2 m.
Proof. intros H. destruct m as [| p | p]; try lia. apply digits2_bounds. Qed.

Lemma scaled_mul a e b f : (scaled (a * b) (e + f) == scaled a e * scaled b f)%Q.
Proof.
  unfold scaled. rewrite inject_Z_mult, Q2_add. ring.
Qed.

Lemma scaled_sub a b e : (scaled (a - b) e == scaled a e - scaled b e)%Q.
Proof.
  unfold scaled, Z.sub. rewrite inject_Z_plus, inject_Z_opp. ring.
Qed.

Lemma scaled_sign m e : (0 < scaled m e)%Q -> 0 < m.
Proof.
  intros H. destruct (Z_lt_le_dec 0 m) as [| Hm]; [assumption | exfalso].
  apply (Qlt_irrefl 0). eapply Qlt_le_trans; [exact H |].
  apply Qle_trans with (scaled 0 e); [now apply scaled_mono |].
  unfold scaled. simpl. rewrite Qmult_0_l. apply Qle_refl.
Qed.

Lemma shl_align_snd mx ex ez : ez <= ex -> snd (shl_align mx ex ez) = ez.
Proof.
  intros H. unfold shl_align. destruct (ez - ex) as [| d | d] eqn:E; simpl; lia.
Qed.

Section RoundAbove.

Variables prec emax : Z.
Hypothesis Hprec : 0 < prec.

(** Shifting a mantissa to its canonical exponent keeps it at or above
    [N * 2^k] when [N] has at most [prec] digits. *)
Lemma shr_fexp_ge m e N k :
  0 < N < 2 ^ prec -> emin prec emax <= k ->
  0 <= m -> (scaled N k <= scaled m e)%Q ->
  let m' := shr_m (fst (shr_fexp prec emax m e loc_Exact)) in
  let e' := snd (shr_fexp prec emax m e loc_Exact) in
  0 <= m' /\ (scaled N k <= scaled m' e')%Q.
Proof.
  intros HN Hk Hm Hle m' e'. subst m' e'.
  assert (Hmpos : 0 < m).
  { destruct (Z.eq_dec m 0) as [-> |]; [| lia].
    exfalso. pose proof (scaled_pos N k ltac:(lia)) as P.
    unfold scaled at 2 in Hle. simpl in Hle. rewrite Qmult_0_l in Hle.
    apply (Qlt_irrefl 0). eapply Qlt_le_trans; eassumption. }
  destruct (shr_fexp_spec prec emax m e Hm) as [Sa Sb].
  set (n := fexp prec emax (Zdigits2 m + e) - e) in *.
  destruct (Z_le_gt_dec n 0) as [Hn | Hn].
  - destruct (Sa Hn) as (Em & Ee & _). rewrite Em, Ee. split; [lia | exact Hle].
  - destruct (Sb ltac:(lia)) as (Em & Ee & _). rewrite Em, Ee.
    assert (P : 0 < 2 ^ n) by (apply Z.pow_pos_nonneg; lia).
    split; [apply Z.div_pos; lia |].
    destruct (Z_le_gt_dec (e + n) k) as [Hgrid | Hhigh].
    + (* [N * 2^k] is on the grid of the result *)
      rewrite (scaled_common N k (e + n)) by lia.
      apply scaled_mono. apply Z.div_le_lower_bound; [lia |].
      rewrite (scaled_common N k e), (scaled_common m e e) in Hle by lia.
      apply scaled_le_inv in Hle. rewrite Z.sub_diag, Z.mul_1_r in Hle.
      replace (k - e) with ((k - (e + n)) + n) in Hle by lia.
      rewrite Z.pow_add_r in Hle by lia. lia.
    + (* the result has [prec] digits and an exponent above [k] *)
      assert (He : e + n = Zdigits2 m + e - prec).
      { unfold n, fexp in *. lia. }
      assert (Hd : n = Zdigits2 m - prec) by lia.
      pose proof (digits2_Z_bounds m Hmpos) as [Hlo _].
      assert (Hm1 : 2 ^ (prec - 1) <= m / 2 ^ n).
      { apply Z.div_le_lower_bound; [lia |].
        rewrite <- Z.pow_add_r by lia.
        replace (n + (prec - 1)) with (Zdigits2 m - 1) by lia. exact Hlo. }
      apply Qle_trans with (scaled (2 ^ (prec - 1)) (e + n));
        [| now apply scaled_mono].
      apply Qle_trans with (scaled (2 ^ prec) k);
        [apply scaled_mono; lia |].
      rewrite (scaled_common (2 ^ (prec - 1)) (e + n) k) by lia.
      apply scaled_mono. rewrite <- Z.pow_add_r by lia.
      apply Z.pow_le_mono_r; lia.
Qed.

Lemma binary_round_aux_ge sx mx ex N k :
  0 < N < 2 ^ prec -> emin prec emax <= k ->
  (scaled N k <= scaled (Zpos mx) ex)%Q ->
  match binary_round_aux prec emax sx (Zpos mx) ex loc_Exact with
  | S754_finite s m e => s = sx /\ (scaled N k <= scaled (Zpos m) e)%Q
  | S754_infinity s => s = sx
  | _ => False
  end.
Proof.
  intros HN Hk Hle. unfold binary_round_aux.
  pose proof (shr_fexp_ge (Zpos mx) ex N k HN Hk ltac:(lia) Hle) as S1.
  cbv zeta in S1.
  destruct (shr_fexp prec emax (Zpos mx) ex loc_Exact) as [rec1 e1].
  simpl fst in S1; simpl snd in S1. destruct S1 as [Hm1 Hv1].
  destruct (round_nearest_even_bounds (shr_m rec1) (loc_of_shr_record rec1))
    as [Hb _].
  set (m2 := round_nearest_even (shr_m rec1) (loc_of_shr_record rec1)) in *.
  assert (Hv2 : (scaled N k <= scaled m2 e1)%Q).
  { eapply Qle_trans; [exact Hv1 | apply scaled_mono; lia]. }
  pose proof (shr_fexp_ge m2 e1 N k HN Hk ltac:(lia) Hv2) as S2.
  cbv zeta in S2.
  destruct (shr_fexp prec emax m2 e1 loc_Exact) as [rec3 e3].
  simpl fst in S2; simpl snd in S2. destruct S2 as [Hm3 Hv3].
  destruct (shr_m rec3) as [| m3 | m3]; [| | lia].
  - exfalso. pose proof (scaled_pos N k ltac:(lia)) as P.
    unfold scaled at 2 in Hv3. simpl in Hv3. rewrite Qmult_0_l in Hv3.
    apply (Qlt_irrefl 0). eapply Qlt_le_trans; eassumption.
  - destruct (e3 <=? emax - prec); [now split | reflexivity].
Qed.

Lemma binary_round_ge sx mx ex N k :
  0 < N < 2 ^ prec -> emin prec emax <= k ->
  (scaled N k <= scaled (Zpos mx) ex)%Q ->
  match binary_round prec emax sx mx ex with
  | S754_finite s m e => s = sx /\ (scaled N k <= scaled (Zpos m) e)%Q
  | S754_infinity s => s = sx
  | _ => False
  end.
Proof.
  intros HN Hk H. unfold binary_round.
  pose proof (shl_align_scaled mx ex
                (fexp prec emax (Zpos (digits2_pos mx) + ex))) as E.
  destruct (shl_align mx ex _) as [mz ez]. simpl in E.
  apply binary_round_aux_ge; [exact HN | exact Hk | now rewrite E].
Qed.

Lemma binary_round_at_least mx ex N k :
  0 < N < 2 ^ prec -> emin prec emax <= k ->
  (scaled N k <= scaled (Zpos mx) ex)%Q ->
  at_least (binary_round prec emax false mx ex) N k.
Proof.
  intros HN Hk H.
  pose proof (binary_round_ge false mx ex N k HN Hk H) as R.
  destruct (binary_round prec emax false mx ex) as [s | s | | s m e];
    try contradiction.
  - now subst s.
  - destruct R as [-> R]. exact R.
Qed.

Lemma binary_normalize_at_least z e N k :
  0 < N < 2 ^ prec -> emin prec emax <= k ->
  (scaled N k <= scaled z e)%Q ->
  at_least (binary_normalize prec emax z e false) N k.
Proof.
  intros HN Hk H.
  assert (Hz : 0 < z).
  { apply (scaled_sign z e). eapply Qlt_le_trans; [| exact H].
    apply scaled_pos. lia. }
  destruct z as [| p | p]; try lia.
  now apply binary_round_at_least.
Qed.

(** The product with a positive constant. *)
Lemma SFmul_at_least mc ec x N k N' k' :
  0 < N' < 2 ^ prec -> emin prec emax <= k' ->
  (scaled N' k' <= scaled (Zpos mc * N) (ec + k))%Q ->
  at_least x N k ->
  at_least (SFmul prec emax (S754_finite false mc ec) x) N' k'.
Proof.
  intros HN Hk H Hx. destruct x as [s | [|] | | [|] m e]; try contradiction.
  - exact I.
  - simpl in Hx. cbn [SFmul xorb].
    pose proof (binary_round_aux_ge false (mc * m) (ec + e)
                  N' k' HN Hk) as R.
    assert (V : (scaled N' k' <= scaled (Zpos (mc * m)) (ec + e))%Q).
    { eapply Qle_trans; [exact H |].
      rewrite Pos2Z.inj_mul, !scaled_mul.
      apply Qmult_le_l; [apply scaled_pos; lia | exact Hx]. }
    specialize (R V).
    destruct (binary_round_aux prec emax false _ _ _) as [s | s | | s m' e'];
      try contradiction.
    + now subst s.
    + destruct R as [-> R]. exact R.
Qed.

(** Subtracting a positive constant. *)
Lemma SFsub_at_least x my ey N k N' k' :
  0 < N' < 2 ^ prec -> emin prec emax <= k' ->
  (scaled N' k' + scaled (Zpos my) ey <= scaled N k)%Q ->
  at_least x N k ->
  at_least (SFsub prec emax x (S754_finite false my ey)) N' k'.
Proof.
  intros HN Hk H Hx. destruct x as [s | [|] | | [|] m e]; try contradiction.
  - exact I.
  - simpl in Hx. cbn [SFsub cond_Zopp].
    apply binary_normalize_at_least; [exact HN | exact Hk |].
    rewrite scaled_sub.
    pose proof (shl_align_scaled m e (Z.min e ey)) as E1.
    pose proof (shl_align_scaled my ey (Z.min e ey)) as E2.
    rewrite shl_align_snd in E1, E2 by lia.
    rewrite E1, E2.
    apply Qle_trans with (scaled N k - scaled (Zpos my) ey)%Q.
    + apply Qle_minus_iff. apply Qle_minus_iff in H.
      eapply Qle_trans; [exact H |]. apply Qle_lteq. right. ring.
    + apply Qplus_le_l. exact Hx.
Qed.

(** A positive constant minus a larger number. *)
Lemma SFsub_negative mx ex y N k :
  (scaled (Zpos mx) ex < scaled N k)%Q ->
  at_least y N k ->
  negative (SFsub prec emax (S754_finite false mx ex) y).
Proof.
  intros H Hy. destruct y as [s | [|] | | [|] m e]; try contradiction.
  - exact I.
  - simpl in Hy. cbn [SFsub cond_Zopp].
    pose proof (shl_align_scaled mx ex (Z.min ex e)) as E1.
    pose proof (shl_align_scaled m e (Z.min ex e)) as E2.
    rewrite shl_align_snd in E1, E2 by lia.
    set (a := fst (shl_align mx ex (Z.min ex e))) in *.
    set (b := fst (shl_align m e (Z.min ex e))) in *.
    assert (Hd : Zpos a - Zpos b < 0).
    { assert (L : (scaled (Zpos a) (Z.min ex e) < scaled (Zpos b) (Z.min ex e))%Q).
      { rewrite E1, E2. eapply Qlt_le_trans; eassumption. }
      destruct (Z_lt_le_dec (Zpos a) (Zpos b)) as [| G]; [lia | exfalso].
      apply (scaled_mono _ _ (Z.min ex e)) in G.
      apply (Qlt_irrefl (scaled (Zpos a) (Z.min ex e))).
      eapply Qlt_le_trans; eassumption. }
    destruct (Zpos a - Zpos b) as [| p | p] eqn:Ed; try lia.
    unfold binary_normalize, binary_round.
    destruct (shl_align p _ _) as [mz ez].
    unfold binary_round_aux.
    destruct (shr_fexp_spec prec emax (Zpos mz) ez ltac:(lia)) as [Sa Sb].
    assert (H1 : 0 <= shr_m (fst (shr_fexp prec emax (Zpos mz) ez loc_Exact))).
    { destruct (Z_le_gt_dec (fexp prec emax (Zdigits2 (Zpos mz) + ez) - ez) 0) as [Hn | Hn].
      - destruct (Sa Hn) as (-> & _). lia.
      - destruct (Sb ltac:(lia)) as (-> & _). apply Z.div_pos; [lia |].
        apply Z.pow_pos_nonneg; lia. }
    destruct (shr_fexp prec emax (Zpos mz) ez loc_Exact) as [r1 e1].
    simpl fst in H1.
    destruct (round_nearest_even_bounds (shr_m r1) (loc_of_shr_record r1))
      as [Hb _].
    set (m2 := round_nearest_even (shr_m r1) (loc_of_shr_record r1)) in *.
    destruct (shr_fexp_spec prec emax m2 e1 ltac:(lia)) as [Sa2 Sb2].
    assert (H2 : 0 <= shr_m (fst (shr_fexp prec emax m2 e1 loc_Exact))).
    { destruct (Z_le_gt_dec (fexp prec emax (Zdigits2 m2 + e1) - e1) 0) as [Hn | Hn].
      - destruct (Sa2 Hn) as (-> & _). lia.
      - destruct (Sb2 ltac:(lia)) as (-> & _). apply Z.div_pos; [lia |].
        apply Z.pow_pos_nonneg; lia. }
    destruct (shr_fexp prec emax m2 e1 loc_Exact) as [r3 e3].
    simpl fst in H2. simpl.
    destruct (shr_m r3) as [| m3 | m3]; [exact I | | lia].
    now destruct (e3 <=? emax - prec).
Qed.

End RoundAbove.

Lemma f32_of_Z_at_least T N : 0 < N < 2 ^ 24 -> N <= T -> at_least (f32_of_Z T) N 0.
Proof.
  intros HN H. unfold f32_of_Z.
  apply binary_normalize_at_least; try lia.
  - vm_compute. discriminate.
  - now apply scaled_mono.
Qed.

Lemma f64_of_f32_at_least x N k :
  0 < N < 2 ^ 53 -> -1074 <= k -> at_least x N k -> at_least (f64_of_f32 x) N k.
Proof.
  intros HN Hk Hx. destruct x as [s | [|] | | [|] m e]; try contradiction.
  - exact I.
  - apply binary_round_at_least; try lia; assumption.
Qed.

Lemma f32_of_f64_at_least x N k :
  0 < N < 2 ^ 24 -> -149 <= k -> at_least x N k -> at_least (f32_of_f64 x) N k.
Proof.
  intros HN Hk Hx. destruct x as [s | [|] | | [|] m e]; try contradiction.
  - exact I.
  - apply binary_round_at_least; try lia; assumption.
Qed.

Lemma cmp_scaled_neg_l z1 e1 z2 e2 :
  z1 < 0 -> 0 <= z2 -> cmp_scaled z1 e1 z2 e2 = Lt.
Proof.
  intros H1 H2. unfold cmp_scaled. apply Z.compare_lt_iff.
  assert (0 < 2 ^ (e1 - Z.min e1 e2)) by (apply Z.pow_pos_nonneg; lia).
  assert (0 < 2 ^ (e2 - Z.min e1 e2)) by (apply Z.pow_pos_nonneg; lia).
  nia.
Qed.

Lemma cmp_scaled_neg_r z1 e1 z2 e2 :
  0 <= z1 -> z2 < 0 -> cmp_scaled z1 e1 z2 e2 = Gt.
Proof.
  intros H1 H2. unfold cmp_scaled. apply Z.compare_gt_iff.
  assert (0 < 2 ^ (e1 - Z.min e1 e2)) by (apply Z.pow_pos_nonneg; lia).
  assert (0 < 2 ^ (e2 - Z.min e1 e2)) by (apply Z.pow_pos_nonneg; lia).
  nia.
Qed.

(** Both clamps of the scalar on a negative number. *)
Lemma negative_clamped x :
  negative x ->
  let s := if f_gt x f_one then f_one else x in
  is_zero (if f_lt s f_zero then f_zero else s) = true.
Proof.
  intros H. destruct x as [[|] | [|] | | [|] m e]; try contradiction;
    try reflexivity.
  cbv zeta. unfold f_gt, f_lt.
  replace (f_compare f_one (S754_finite true m e)) with (Some Gt).
  - replace (f_compare (S754_finite true m e) f_zero) with (Some Lt);
      [reflexivity |].
    simpl. now rewrite cmp_scaled_neg_l.
  - rewrite f_one_eq. simpl. now rewrite cmp_scaled_neg_r.
Qed.


(* ================================================================== *)
(** * Properties of the battery monitor *)

Ltac break_if :=
  match goal with
  | |- context [if ?c then _ else _] => destruct c
  end.


(** ** Bit-level facts *)

Lemma bit_set_testbit (x i : Z) : 0 <= i -> bit_set x i = Z.testbit x i.
Proof.
  intros Hi. unfold bit_set. rewrite Z.shiftl_1_l.
  destruct (Z.testbit x i) eqn:Hb.
  - apply negb_true_iff, Z.eqb_neq. intros H0.
    assert (Hc : Z.testbit (Z.land x (2 ^ i)) i = true).
    { now rewrite Z.land_spec, Hb, Z.pow2_bits_true. }
    rewrite H0, Z.bits_0 in Hc. discriminate.
  - apply negb_false_iff, Z.eqb_eq. apply Z.bits_inj'. intros n Hn.
    rewrite Z.land_spec, Z.bits_0, Z.pow2_bits_eqb by assumption.
    destruct (Z.eqb_spec i n) as [->|_]; [now rewrite Hb | apply andb_false_r].
Qed.

(** [x & mask == mask] for the mask of the [k] low-order bits. *)
Lemma land_ones_full (x k : Z) :
  0 <= k ->
  (Z.land x (Z.ones k) = Z.ones k <-> forall j, 0 <= j < k -> Z.testbit x j = true).
Proof.
  intros Hk. split.
  - intros H j Hj.
    assert (Hc : Z.testbit (Z.land x (Z.ones k)) j = true).
    { rewrite H. apply Z.ones_spec_low. lia. }
    rewrite Z.land_spec in Hc. now apply andb_true_iff in Hc.
  - intros H. apply Z.bits_inj'. intros n Hn. rewrite Z.land_spec.
    destruct (Z.lt_ge_cases n k).
    + rewrite H by lia. now rewrite Z.ones_spec_low by lia.
    + rewrite Z.ones_spec_high by lia. apply andb_false_r.
Qed.


Section BatteryMonitor.

Variable cfg : Config.

Lemma accept_cells_spec n w :
  number_of_cells (battery_state (accept_cells n w)) = n
  /\ has_error CELL_CONNECTION_ERROR (accept_cells n w) = false.
Proof. split; reflexivity. Qed.

Lemma reject_cells_spec w :
  number_of_cells (battery_state (reject_cells w)) = 0
  /\ has_error CELL_CONNECTION_ERROR (reject_cells w) = true.
Proof. split; reflexivity. Qed.

Lemma gap_not_contiguous m k : ladder_gap m k -> ladder_contiguous m k -> False.
Proof. intros (j & Hj & Hf) Hc. rewrite (Hc j Hj) in Hf. discriminate. Qed.

Lemma full_contiguous m k :
  0 <= k -> Z.land m (Z.ones k) = Z.ones k -> ladder_contiguous m k.
Proof. intros Hk He. exact (proj1 (land_ones_full m k Hk) He). Qed.

Lemma not_full_gap m k :
  0 <= k -> Z.land m (Z.ones k) <> Z.ones k -> ~ ladder_contiguous m k.
Proof. intros Hk Hne Hc. apply Hne. apply (proj2 (land_ones_full m k Hk) Hc). Qed.

Lemma infer_cell_count_spec w k :
  let m := cell_connected_bitmask w in
  let w' := infer_cell_count w in
  1 <= k <= 3 -> highest_ladder_bit m k ->
  (ladder_gap m k ->
     number_of_cells (battery_state w') = 0
     /\ has_error CELL_CONNECTION_ERROR w' = true)
  /\ (ladder_contiguous m k ->
     number_of_cells (battery_state w') = k + 1
     /\ has_error CELL_CONNECTION_ERROR w' = false).
Proof.
  intros m w' Hk [Hbit Hhigh]. subst w'. unfold infer_cell_count. fold m.
  rewrite !bit_set_testbit by lia.
  change THREE_S_BITMASK with (Z.ones 3).
  change TWO_S_BITMASK with (Z.ones 2).
  change ONE_S_BITMASK with (Z.ones 1).
  assert (Hcases : k = 3 \/ k = 2 \/ k = 1) by lia.
  destruct Hcases as [-> | [-> | ->]].
  - rewrite Hbit.
    destruct (Z.eqb_spec (Z.land m (Z.ones 3)) (Z.ones 3)) as [He|Hne].
    + split; [intros Hg | intros _; apply accept_cells_spec].
      exfalso. apply (gap_not_contiguous _ _ Hg). apply full_contiguous; [lia | exact He].
    + split; [intros _; apply reject_cells_spec | intros Hc].
      exfalso. now apply (not_full_gap m 3).
  - rewrite (Hhigh 3) by lia. rewrite Hbit.
    destruct (Z.eqb_spec (Z.land m (Z.ones 2)) (Z.ones 2)) as [He|Hne].
    + split; [intros Hg | intros _; apply accept_cells_spec].
      exfalso. apply (gap_not_contiguous _ _ Hg). apply full_contiguous; [lia | exact He].
    + split; [intros _; apply reject_cells_spec | intros Hc].
      exfalso. now apply (not_full_gap m 2).
  - rewrite (Hhigh 3), (Hhigh 2) by lia. rewrite Hbit.
    destruct (Z.eqb_spec (Z.land m (Z.ones 1)) (Z.ones 1)) as [He|Hne].
    + split; [intros Hg | intros _; apply accept_cells_spec].
      exfalso. apply (gap_not_contiguous _ _ Hg). apply full_contiguous; [lia | exact He].
    + split; [intros _; apply reject_cells_spec | intros Hc].
      exfalso. now apply (not_full_gap m 1).
Qed.

(** The connection flag is written after the inference and touches
    neither the cell count nor the fault registry. *)
Lemma Balance_Connection_State_cells w :
  number_of_cells (battery_state (Balance_Connection_State cfg w))
  = number_of_cells (battery_state (infer_cell_count (ladder_probe cfg w)))
  /\ error_state (Balance_Connection_State cfg w)
     = error_state (infer_cell_count (ladder_probe cfg w))
  /\ cell_connected_bitmask (Balance_Connection_State cfg w)
     = cell_connected_bitmask (ladder_probe cfg w).
Proof.
  unfold Balance_Connection_State.
  set (w1 := ladder_probe cfg w).
  assert (Hm : cell_connected_bitmask (infer_cell_count w1) = cell_connected_bitmask w1).
  { unfold infer_cell_count.
    repeat match goal with |- context [if ?c then _ else _] => destruct c end;
      reflexivity. }
  destruct (1 <? number_of_cells (battery_state (infer_cell_count w1)));
    (split; [reflexivity | split; [reflexivity | exact Hm]]).
Qed.

(** C2: for every cell-ladder bitmask whose highest set bit is bit 3, 2
    or 1, the battery monitor sets [number_of_cells = 0] and raises
    CELL_CONNECTION_ERROR when some lower bit is clear (a gap), and it
    accepts the candidate count (bit 3: 4 cells, bit 2: 3 cells, bit 1:
    2 cells) and clears CELL_CONNECTION_ERROR when all lower bits are
    set.  [m] is the bitmask the ladder probe has just computed. *)
Theorem ladder_cell_count w k :
  let m := cell_connected_bitmask (ladder_probe cfg w) in
  let w' := Balance_Connection_State cfg w in
  1 <= k <= 3 -> highest_ladder_bit m k ->
  (ladder_gap m k ->
     number_of_cells (battery_state w') = 0
     /\ has_error CELL_CONNECTION_ERROR w' = true)
  /\ (ladder_contiguous m k ->
     number_of_cells (battery_state w') = k + 1
     /\ has_error CELL_CONNECTION_ERROR w' = false).
Proof.
  intros m w' Hk Hh. subst w'.
  destruct (Balance_Connection_State_cells w) as (Hn & He & _).
  unfold has_error. rewrite Hn, He.
  exact (infer_cell_count_spec (ladder_probe cfg w) k Hk Hh).
Qed.

End BatteryMonitor.



Section BalancingFrame.

Variable cfg : Config.

Lemma untouched_refl w : balancing_untouched w w.
Proof. repeat split. Qed.

Lemma untouched_trans w1 w2 w3 :
  balancing_untouched w1 w2 -> balancing_untouched w2 w3 ->
  balancing_untouched w1 w3.
Proof.
  intros (A1 & A2 & A3 & A4 & A5) (B1 & B2 & B3 & B4 & B5).
  repeat split; congruence.
Qed.

Lemma ladder_bit_untouched c b w : balancing_untouched w (ladder_bit c b w).
Proof. unfold ladder_bit. destruct c; repeat split. Qed.

Lemma ladder_probe_untouched w : balancing_untouched w (ladder_probe cfg w).
Proof.
  unfold ladder_probe.
  repeat (eapply untouched_trans; [| apply ladder_bit_untouched]).
  apply untouched_refl.
Qed.

Lemma infer_cell_count_untouched w : balancing_untouched w (infer_cell_count w).
Proof. unfold infer_cell_count. repeat break_if; repeat split. Qed.

Lemma Balance_Connection_State_untouched w :
  balancing_untouched w (Balance_Connection_State cfg w).
Proof.
  unfold Balance_Connection_State.
  eapply untouched_trans; [apply ladder_probe_untouched |].
  eapply untouched_trans; [apply infer_cell_count_untouched |].
  break_if; repeat split.
Qed.

Lemma MCU_Temperature_Safety_Check_untouched w :
  balancing_untouched w (MCU_Temperature_Safety_Check cfg w).
Proof. unfold MCU_Temperature_Safety_Check. repeat break_if; repeat split. Qed.

Lemma Cell_Voltage_Safety_Check_untouched w :
  balancing_untouched w (Cell_Voltage_Safety_Check cfg w).
Proof.
  unfold Cell_Voltage_Safety_Check.
  destruct (fold_left _ _ _) as [o u]. break_if; repeat split.
Qed.

Lemma before_balancing_untouched w :
  balancing_untouched w (before_balancing cfg w).
Proof.
  unfold before_balancing.
  set (w1 := if VOLTAGE_CONNECTED_THRESHOLD cfg <? Get_Battery_Voltage w
             then _ else _).
  assert (H1 : balancing_untouched w w1) by (subst w1; break_if; repeat split).
  destruct (ENABLE_BALANCING cfg).
  - eapply untouched_trans; [exact H1 |].
    eapply untouched_trans; [apply Balance_Connection_State_untouched |].
    eapply untouched_trans; [apply MCU_Temperature_Safety_Check_untouched |].
    apply Cell_Voltage_Safety_Check_untouched.
  - eapply untouched_trans; [exact H1 |].
    eapply untouched_trans; [| apply MCU_Temperature_Safety_Check_untouched].
    repeat split.
Qed.

Lemma update_requires_charging_untouched w :
  balancing_untouched w (update_requires_charging cfg w).
Proof. unfold update_requires_charging. repeat break_if; repeat split. Qed.

(** C9: in every iteration of the battery monitor in which the regulator
    reports charging, the balancing step is not executed:
    [balancing_enabled], [cell_balance_bitmask] and the output latches
    (the four discharge pins among them) are left as they were, and no
    command is sent. *)
Theorem charging_skips_balancing w :
  Get_Regulator_Charging_State w <> 0 ->
  let w' := Battery_Connection_State cfg w in
  balancing_step cfg (before_balancing cfg w) = before_balancing cfg w
  /\ balancing_enabled (battery_state w') = balancing_enabled (battery_state w)
  /\ cell_balance_bitmask (battery_state w')
     = cell_balance_bitmask (battery_state w)
  /\ gpio w' = gpio w
  /\ trace w' = trace w.
Proof.
  intros Hchg w'.
  pose proof (before_balancing_untouched w) as Hb.
  assert (Hskip : balancing_step cfg (before_balancing cfg w)
                  = before_balancing cfg w).
  { unfold balancing_step. destruct (ENABLE_BALANCING cfg); [| reflexivity].
    unfold Get_Regulator_Charging_State in *.
    destruct Hb as (_ & _ & _ & _ & Hr). rewrite Hr.
    destruct (Z.eqb_spec (charging_status (regulator w)) 0); [contradiction | reflexivity]. }
  split; [exact Hskip |].
  subst w'. unfold Battery_Connection_State. rewrite Hskip.
  pose proof (update_requires_charging_untouched (before_balancing cfg w)) as Hu.
  destruct (untouched_trans _ _ _ Hb Hu) as (A1 & A2 & A3 & A4 & _).
  repeat split; assumption.
Qed.

End BalancingFrame.


Lemma no_error_true_iff w :
  no_error w = true <-> forall f, error_state w f = false.
Proof.
  unfold no_error. rewrite forallb_forall. split.
  - intros H f. apply negb_true_iff. apply H. destruct f; simpl; tauto.
  - intros H f _. now rewrite H.
Qed.

Lemma any_fault_no_error w : any_fault w <-> no_error w = false.
Proof.
  split.
  - intros [f Hf]. destruct (no_error w) eqn:E; [| reflexivity].
    rewrite no_error_true_iff in E. rewrite E in Hf. discriminate.
  - intros H. unfold no_error in H.
    destruct (error_state w REGULATOR_COMMUNICATION_ERROR) eqn:E1;
      [now exists REGULATOR_COMMUNICATION_ERROR |].
    destruct (error_state w VOLTAGE_INPUT_ERROR) eqn:E2;
      [now exists VOLTAGE_INPUT_ERROR |].
    destruct (error_state w CELL_CONNECTION_ERROR) eqn:E3;
      [now exists CELL_CONNECTION_ERROR |].
    destruct (error_state w CELL_VOLTAGE_ERROR) eqn:E4;
      [now exists CELL_VOLTAGE_ERROR |].
    destruct (error_state w MCU_OVER_TEMP) eqn:E5;
      [now exists MCU_OVER_TEMP |].
    simpl in H. rewrite E1, E2, E3, E4, E5 in H. discriminate.
Qed.

Section ClosedGate.

Variable cfg : Config.

Lemma balancing_gate_closed w :
  any_fault w \/ balance_port_connected (battery_state w) <> CONNECTED ->
  balancing_gate cfg w = false.
Proof.
  intros [Hf | Hp]; unfold balancing_gate.
  - apply any_fault_no_error in Hf. rewrite Hf. apply andb_false_r.
  - apply Z.eqb_neq in Hp. rewrite Hp. now rewrite andb_false_r.
Qed.

Lemma Balance_Battery_closed w :
  balancing_gate cfg w = false ->
  Balance_Battery cfg w
  = upd_battery (set_balancing_enabled 0) (Balancing_GPIO_Control 0 w).
Proof. intros H. unfold Balance_Battery. now rewrite H. Qed.

Lemma closed_gate_discharge_off w :
  balancing_gate cfg w = false -> discharge_off (Balance_Battery cfg w).
Proof.
  intros H. rewrite (Balance_Battery_closed w H). repeat split.
Qed.

(** Nothing but the four pin writes and the latch: the discharge mask and
    the cell voltages play no part. *)
Lemma closed_gate_commands w :
  balancing_gate cfg w = false ->
  trace (Balance_Battery cfg w)
  = [EvGpioWrite CELL_1S_DIS_EN GPIO_PIN_RESET;
     EvGpioWrite CELL_2S_DIS_EN GPIO_PIN_RESET;
     EvGpioWrite CELL_3S_DIS_EN GPIO_PIN_RESET;
     EvGpioWrite CELL_4S_DIS_EN GPIO_PIN_RESET] ++ trace w.
Proof. intros H. rewrite (Balance_Battery_closed w H). reflexivity. Qed.

Lemma update_requires_charging_discharge w :
  discharge_off w -> discharge_off (update_requires_charging cfg w).
Proof.
  intros H. unfold update_requires_charging.
  repeat match goal with |- context [if ?c then _ else _] => destruct c end;
    exact H.
Qed.

(** C10: when a fault is set or the balance port is not connected at the
    balancing step of an iteration of the battery monitor,
    [Balance_Battery] drives all four discharge pins off and sets
    [balancing_enabled = 0], whatever the cell voltages, a cell at or
    above CELL_OVER_VOLTAGE_ENABLE_DISCHARGE included; the iteration ends
    in that state whenever it executes the step (balancing compiled in
    and the regulator not charging). *)
Theorem closed_gate_disables_balancing w :
  let w1 := before_balancing cfg w in
  any_fault w1 \/ balance_port_connected (battery_state w1) <> CONNECTED ->
  discharge_off (Balance_Battery cfg w1)
  /\ (ENABLE_BALANCING cfg = true -> Get_Regulator_Charging_State w1 = 0 ->
      discharge_off (Battery_Connection_State cfg w)).
Proof.
  intros w1 Hclosed.
  pose proof (balancing_gate_closed w1 Hclosed) as Hg.
  split; [now apply closed_gate_discharge_off |].
  intros Hen Hchg. unfold Battery_Connection_State, balancing_step.
  fold w1. rewrite Hen, Hchg. simpl.
  apply update_requires_charging_discharge.
  now apply closed_gate_discharge_off.
Qed.

End ClosedGate.



Section Latch.

Variable cfg : Config.

Lemma Balancing_GPIO_Control_battery m w :
  battery_state (Balancing_GPIO_Control m w) = battery_state w.
Proof. unfold Balancing_GPIO_Control. repeat break_if; reflexivity. Qed.

Lemma cell_balance_step_latch vmin scalar w i :
  balancing_enabled (battery_state (cell_balance_step cfg vmin scalar w i))
  = balancing_enabled (battery_state w).
Proof. unfold cell_balance_step. repeat break_if; reflexivity. Qed.

Lemma cell_balance_loop_latch vmin scalar l w :
  balancing_enabled
    (battery_state (fold_left (cell_balance_step cfg vmin scalar) l w))
  = balancing_enabled (battery_state w).
Proof.
  revert w. induction l as [| i l IH]; intros w; simpl; [reflexivity |].
  rewrite IH. apply cell_balance_step_latch.
Qed.

Lemma update_balancing_enabled_cells vmin vmax scalar w :
  number_of_cells (battery_state (update_balancing_enabled cfg vmin vmax scalar w))
  = number_of_cells (battery_state w).
Proof. unfold update_balancing_enabled. repeat break_if; reflexivity. Qed.






End Latch.

Lemma in_for_range lo hi i :
  0 <= lo -> (In i (for_range lo hi) <-> lo <= i < hi).
Proof.
  intros Hlo. unfold for_range. rewrite in_map_iff. split.
  - intros (n & <- & Hn). apply in_seq in Hn. lia.
  - intros Hi. exists (Z.to_nat i). split; [lia |]. apply in_seq. lia.
Qed.

Section MinMax.

Variable w : World.

Lemma min_max_fold l a b :
  let mm := fold_left (min_max_step w) l (a, b) in
  (fst mm <= a /\ b <= snd mm)
  /\ (forall i, In i l -> fst mm <= Get_Cell_Voltage i w <= snd mm)
  /\ (fst mm = a \/ exists i, In i l /\ fst mm = Get_Cell_Voltage i w)
  /\ (snd mm = b \/ exists i, In i l /\ snd mm = Get_Cell_Voltage i w).
Proof.
  revert a b. induction l as [| i l IH]; intros a b; simpl.
  - repeat split; try lia; try tauto.
  - set (a' := if Get_Cell_Voltage i w <? a then Get_Cell_Voltage i w else a).
    set (b' := if b <? Get_Cell_Voltage i w then Get_Cell_Voltage i w else b).
    assert (Ha : a' <= a /\ a' <= Get_Cell_Voltage i w
                 /\ (a' = a \/ a' = Get_Cell_Voltage i w)).
    { subst a'. destruct (Z.ltb_spec (Get_Cell_Voltage i w) a); lia. }
    assert (Hb : b <= b' /\ Get_Cell_Voltage i w <= b'
                 /\ (b' = b \/ b' = Get_Cell_Voltage i w)).
    { subst b'. destruct (Z.ltb_spec b (Get_Cell_Voltage i w)); lia. }
    destruct (IH a' b') as ((I1 & I2) & I3 & I4 & I5).
    repeat split.
    + lia.
    + lia.
    + destruct H as [<- | H]; [lia | apply (I3 _ H)].
    + destruct H as [<- | H]; [lia | apply (I3 _ H)].
    + destruct I4 as [E | (j & Hj & E)].
      * destruct Ha as (_ & _ & [E' | E']); [left; lia |].
        right. exists i. split; [now left | lia].
      * right. exists j. split; [now right | exact E].
    + destruct I5 as [E | (j & Hj & E)].
      * destruct Hb as (_ & _ & [E' | E']); [left; lia |].
        right. exists i. split; [now left | lia].
      * right. exists j. split; [now right | exact E].
Qed.

(** The first loop of [Balance_Battery] computes the lowest and the
    highest voltage of the connected cells. *)
Lemma min_max_cell_voltage_spec :
  let n := number_of_cells (battery_state w) in
  let vmin := fst (min_max_cell_voltage w) in
  let vmax := snd (min_max_cell_voltage w) in
  1 <= n ->
  (forall i, 0 <= i < n -> vmin <= Get_Cell_Voltage i w <= vmax)
  /\ (exists i, 0 <= i < n /\ vmin = Get_Cell_Voltage i w)
  /\ (exists i, 0 <= i < n /\ vmax = Get_Cell_Voltage i w).
Proof.
  intros n vmin vmax Hn. subst vmin vmax. unfold min_max_cell_voltage. fold n.
  destruct (min_max_fold (for_range 1 n) (Get_Cell_Voltage 0 w)
              (Get_Cell_Voltage 0 w)) as ((I1 & I2) & I3 & I4 & I5).
  repeat split.
  - destruct (Z.eq_dec i 0) as [-> | Hi]; [exact I1 |].
    apply I3. apply in_for_range; lia.
  - destruct (Z.eq_dec i 0) as [-> | Hi]; [exact I2 |].
    apply I3. apply in_for_range; lia.
  - destruct I4 as [E | (j & Hj & E)].
    + exists 0. split; [lia | exact E].
    + exists j. apply in_for_range in Hj; [| lia]. split; [lia | exact E].
  - destruct I5 as [E | (j & Hj & E)].
    + exists 0. split; [lia | exact E].
    + exists j. apply in_for_range in Hj; [| lia]. split; [lia | exact E].
Qed.

End MinMax.


(* ================================================================== *)
(** * Properties of the regulator controller *)

(** ** Driver operations: what they leave alone *)

Section DriverFrame.

Variable cfg : Config.

Lemma driver_quiet_refl w : driver_quiet w w.
Proof. repeat split. Qed.

Lemma driver_quiet_trans w1 w2 w3 :
  driver_quiet w1 w2 -> driver_quiet w2 w3 -> driver_quiet w1 w3.
Proof.
  unfold driver_quiet. intros H1 H2.
  repeat match goal with H : _ /\ _ |- _ => destruct H end.
  repeat split; congruence.
Qed.

Lemma bus_operation_quiet ev w : driver_quiet w (snd (bus_operation ev w)).
Proof.
  unfold bus_operation, next_reply.
  destruct (bus w) as [| r rest]; simpl; [repeat split |].
  destruct (comm_fault r); repeat split.
Qed.

Lemma bus_operation_trace ev w :
  trace (snd (bus_operation ev w)) = ev :: trace w.
Proof.
  unfold bus_operation, next_reply.
  destruct (bus w) as [| r rest]; simpl; [reflexivity |].
  now destruct (comm_fault r).
Qed.

Lemma bus_operation_regulator ev w :
  regulator (snd (bus_operation ev w)) = regulator w.
Proof.
  unfold bus_operation, next_reply.
  destruct (bus w) as [| r rest]; simpl; [reflexivity |].
  now destruct (comm_fault r).
Qed.

Lemma bus_operation_gpio ev w : gpio (snd (bus_operation ev w)) = gpio w.
Proof.
  unfold bus_operation, next_reply.
  destruct (bus w) as [| r rest]; simpl; [reflexivity |].
  now destruct (comm_fault r).
Qed.

(** A fault that is set stays set across a bus operation. *)
Lemma bus_operation_faults ev w f :
  error_state w f = true -> error_state (snd (bus_operation ev w)) f = true.
Proof.
  intros H. unfold bus_operation, next_reply.
  destruct (bus w) as [| r rest]; simpl; [exact H |].
  destruct (comm_fault r); simpl; [| exact H].
  now destruct (Fault_eqb f REGULATOR_COMMUNICATION_ERROR).
Qed.

Lemma Regulator_HI_Z_quiet h w : driver_quiet w (Regulator_HI_Z h w).
Proof. unfold Regulator_HI_Z. destruct (h =? 1); repeat split. Qed.

Lemma Regulator_HI_Z_regulator h w : regulator (Regulator_HI_Z h w) = regulator w.
Proof. unfold Regulator_HI_Z. now destruct (h =? 1). Qed.

Lemma Regulator_HI_Z_error h w : error_state (Regulator_HI_Z h w) = error_state w.
Proof. unfold Regulator_HI_Z. now destruct (h =? 1). Qed.

Lemma Regulator_HI_Z_on w :
  gpio (Regulator_HI_Z 1 w) ILIM_HIZ = GPIO_PIN_RESET
  /\ gpio (Regulator_HI_Z 1 w) FAN_ENn = GPIO_PIN_SET
  /\ trace (Regulator_HI_Z 1 w)
     = [EvGpioWrite FAN_ENn GPIO_PIN_SET; EvGpioWrite ILIM_HIZ GPIO_PIN_RESET]
       ++ trace w.
Proof. repeat split. Qed.

Lemma Regulator_HI_Z_off h w :
  h <> 1 ->
  gpio (Regulator_HI_Z h w) ILIM_HIZ = GPIO_PIN_SET
  /\ gpio (Regulator_HI_Z h w) FAN_ENn = GPIO_PIN_RESET
  /\ trace (Regulator_HI_Z h w)
     = [EvGpioWrite FAN_ENn GPIO_PIN_RESET; EvGpioWrite ILIM_HIZ GPIO_PIN_SET]
       ++ trace w.
Proof.
  intros H. unfold Regulator_HI_Z. apply Z.eqb_neq in H. rewrite H.
  repeat split.
Qed.

Lemma vTaskDelay_quiet t w : driver_quiet w (vTaskDelay t w).
Proof. repeat split. Qed.

Lemma Set_Charge_Voltage_quiet n w : driver_quiet w (Set_Charge_Voltage cfg n w).
Proof.
  unfold Set_Charge_Voltage. destruct (charge_voltage_registers cfg n) as [[r1 r2] ms].
  unfold I2C_Write_Register, I2C_Write_Two_Byte_Register.
  eapply driver_quiet_trans; apply bus_operation_quiet.
Qed.

Lemma Set_Charge_Voltage_trace n w :
  trace (Set_Charge_Voltage cfg n w)
  = [EvI2cWrite MAX_CHARGE_VOLTAGE_ADDR
       [snd (fst (charge_voltage_registers cfg n));
        fst (fst (charge_voltage_registers cfg n))];
     EvI2cWrite MINIMUM_SYSTEM_VOLTAGE_ADDR
       [snd (charge_voltage_registers cfg n)]] ++ trace w.
Proof.
  unfold Set_Charge_Voltage. destruct (charge_voltage_registers cfg n) as [[r1 r2] ms].
  unfold I2C_Write_Register, I2C_Write_Two_Byte_Register.
  now rewrite !bus_operation_trace.
Qed.

Lemma Set_Charge_Voltage_regulator n w :
  regulator (Set_Charge_Voltage cfg n w) = regulator w.
Proof.
  unfold Set_Charge_Voltage. destruct (charge_voltage_registers cfg n) as [[r1 r2] ms].
  unfold I2C_Write_Register, I2C_Write_Two_Byte_Register.
  now rewrite !bus_operation_regulator.
Qed.

Lemma Set_Charge_Voltage_gpio n w :
  gpio (Set_Charge_Voltage cfg n w) = gpio w.
Proof.
  unfold Set_Charge_Voltage. destruct (charge_voltage_registers cfg n) as [[r1 r2] ms].
  unfold I2C_Write_Register, I2C_Write_Two_Byte_Register.
  now rewrite !bus_operation_gpio.
Qed.

Lemma Set_Charge_Voltage_faults n w f :
  error_state w f = true -> error_state (Set_Charge_Voltage cfg n w) f = true.
Proof.
  intros H. unfold Set_Charge_Voltage.
  destruct (charge_voltage_registers cfg n) as [[r1 r2] ms].
  unfold I2C_Write_Register, I2C_Write_Two_Byte_Register.
  now apply bus_operation_faults, bus_operation_faults.
Qed.

Lemma clamp_current_eq x :
  (if MAX_CHARGE_CURRENT_MA cfg <? x then MAX_CHARGE_CURRENT_MA cfg else x)
  = clamp_current cfg x.
Proof. unfold clamp_current. destruct (Z.ltb_spec (MAX_CHARGE_CURRENT_MA cfg) x); lia. Qed.

Lemma Set_Charge_Current_quiet x w : driver_quiet w (Set_Charge_Current cfg x w).
Proof.
  unfold Set_Charge_Current. destruct (charge_current_registers _) as [r1 r2].
  unfold I2C_Write_Two_Byte_Register.
  eapply driver_quiet_trans; [| apply bus_operation_quiet]. repeat split.
Qed.

Lemma Set_Charge_Current_regulator x w :
  regulator (Set_Charge_Current cfg x w)
  = set_max_charge_current_ma (clamp_current cfg x) (regulator w).
Proof.
  unfold Set_Charge_Current. rewrite clamp_current_eq.
  destruct (charge_current_registers _) as [r1 r2].
  unfold I2C_Write_Two_Byte_Register. now rewrite bus_operation_regulator.
Qed.

Lemma Set_Charge_Current_trace x w :
  trace (Set_Charge_Current cfg x w)
  = EvI2cWrite CHARGE_CURRENT_ADDR
      [snd (charge_current_registers (clamp_current cfg x));
       fst (charge_current_registers (clamp_current cfg x))] :: trace w.
Proof.
  unfold Set_Charge_Current. rewrite clamp_current_eq.
  destruct (charge_current_registers _) as [r1 r2].
  unfold I2C_Write_Two_Byte_Register. now rewrite bus_operation_trace.
Qed.

Lemma Set_Charge_Current_gpio x w : gpio (Set_Charge_Current cfg x w) = gpio w.
Proof.
  unfold Set_Charge_Current. destruct (charge_current_registers _) as [r1 r2].
  unfold I2C_Write_Two_Byte_Register. now rewrite bus_operation_gpio.
Qed.

Lemma Set_Charge_Current_faults x w f :
  error_state w f = true -> error_state (Set_Charge_Current cfg x w) f = true.
Proof.
  intros H. unfold Set_Charge_Current. destruct (charge_current_registers _) as [r1 r2].
  unfold I2C_Write_Two_Byte_Register. now apply bus_operation_faults.
Qed.

Lemma Read_Charge_Status_quiet w : driver_quiet w (Read_Charge_Status cfg w).
Proof.
  unfold Read_Charge_Status.
  pose proof (bus_operation_quiet EvChargeStatusRead w) as H.
  destruct (bus_operation EvChargeStatusRead w) as [r w1]. simpl in H.
  destruct (negb _); (eapply driver_quiet_trans; [exact H | repeat split]).
Qed.

Lemma Read_Charge_Status_trace w :
  trace (Read_Charge_Status cfg w) = EvChargeStatusRead :: trace w.
Proof.
  unfold Read_Charge_Status.
  pose proof (bus_operation_trace EvChargeStatusRead w) as H.
  destruct (bus_operation EvChargeStatusRead w) as [r w1]. simpl in H.
  now destruct (negb _).
Qed.

Lemma Read_Charge_Status_gpio w : gpio (Read_Charge_Status cfg w) = gpio w.
Proof.
  unfold Read_Charge_Status.
  pose proof (bus_operation_gpio EvChargeStatusRead w) as H.
  destruct (bus_operation EvChargeStatusRead w) as [r w1]. simpl in H.
  now destruct (negb _).
Qed.

Lemma Read_Charge_Status_max_current w :
  max_charge_current_ma (regulator (Read_Charge_Status cfg w))
  = max_charge_current_ma (regulator w).
Proof.
  unfold Read_Charge_Status.
  pose proof (bus_operation_regulator EvChargeStatusRead w) as H.
  destruct (bus_operation EvChargeStatusRead w) as [r w1]. simpl in H.
  destruct (negb _); simpl; now rewrite H.
Qed.

Lemma Regulator_Read_ADC_quiet w : driver_quiet w (Regulator_Read_ADC cfg w).
Proof.
  unfold Regulator_Read_ADC, next_reply.
  destruct (bus w) as [| r rest]; simpl; [repeat split |].
  destruct (comm_fault r); repeat split.
Qed.

Lemma Regulator_Read_ADC_trace w :
  exists p, trace (Regulator_Read_ADC cfg w) = EvAdcConversion p :: trace w.
Proof.
  unfold Regulator_Read_ADC, next_reply.
  destruct (bus w) as [| r rest]; simpl; [now exists 0%nat |].
  exists (polls r). now destruct (comm_fault r).
Qed.

Lemma Regulator_Read_ADC_gpio w : gpio (Regulator_Read_ADC cfg w) = gpio w.
Proof.
  unfold Regulator_Read_ADC, next_reply.
  destruct (bus w) as [| r rest]; simpl; [reflexivity |].
  now destruct (comm_fault r).
Qed.

Lemma Regulator_Read_ADC_max_current w :
  max_charge_current_ma (regulator (Regulator_Read_ADC cfg w))
  = max_charge_current_ma (regulator w).
Proof.
  unfold Regulator_Read_ADC, next_reply.
  destruct (bus w) as [| r rest]; simpl; [reflexivity |].
  now destruct (comm_fault r).
Qed.

(** ** Driver operations never clear a fault *)

Lemma faults_kept_refl w : faults_kept w w.
Proof. intros f H. exact H. Qed.

Lemma faults_kept_trans w1 w2 w3 :
  faults_kept w1 w2 -> faults_kept w2 w3 -> faults_kept w1 w3.
Proof. intros H1 H2 f H. apply H2, H1, H. Qed.

Lemma Regulator_HI_Z_keeps h w : faults_kept w (Regulator_HI_Z h w).
Proof. intros f H. now rewrite Regulator_HI_Z_error. Qed.

Lemma vTaskDelay_keeps t w : faults_kept w (vTaskDelay t w).
Proof. intros f H. exact H. Qed.

Lemma Set_Charge_Voltage_keeps n w : faults_kept w (Set_Charge_Voltage cfg n w).
Proof. intros f H. now apply Set_Charge_Voltage_faults. Qed.

Lemma Set_Charge_Current_keeps x w : faults_kept w (Set_Charge_Current cfg x w).
Proof. intros f H. now apply Set_Charge_Current_faults. Qed.

Lemma Read_Charge_Status_keeps w : faults_kept w (Read_Charge_Status cfg w).
Proof.
  intros f H. unfold Read_Charge_Status.
  pose proof (bus_operation_faults EvChargeStatusRead w f H) as H1.
  destruct (bus_operation EvChargeStatusRead w) as [r w1]. simpl in H1.
  now destruct (negb _).
Qed.

Lemma Regulator_Read_ADC_keeps w : faults_kept w (Regulator_Read_ADC cfg w).
Proof.
  intros f H. unfold Regulator_Read_ADC, next_reply.
  destruct (bus w) as [| r rest]; simpl; [exact H |].
  destruct (comm_fault r); simpl; [| exact H].
  now destruct (Fault_eqb f REGULATOR_COMMUNICATION_ERROR).
Qed.

Lemma precharge_pulse_keeps ticks w :
  faults_kept w (precharge_pulse cfg ticks w).
Proof.
  revert w. induction ticks as [| k IH]; intros w; simpl;
    [apply faults_kept_refl |].
  eapply faults_kept_trans; [| apply IH].
  eapply faults_kept_trans; [apply Set_Charge_Voltage_keeps |].
  eapply faults_kept_trans; [apply Set_Charge_Current_keeps |].
  eapply faults_kept_trans; [apply Regulator_HI_Z_keeps |].
  eapply faults_kept_trans; [apply Read_Charge_Status_keeps |].
  eapply faults_kept_trans; [apply Regulator_Read_ADC_keeps |].
  apply vTaskDelay_keeps.
Qed.

Lemma precharge_attempt_keeps w : faults_kept w (precharge_attempt cfg w).
Proof.
  unfold precharge_attempt.
  set (w1 := if negb _ then _ else _).
  assert (H1 : faults_kept w w1)
    by (subst w1; destruct (negb _); intros f H; exact H).
  intros f H. apply (precharge_pulse_keeps (pulse_ticks w) w1 f), H1, H.
Qed.

Lemma precharge_loop_keeps fuel w :
  faults_kept w (fst (precharge_loop cfg fuel w)).
Proof.
  revert w. induction fuel as [| k IH]; intros w; simpl;
    [apply faults_kept_refl |].
  destruct (_ && _); [| apply faults_kept_refl].
  specialize (IH (precharge_attempt cfg w)).
  destruct (precharge_loop cfg k (precharge_attempt cfg w)) as [w' passes].
  eapply faults_kept_trans; [apply precharge_attempt_keeps | exact IH].
Qed.

Lemma settle_keeps ticks w : faults_kept w (settle cfg ticks w).
Proof.
  revert w. induction ticks as [| k IH]; intros w; simpl;
    [apply faults_kept_refl |].
  eapply faults_kept_trans; [| apply IH].
  eapply faults_kept_trans; [apply vTaskDelay_keeps |].
  eapply faults_kept_trans; [apply Read_Charge_Status_keeps |].
  apply Regulator_Read_ADC_keeps.
Qed.

Lemma uvp_recovery_keeps w : faults_kept w (fst (uvp_recovery cfg w)).
Proof.
  unfold uvp_recovery.
  pose proof (precharge_loop_keeps (Z.to_nat (precharge_timeout w)) w) as HL.
  destruct (precharge_loop cfg _ w) as [w1 passes]. simpl in *.
  unfold precharge_exit. destruct (negb _); [| exact HL].
  eapply faults_kept_trans; [exact HL |].
  eapply faults_kept_trans; [| apply settle_keeps].
  eapply faults_kept_trans; [| apply Regulator_HI_Z_keeps].
  intros f H. exact H.
Qed.

(** Up to the output decision of a pass only the input-voltage fault can
    be cleared, and it is raised when the charge-okay line is not high. *)
Lemma before_control_faults w f :
  error_state w f = true -> f <> VOLTAGE_INPUT_ERROR ->
  error_state (before_control cfg w) f = true.
Proof.
  intros H Hf. unfold before_control.
  set (w1 := if negb (Read_Charge_Okay w =? 1) then _ else _).
  assert (H1 : error_state w1 f = true).
  { subst w1. destruct (negb _); [| destruct (has_error _ _)]; simpl;
      try exact H; destruct f; try reflexivity; try exact H; congruence. }
  set (w2 := if has_error REGULATOR_COMMUNICATION_ERROR w1 then _ else _).
  assert (H2 : error_state w2 f = true)
    by (subst w2; destruct (has_error REGULATOR_COMMUNICATION_ERROR w1);
        exact H1).
  pose proof (Regulator_Read_ADC_keeps _ f (Read_Charge_Status_keeps _ f H2)) as H3.
  destruct (ATTEMPT_UVP_RECOVERY cfg); [now apply uvp_recovery_keeps | exact H3].
Qed.

Lemma before_control_input_fault w :
  Read_Charge_Okay w <> 1 ->
  error_state (before_control cfg w) VOLTAGE_INPUT_ERROR = true.
Proof.
  intros H. unfold before_control. apply Z.eqb_neq in H. rewrite H. cbn [negb].
  set (w1 := Set_Error_State VOLTAGE_INPUT_ERROR w).
  assert (H1 : error_state w1 VOLTAGE_INPUT_ERROR = true) by reflexivity.
  set (w2 := if has_error REGULATOR_COMMUNICATION_ERROR w1 then _ else _).
  assert (H2 : error_state w2 VOLTAGE_INPUT_ERROR = true)
    by (subst w2; destruct (has_error REGULATOR_COMMUNICATION_ERROR w1);
        exact H1).
  pose proof (Regulator_Read_ADC_keeps _ _ (Read_Charge_Status_keeps _ _ H2)) as H3.
  destruct (ATTEMPT_UVP_RECOVERY cfg); [now apply uvp_recovery_keeps | exact H3].
Qed.

End DriverFrame.

(** ** Charge voltage *)

Section ChargeVoltage.

Variable cfg : Config.
Hypothesis Hfixed : FIXED_VOLTAGE_CHARGING cfg = false.

Lemma charge_voltage_registers_table :
  charge_voltage_registers cfg 0 = (0, 0, MIN_VOLT_ADD_1024_MV)
  /\ charge_voltage_registers cfg 1 = (16, 96, 11)
  /\ charge_voltage_registers cfg 2 = (32, 208, 22)
  /\ charge_voltage_registers cfg 3 = (49, 48, 33)
  /\ charge_voltage_registers cfg 4 = (65, 160, 44).
Proof. unfold charge_voltage_registers. rewrite Hfixed. repeat split. Qed.

Lemma charge_voltage_registers_decode n :
  0 <= n <= 4 ->
  let '(r1, r2, ms) := charge_voltage_registers cfg n in
  decode_max_charge_voltage r2 r1 = charge_voltage_mv n
  /\ decode_minimum_system_voltage ms = minimum_system_mv n.
Proof.
  intros Hn. unfold charge_voltage_registers. rewrite Hfixed.
  assert (H : n = 0 \/ n = 1 \/ n = 2 \/ n = 3 \/ n = 4) by lia.
  destruct H as [-> | [-> | [-> | [-> | ->]]]]; now split.
Qed.

End ChargeVoltage.

(** C8, as amended: without fixed-voltage charging, [Set_Charge_Voltage]
    with 0 cells writes zeros to the MaxChargeVoltage register and the
    1024 mV bit to the MinimumSystemVoltage register; for 1 to 4 cells
    it writes the values of the table: 4192, 8400, 12592 and 16800 mV,
    with minimum system voltages of 2816, 5632, 8448 and 11264 mV. *)
Theorem set_charge_voltage_table cfg w n :
  FIXED_VOLTAGE_CHARGING cfg = false ->
  0 <= n <= 4 ->
  exists lsb msb minsys,
    trace (Set_Charge_Voltage cfg n w)
    = [EvI2cWrite MAX_CHARGE_VOLTAGE_ADDR [lsb; msb];
       EvI2cWrite MINIMUM_SYSTEM_VOLTAGE_ADDR [minsys]] ++ trace w
    /\ decode_max_charge_voltage lsb msb = charge_voltage_mv n
    /\ decode_minimum_system_voltage minsys = minimum_system_mv n
    /\ (n = 0 -> lsb = 0 /\ msb = 0 /\ minsys = MIN_VOLT_ADD_1024_MV).
Proof.
  intros Hfixed Hn.
  pose proof (charge_voltage_registers_decode cfg Hfixed n Hn) as Hd.
  pose proof (Set_Charge_Voltage_trace cfg n w) as Ht.
  destruct (charge_voltage_registers_table cfg Hfixed) as (T0 & _).
  destruct (charge_voltage_registers cfg n) as [[r1 r2] ms] eqn:E.
  simpl in Ht. exists r2, r1, ms. destruct Hd as [D1 D2].
  split; [exact Ht | split; [exact D1 | split; [exact D2 |]]].
  intros ->. rewrite T0 in E. injection E as <- <- <-. repeat split.
Qed.

(** ** Charge current *)

Section ChargeCurrent.

Variable cfg : Config.
Hypothesis Hmax : 0 <= MAX_CHARGE_CURRENT_MA cfg.

Lemma clamp_current_le x : clamp_current cfg x <= MAX_CHARGE_CURRENT_MA cfg.
Proof. unfold clamp_current. lia. Qed.

Lemma clamp_current_0 : clamp_current cfg 0 = 0.
Proof. unfold clamp_current. lia. Qed.

(** The bytes written stand for the limit rounded down to a multiple of
    64 mA, and for no more than 8192 mA. *)
Lemma charge_current_registers_decode y :
  0 <= y ->
  let '(r1, r2) := charge_current_registers y in
  decode_charge_current r2 r1 = 64 * Z.min (y / 64) 128.
Proof.
  intros Hy. unfold charge_current_registers, decode_charge_current.
  set (c0 := if negb (y =? 0) then y / 64 else 0).
  assert (Hc0 : c0 = y / 64).
  { subst c0. destruct (Z.eqb_spec y 0) as [-> |]; reflexivity. }
  set (c := if 128 <? c0 then 128 else c0).
  assert (Hc : c = Z.min (y / 64) 128).
  { subst c. rewrite Hc0. destruct (Z.ltb_spec 128 (y / 64)); lia. }
  assert (Hr : 0 <= c <= 128).
  { rewrite Hc. pose proof (Z.div_pos y 64 Hy ltac:(lia)). lia. }
  replace ((0 <=? c) || (c <=? 128)) with true
    by (symmetry; apply orb_true_iff; left; apply Z.leb_le; lia).
  rewrite <- Hc. unfold u8.
  rewrite Z.shiftr_div_pow2, Z.shiftl_mul_pow2 by lia.
  change (2 ^ 2) with 4. change (2 ^ 6) with 64. change (2 ^ 8) with 256.
  rewrite (Z.mod_small (c / 4) 256)
    by (split; [apply Z.div_pos; lia | apply Z.div_lt_upper_bound; lia]).
  replace (c * 64 mod 256 / 64) with (c mod 4).
  - pose proof (Z.div_mod c 4 ltac:(lia)). lia.
  - replace 256 with (64 * 4) by reflexivity.
    rewrite (Z.mul_comm c 64), Z.mul_mod_distr_l by lia.
    now rewrite Z.mul_comm, Z.div_mul by lia.
Qed.

Lemma charge_current_registers_le y :
  0 <= y ->
  decode_charge_current (snd (charge_current_registers y))
                        (fst (charge_current_registers y)) <= y.
Proof.
  intros Hy. pose proof (charge_current_registers_decode y Hy) as H.
  destruct (charge_current_registers y) as [r1 r2]. simpl. rewrite H.
  pose proof (Z.mul_div_le y 64 ltac:(lia)). lia.
Qed.

Lemma charge_current_registers_0 : charge_current_registers 0 = (0, 0).
Proof. reflexivity. Qed.

Lemma Set_Charge_Current_ok x w :
  0 <= x ->
  Forall (current_command_ok cfg) (trace w) ->
  Forall (current_command_ok cfg) (trace (Set_Charge_Current cfg x w)).
Proof.
  intros Hx Hw. rewrite Set_Charge_Current_trace. constructor; [| exact Hw].
  simpl. intros _.
  assert (Hy : 0 <= clamp_current cfg x) by (unfold clamp_current; lia).
  pose proof (charge_current_registers_le _ Hy).
  pose proof (clamp_current_le x). lia.
Qed.

End ChargeCurrent.

(** ** The output gate *)

Section OutputGate.

Variable cfg : Config.

Lemma InputPower_eqb_eq a b : InputPower_eqb a b = true <-> a = b.
Proof. destruct a, b; simpl; split; congruence. Qed.

(** The gate is closed exactly when one of its five conditions fails. *)
Lemma output_gate_false_iff w :
  output_gate cfg w = false <-> output_blocked cfg w.
Proof.
  unfold output_gate, output_blocked. rewrite !andb_false_iff.
  rewrite !Z.eqb_neq, <- any_fault_no_error.
  assert (Hp : InputPower_eqb (Get_Input_Power_Ready w) READY = false
               <-> Get_Input_Power_Ready w <> READY).
  { rewrite <- InputPower_eqb_eq.
    destruct (InputPower_eqb (Get_Input_Power_Ready w) READY); split;
      congruence. }
  rewrite Hp. tauto.
Qed.

Lemma charger_dispatch_eq w :
  charger_dispatch cfg w = Control_Charger_Output cfg w.
Proof. unfold charger_dispatch. now destruct (ENABLE_BALANCING cfg). Qed.

Hypothesis Hmax : 0 <= MAX_CHARGE_CURRENT_MA cfg.

Lemma disabled_state w :
  let w' := Set_Charge_Current cfg 0
              (Set_Charge_Voltage cfg 0 (Regulator_HI_Z 1 w)) in
  gpio w' ILIM_HIZ = GPIO_PIN_RESET
  /\ Get_Max_Charge_Current w' = 0
  /\ trace w' = disable_commands cfg ++ trace w.
Proof.
  intros w'. subst w'. split; [| split].
  - now rewrite Set_Charge_Current_gpio, Set_Charge_Voltage_gpio.
  - unfold Get_Max_Charge_Current. rewrite Set_Charge_Current_regulator.
    simpl. now apply clamp_current_0.
  - rewrite Set_Charge_Current_trace, Set_Charge_Voltage_trace.
    rewrite (clamp_current_0 cfg Hmax). reflexivity.
Qed.

Lemma Control_Charger_Output_blocked w :
  output_blocked cfg w ->
  Control_Charger_Output cfg w
  = Set_Charge_Current cfg 0 (Set_Charge_Voltage cfg 0 (Regulator_HI_Z 1 w)).
Proof.
  intros H. apply output_gate_false_iff in H.
  unfold Control_Charger_Output. now rewrite H.
Qed.

End OutputGate.

(** The two bytes that the fixed-voltage branch cuts out of a 16-bit
    set point stand for the set point. *)
Lemma setpoint_bytes v :
  0 <= v < 65536 ->
  decode_max_charge_voltage (u8 (Z.land v 0x00FF))
                            (u8 (Z.shiftr (Z.land v 0xFF00) 8)) = v.
Proof.
  intros Hv. unfold decode_max_charge_voltage.
  assert (Hlo : u8 (Z.land v 0x00FF) = v mod 256).
  { change 0x00FF with (Z.ones 8). rewrite Z.land_ones by lia.
    unfold u8. change (2 ^ 8) with 256. apply Z.mod_small.
    apply Z.mod_pos_bound. lia. }
  assert (Hs : Z.shiftr (Z.land v 0xFF00) 8 = v / 256).
  { rewrite Z.shiftr_land. change (Z.shiftr 0xFF00 8) with (Z.ones 8).
    rewrite Z.land_ones by lia. rewrite Z.shiftr_div_pow2 by lia.
    change (2 ^ 8) with 256. apply Z.mod_small.
    split; [apply Z.div_pos; lia | apply Z.div_lt_upper_bound; lia]. }
  assert (Hhi : u8 (Z.shiftr (Z.land v 0xFF00) 8) = v / 256).
  { rewrite Hs. unfold u8. change (2 ^ 8) with 256. apply Z.mod_small.
    split; [apply Z.div_pos; lia | apply Z.div_lt_upper_bound; lia]. }
  rewrite Hlo, Hhi. pose proof (Z.div_mod v 256 ltac:(lia)). lia.
Qed.

(** The MaxChargeVoltage bytes of [Set_Charge_Voltage(0)]: 0 without
    fixed-voltage charging, the fixed set point with it. *)
Lemma zero_cells_voltage cfg :
  decode_max_charge_voltage (snd (fst (charge_voltage_registers cfg 0)))
                            (fst (fst (charge_voltage_registers cfg 0)))
  = if FIXED_VOLTAGE_CHARGING cfg then u16 (FIXED_VOLTAGE_SETPOINT cfg) else 0.
Proof.
  unfold charge_voltage_registers.
  destruct (FIXED_VOLTAGE_CHARGING cfg); [| reflexivity].
  cbv zeta. cbn [fst snd]. apply setpoint_bytes.
  unfold u16. change (2 ^ 16) with 65536. apply Z.mod_pos_bound. lia.
Qed.

(** C1, as amended: whenever one of the conditions to enable the output
    fails (XT60 not connected, balance port not connected, a fault set,
    input power not ready, or a cell over voltage),
    [Control_Charger_Output] commands high impedance on, then the charge
    voltage, then charge current 0, and nothing else; the charge voltage
    it writes to MaxChargeVoltage is 0 without fixed-voltage charging
    and the fixed set point with it.  In particular, when a fault is set
    where the pass of the task loop takes its output decision, the last
    high-impedance command of the pass is ON and the last commanded
    current is 0; and a fault is set there whenever the pass began with
    a fault other than the input-voltage one, or reads the charge-okay
    line low. *)
Theorem blocked_output_is_disabled cfg :
  0 <= MAX_CHARGE_CURRENT_MA cfg ->
  (forall w, output_blocked cfg w ->
     let w' := Control_Charger_Output cfg w in
     gpio w' ILIM_HIZ = GPIO_PIN_RESET
     /\ Get_Max_Charge_Current w' = 0
     /\ exists lsb msb minsys,
          trace w' = [EvI2cWrite CHARGE_CURRENT_ADDR [0; 0];
                      EvI2cWrite MAX_CHARGE_VOLTAGE_ADDR [lsb; msb];
                      EvI2cWrite MINIMUM_SYSTEM_VOLTAGE_ADDR [minsys];
                      EvGpioWrite FAN_ENn GPIO_PIN_SET;
                      EvGpioWrite ILIM_HIZ GPIO_PIN_RESET] ++ trace w
          /\ decode_max_charge_voltage lsb msb
             = (if FIXED_VOLTAGE_CHARGING cfg
                then u16 (FIXED_VOLTAGE_SETPOINT cfg) else 0))
  /\ (forall w, any_fault (before_control cfg w) ->
     let w' := vRegulator_iteration cfg w in
     gpio w' ILIM_HIZ = GPIO_PIN_RESET
     /\ Get_Max_Charge_Current w' = 0
     /\ exists lsb msb minsys,
          trace w' = [EvDelay (250 / portTICK_PERIOD_MS cfg);
                      EvI2cWrite CHARGE_CURRENT_ADDR [0; 0];
                      EvI2cWrite MAX_CHARGE_VOLTAGE_ADDR [lsb; msb];
                      EvI2cWrite MINIMUM_SYSTEM_VOLTAGE_ADDR [minsys];
                      EvGpioWrite FAN_ENn GPIO_PIN_SET;
                      EvGpioWrite ILIM_HIZ GPIO_PIN_RESET]
                     ++ trace (before_control cfg w))
  /\ (forall w,
       (exists f, error_state w f = true /\ f <> VOLTAGE_INPUT_ERROR)
       \/ Read_Charge_Okay w <> 1 ->
       any_fault (before_control cfg w)).
Proof.
  intros Hmax. split; [| split].
  - intros w Hb w'. subst w'. rewrite (Control_Charger_Output_blocked cfg w Hb).
    destruct (disabled_state cfg Hmax w) as (H1 & H2 & H3).
    split; [exact H1 |]. split; [exact H2 |].
    do 3 eexists. split; [rewrite H3; reflexivity |].
    apply zero_cells_voltage.
  - intros w Hf w'. subst w'. unfold vRegulator_iteration.
    rewrite charger_dispatch_eq.
    assert (Hb : output_blocked cfg (before_control cfg w))
      by (right; right; now left).
    rewrite (Control_Charger_Output_blocked cfg _ Hb).
    destruct (disabled_state cfg Hmax (before_control cfg w)) as (H1 & H2 & H3).
    split; [exact H1 |]. split; [exact H2 |].
    do 3 eexists. cbn [vTaskDelay log trace]. rewrite H3. reflexivity.
  - intros w [(f & Hf & Hne) | Hpin].
    + exists f. now apply before_control_faults.
    + exists VOLTAGE_INPUT_ERROR. now apply before_control_input_fault.
Qed.

(** ** Charge power *)

Lemma power_scalar_unit T : unit_scalar (power_scalar T).
Proof.
  unfold power_scalar, unit_scalar.
  set (ps := f32_sub f_one _).
  destruct (f_gt ps f_one) eqn:E1.
  - now vm_compute.
  - destruct (f_lt ps f_zero) eqn:E0; [now vm_compute | now split].
Qed.

Section ChargePower.

Variable cfg : Config.
Hypothesis Hpow : 0 <= MAX_CHARGING_POWER cfg < 2 ^ 24.
Hypothesis Heff : unit_scalar (ASSUME_EFFICIENCY cfg).

Lemma input_limited_power_bounds w :
  0 <= input_limited_power cfg w <= MAX_CHARGING_POWER cfg.
Proof.
  unfold input_limited_power.
  set (p0 := f_to_u32 _).
  assert (H0 : 0 <= p0) by apply f_to_u32_nonneg.
  set (p1 := if MAX_CHARGING_POWER cfg <? p0 then MAX_CHARGING_POWER cfg else p0).
  assert (H1 : 0 <= p1 <= MAX_CHARGING_POWER cfg).
  { subst p1. destruct (Z.ltb_spec (MAX_CHARGING_POWER cfg) p0); lia. }
  destruct (Z.ltb_spec (Get_Max_Input_Power w) p1) as [Hlt | Hge]; [| exact H1].
  split; [apply f_to_u32_nonneg |].
  pose proof (f32_scale_le (Get_Max_Input_Power w) (ASSUME_EFFICIENCY cfg)
                ltac:(lia) Heff). lia.
Qed.

Lemma thermal_throttle_le T p :
  0 <= p <= MAX_CHARGING_POWER cfg ->
  0 <= thermal_throttle cfg T p <= p.
Proof.
  intros Hp. unfold thermal_throttle.
  destruct (TEMP_THROTTLE_THRESH_C cfg <? T); [| lia].
  split; [apply f_to_u32_nonneg |].
  pose proof (f32_scale_le p (power_scalar T) ltac:(lia) (power_scalar_unit T)).
  lia.
Qed.

Lemma Calculate_Max_Charge_Power_bounds w :
  0 <= Calculate_Max_Charge_Power cfg w <= MAX_CHARGING_POWER cfg.
Proof.
  unfold Calculate_Max_Charge_Power.
  pose proof (input_limited_power_bounds w) as Hi.
  pose proof (thermal_throttle_le (Get_MCU_Temperature w) _ Hi). lia.
Qed.

End ChargePower.

(** ** The current ceiling across one pass of the task loop *)

Section CurrentCeiling.

Variable cfg : Config.
Hypothesis Hmax : 0 <= MAX_CHARGE_CURRENT_MA cfg.
Hypothesis Huvp : 0 <= UVP_RECOVERY_CURRENT_MA cfg.

Lemma ceiling_step w w' evs :
  max_charge_current_ma (regulator w') = max_charge_current_ma (regulator w) ->
  trace w' = evs ++ trace w ->
  Forall (current_command_ok cfg) evs ->
  under_ceiling cfg w -> under_ceiling cfg w'.
Proof.
  unfold under_ceiling, Get_Max_Charge_Current. intros Hr Ht He [H1 H2].
  rewrite Hr, Ht. split; [exact H1 | now apply Forall_app].
Qed.

Lemma Regulator_HI_Z_ceiling h w :
  under_ceiling cfg w -> under_ceiling cfg (Regulator_HI_Z h w).
Proof.
  unfold Regulator_HI_Z. destruct (h =? 1).
  - apply (ceiling_step w _ [EvGpioWrite FAN_ENn GPIO_PIN_SET;
                             EvGpioWrite ILIM_HIZ GPIO_PIN_RESET]);
      try reflexivity; repeat constructor.
  - apply (ceiling_step w _ [EvGpioWrite FAN_ENn GPIO_PIN_RESET;
                             EvGpioWrite ILIM_HIZ GPIO_PIN_SET]);
      try reflexivity; repeat constructor.
Qed.

Lemma vTaskDelay_ceiling t w : under_ceiling cfg w -> under_ceiling cfg (vTaskDelay t w).
Proof.
  apply (ceiling_step w _ [EvDelay t]); try reflexivity; repeat constructor.
Qed.

Lemma Set_Charge_Voltage_ceiling n w :
  under_ceiling cfg w -> under_ceiling cfg (Set_Charge_Voltage cfg n w).
Proof.
  apply (ceiling_step w _
           [EvI2cWrite MAX_CHARGE_VOLTAGE_ADDR
              [snd (fst (charge_voltage_registers cfg n));
               fst (fst (charge_voltage_registers cfg n))];
            EvI2cWrite MINIMUM_SYSTEM_VOLTAGE_ADDR
              [snd (charge_voltage_registers cfg n)]]).
  - now rewrite Set_Charge_Voltage_regulator.
  - apply Set_Charge_Voltage_trace.
  - repeat constructor. simpl. discriminate.
Qed.

Lemma Set_Charge_Current_ceiling x w :
  0 <= x -> under_ceiling cfg w -> under_ceiling cfg (Set_Charge_Current cfg x w).
Proof.
  intros Hx [H1 H2]. split.
  - unfold Get_Max_Charge_Current. rewrite Set_Charge_Current_regulator. simpl.
    apply clamp_current_le.
  - now apply Set_Charge_Current_ok.
Qed.

Lemma Read_Charge_Status_ceiling w :
  under_ceiling cfg w -> under_ceiling cfg (Read_Charge_Status cfg w).
Proof.
  apply (ceiling_step w _ [EvChargeStatusRead]).
  - apply Read_Charge_Status_max_current.
  - apply Read_Charge_Status_trace.
  - repeat constructor.
Qed.

Lemma Regulator_Read_ADC_ceiling w :
  under_ceiling cfg w -> under_ceiling cfg (Regulator_Read_ADC cfg w).
Proof.
  destruct (Regulator_Read_ADC_trace cfg w) as [p Hp].
  apply (ceiling_step w _ [EvAdcConversion p]).
  - apply Regulator_Read_ADC_max_current.
  - exact Hp.
  - repeat constructor.
Qed.

Lemma precharge_pulse_ceiling ticks w :
  under_ceiling cfg w -> under_ceiling cfg (precharge_pulse cfg ticks w).
Proof.
  revert w. induction ticks as [| k IH]; intros w H; simpl; [exact H |].
  apply IH, vTaskDelay_ceiling, Regulator_Read_ADC_ceiling,
    Read_Charge_Status_ceiling, Regulator_HI_Z_ceiling,
    Set_Charge_Current_ceiling, Set_Charge_Voltage_ceiling; assumption.
Qed.

Lemma precharge_attempt_ceiling w :
  under_ceiling cfg w -> under_ceiling cfg (precharge_attempt cfg w).
Proof.
  intros H. unfold precharge_attempt.
  set (w1 := if negb _ then _ else _).
  assert (H1 : under_ceiling cfg w1) by (subst w1; destruct (negb _); exact H).
  pose proof (precharge_pulse_ceiling (pulse_ticks w) w1 H1) as H2.
  exact H2.
Qed.

Lemma precharge_loop_ceiling fuel w :
  under_ceiling cfg w -> under_ceiling cfg (fst (precharge_loop cfg fuel w)).
Proof.
  revert w. induction fuel as [| k IH]; intros w H; simpl; [exact H |].
  destruct (_ && _); [| exact H].
  specialize (IH (precharge_attempt cfg w) (precharge_attempt_ceiling w H)).
  now destruct (precharge_loop cfg k (precharge_attempt cfg w)).
Qed.

Lemma settle_ceiling ticks w :
  under_ceiling cfg w -> under_ceiling cfg (settle cfg ticks w).
Proof.
  revert w. induction ticks as [| k IH]; intros w H; simpl; [exact H |].
  apply IH, Regulator_Read_ADC_ceiling, Read_Charge_Status_ceiling,
    vTaskDelay_ceiling, H.
Qed.

Lemma uvp_recovery_ceiling w :
  under_ceiling cfg w -> under_ceiling cfg (fst (uvp_recovery cfg w)).
Proof.
  intros H. unfold uvp_recovery.
  pose proof (precharge_loop_ceiling (Z.to_nat (precharge_timeout w)) w H) as HL.
  destruct (precharge_loop cfg _ w) as [w1 passes]. simpl in *.
  unfold precharge_exit. destruct (negb _); [| exact HL].
  now apply settle_ceiling, Regulator_HI_Z_ceiling.
Qed.

Lemma before_control_ceiling w :
  under_ceiling cfg w -> under_ceiling cfg (before_control cfg w).
Proof.
  intros H. unfold before_control.
  set (w1 := if negb (Read_Charge_Okay w =? 1) then _ else _).
  assert (H1 : under_ceiling cfg w1).
  { subst w1. repeat break_if; exact H. }
  set (w2 := if has_error REGULATOR_COMMUNICATION_ERROR w1 then _ else _).
  assert (H2 : under_ceiling cfg w2) by (subst w2; break_if; exact H1).
  pose proof (Regulator_Read_ADC_ceiling _ (Read_Charge_Status_ceiling _ H2)) as H3.
  destruct (ATTEMPT_UVP_RECOVERY cfg); [now apply uvp_recovery_ceiling | exact H3].
Qed.

Lemma Control_Charger_Output_ceiling w :
  under_ceiling cfg w -> under_ceiling cfg (Control_Charger_Output cfg w).
Proof.
  intros H. unfold Control_Charger_Output. destruct (output_gate cfg w).
  - assert (H1 : under_ceiling cfg (enable_output cfg w)).
    { unfold enable_output.
      apply Regulator_HI_Z_ceiling, Set_Charge_Current_ceiling;
        [apply f_to_u32_nonneg | now apply Set_Charge_Voltage_ceiling]. }
    assert (H2 : under_ceiling cfg (disconnect_probe cfg (enable_output cfg w))).
    { unfold disconnect_probe. break_if; [| exact H1].
      now apply Regulator_HI_Z_ceiling, vTaskDelay_ceiling, Regulator_HI_Z_ceiling. }
    unfold charge_termination. break_if; [| exact H2].
    break_if; [| exact H2].
    apply vTaskDelay_ceiling, Regulator_HI_Z_ceiling. exact H2.
  - apply Set_Charge_Current_ceiling; [lia |].
    now apply Set_Charge_Voltage_ceiling, Regulator_HI_Z_ceiling.
Qed.

Lemma vRegulator_iteration_ceiling w :
  under_ceiling cfg w -> under_ceiling cfg (vRegulator_iteration cfg w).
Proof.
  intros H. unfold vRegulator_iteration. rewrite charger_dispatch_eq.
  now apply vTaskDelay_ceiling, Control_Charger_Output_ceiling,
    before_control_ceiling.
Qed.

End CurrentCeiling.

(** C5: [Set_Charge_Current] clamps every input to
    MAX_CHARGE_CURRENT_MA and stores the clamped value in
    [max_charge_current_ma]; across every pass of the task loop the
    stored limit and every ChargeCurrent write stay at or below that
    ceiling; and the power computed by [Calculate_Max_Charge_Power]
    never exceeds MAX_CHARGING_POWER.  The constants are assumed to be
    sane: non-negative ceilings, MAX_CHARGING_POWER below 2^24 (exact in
    a [float]) and an efficiency between 0 and 1. *)
Theorem charge_limits cfg :
  0 <= MAX_CHARGE_CURRENT_MA cfg ->
  0 <= UVP_RECOVERY_CURRENT_MA cfg ->
  0 <= MAX_CHARGING_POWER cfg < 2 ^ 24 ->
  f_le f_zero (ASSUME_EFFICIENCY cfg) = true ->
  f_le (ASSUME_EFFICIENCY cfg) f_one = true ->
  (forall x w,
     Get_Max_Charge_Current (Set_Charge_Current cfg x w)
     = Z.min x (MAX_CHARGE_CURRENT_MA cfg)
     /\ Get_Max_Charge_Current (Set_Charge_Current cfg x w)
        <= MAX_CHARGE_CURRENT_MA cfg)
  /\ (forall w, under_ceiling cfg w ->
        under_ceiling cfg (vRegulator_iteration cfg w))
  /\ (forall w, Calculate_Max_Charge_Power cfg w <= MAX_CHARGING_POWER cfg).
Proof.
  intros Hmax Huvp Hpow He0 He1. split; [| split].
  - intros x w. unfold Get_Max_Charge_Current.
    rewrite Set_Charge_Current_regulator. simpl. unfold clamp_current. lia.
  - intros w. now apply vRegulator_iteration_ceiling.
  - intros w. apply Calculate_Max_Charge_Power_bounds; [exact Hpow |].
    now apply f_le_unit_scalar.
Qed.

(** ** Thermal throttle *)

Lemma in_Z_range lo n T : lo <= T < lo + Z.of_nat n -> In T (Z_range lo n).
Proof.
  intros H. unfold Z_range. apply in_map_iff. exists (Z.to_nat (T - lo)).
  split; [lia | apply in_seq; lia].
Qed.

Lemma forallb_Z_range f lo n :
  forallb f (Z_range lo n) = true ->
  forall T, lo <= T < lo + Z.of_nat n -> f T = true.
Proof.
  intros H T HT. rewrite forallb_forall in H. now apply H, in_Z_range.
Qed.

Lemma power_scalar_spec T : power_scalar T = spec_thermal_scalar T.
Proof. reflexivity. Qed.

(** The three regimes of the scalar, by evaluation at every whole
    temperature of the range. *)
Lemma scalar_one_up_to_49 T : -273 <= T <= 49 -> scalar_is_one T = true.
Proof.
  intros H. apply (forallb_Z_range scalar_is_one (-273) 323); [| lia].
  vm_compute. reflexivity.
Qed.

Lemma scalar_partial_50_to_79 T : 50 <= T <= 79 -> scalar_is_partial T = true.
Proof.
  intros H. apply (forallb_Z_range scalar_is_partial 50 30); [| lia].
  vm_compute. reflexivity.
Qed.

(** From 80 degrees on, for every temperature: [0.0333 * T] is at least
    2.6635, so the inner difference is above 1 and the scalar, negative
    before its clamps, is 0 after them. *)
Lemma scalar_zero_from_80 T : 80 <= T -> scalar_is_zero T = true.
Proof.
  intros H. unfold scalar_is_zero, power_scalar.
  apply negative_clamped.
  change f_one with (S754_finite false 8388608 (-23)).
  apply (SFsub_negative 24 128 _ _ _ 513 (-9));
    [vm_compute; reflexivity |].
  change (f32_lit 166 100) with (S754_finite false 13925089 (-23)).
  apply (SFsub_at_least 24 128 ltac:(lia) _ _ _ 10910 (-12));
    [lia | vm_compute; discriminate | vm_compute; discriminate |].
  apply f32_of_f64_at_least; [lia | lia |].
  change (f64_lit 333 10000) with (S754_finite false 4799035762926001 (-57)).
  apply (SFmul_at_least 53 1024 ltac:(lia) _ _ _ 80 0);
    [lia | vm_compute; discriminate | vm_compute; discriminate |].
  apply f64_of_f32_at_least; [lia | lia |].
  apply f32_of_Z_at_least; lia.
Qed.

Lemma mul_zero_to_u32 x s : is_zero s = true -> f_to_u32 (f32_mul x s) = 0.
Proof.
  intros H. destruct s as [ss | | |]; try discriminate.
  apply not_positive_to_u32. now destruct x as [sx | sx | | sx m e].
Qed.

(** C4, as amended: for every controller temperature [T], if
    [T <= TEMP_THROTTLE_THRESH_C] the charge power is not derated; above
    the threshold it is multiplied by [s = 1 - (0.0333 * T - 1.66)]
    clamped to [0, 1].  That scalar is 1 up to 49 degrees, strictly
    between 0 and 1 from 50 to 79 degrees and 0 from 80 degrees on, so
    above the threshold the computed power is 0 for every [T >= 80], not
    for every [T >= 50]. *)
Theorem thermal_derating cfg w :
  let T := Get_MCU_Temperature w in
  let P := input_limited_power cfg w in
  (T <= TEMP_THROTTLE_THRESH_C cfg -> Calculate_Max_Charge_Power cfg w = P)
  /\ (TEMP_THROTTLE_THRESH_C cfg < T ->
      Calculate_Max_Charge_Power cfg w
      = f_to_u32 (f32_mul (f32_of_Z P) (spec_thermal_scalar T))
      /\ (-273 <= T <= 49 -> scalar_is_one T = true)
      /\ (50 <= T <= 79 -> scalar_is_partial T = true)
      /\ (80 <= T -> Calculate_Max_Charge_Power cfg w = 0)).
Proof.
  intros T P. unfold Calculate_Max_Charge_Power, thermal_throttle. fold T P.
  split.
  - intros H. apply Z.ltb_ge in H. now rewrite H.
  - intros H. apply Z.ltb_lt in H. rewrite H.
    split; [reflexivity |].
    split; [apply scalar_one_up_to_49 |].
    split; [apply scalar_partial_50_to_79 |].
    intros HT. apply mul_zero_to_u32. now apply scalar_zero_from_80.
Qed.

(** At 55 degrees the scalar is about 0.83 and the power is not 0. *)
Lemma power_at_55_degrees :
  50 <= Get_MCU_Temperature (world_at_temperature 55)
  /\ Calculate_Max_Charge_Power example_config (world_at_temperature 55) = 44738
  /\ Calculate_Max_Charge_Power example_config (world_at_temperature 55) <> 0.
Proof. vm_compute. repeat split; congruence. Qed.

Lemma thermal_derating_witness :
  Calculate_Max_Charge_Power example_config (world_at_temperature 25)
  = input_limited_power example_config (world_at_temperature 25)
  /\ Calculate_Max_Charge_Power example_config (world_at_temperature 85) = 0.
Proof.
  split.
  - apply (proj1 (thermal_derating example_config (world_at_temperature 25))).
    vm_compute. discriminate.
  - apply (proj2 (thermal_derating example_config (world_at_temperature 85)));
      [reflexivity |].
    vm_compute. discriminate.
Defined.

(** ** Charge termination *)

Section Termination.

Variable cfg : Config.

Lemma termination_condition_ext w w' :
  battery_state w' = battery_state w ->
  charge_current (regulator w') = charge_current (regulator w) ->
  termination_condition cfg w' = termination_condition cfg w.
Proof.
  intros Hb Hc. unfold termination_condition, Get_Requires_Charging_State,
    Get_Charge_Current_ADC_Reading. now rewrite Hb, Hc.
Qed.

(** Enabling the output and probing for a disconnect ends with the
    high-impedance line released and changes nothing the termination
    test reads. *)
Lemma enabled_output_state w :
  let w' := disconnect_probe cfg (enable_output cfg w) in
  driver_quiet w w'
  /\ charge_current (regulator w') = charge_current (regulator w)
  /\ gpio w' ILIM_HIZ = GPIO_PIN_SET
  /\ In (EvGpioWrite ILIM_HIZ GPIO_PIN_SET) (trace w').
Proof.
  intros w'. subst w'.
  assert (He : driver_quiet w (enable_output cfg w)
               /\ charge_current (regulator (enable_output cfg w))
                  = charge_current (regulator w)).
  { unfold enable_output. split.
    - eapply driver_quiet_trans; [apply Set_Charge_Voltage_quiet |].
      eapply driver_quiet_trans; [apply Set_Charge_Current_quiet |].
      apply Regulator_HI_Z_quiet.
    - rewrite Regulator_HI_Z_regulator, Set_Charge_Current_regulator. simpl.
      now rewrite Set_Charge_Voltage_regulator. }
  destruct He as [Hq Hc].
  unfold disconnect_probe. break_if.
  - split; [| split; [| split]].
    + eapply driver_quiet_trans; [exact Hq |].
      eapply driver_quiet_trans; [apply Regulator_HI_Z_quiet |].
      eapply driver_quiet_trans; [apply vTaskDelay_quiet |].
      apply Regulator_HI_Z_quiet.
    + now rewrite !Regulator_HI_Z_regulator.
    + reflexivity.
    + simpl. tauto.
  - split; [exact Hq | split; [exact Hc | split]].
    + reflexivity.
    + unfold enable_output. simpl. tauto.
Qed.

Lemma Control_Charger_Output_open w :
  output_gate cfg w = true ->
  Control_Charger_Output cfg w
  = charge_termination cfg (disconnect_probe cfg (enable_output cfg w)).
Proof. intros H. unfold Control_Charger_Output. now rewrite H. Qed.

(** One pass with the gate open: the counter and the high-impedance line
    at the end of the pass. *)
Lemma termination_step w :
  output_gate cfg w = true ->
  let w' := Control_Charger_Output cfg w in
  (termination_condition cfg w = true ->
     termination_counter w' = u16 (termination_counter w + 1)
     /\ (3 < u16 (termination_counter w + 1) ->
         gpio w' ILIM_HIZ = GPIO_PIN_RESET
         /\ firstn 3 (trace w')
            = [EvDelay (500 / portTICK_PERIOD_MS cfg);
               EvGpioWrite FAN_ENn GPIO_PIN_SET;
               EvGpioWrite ILIM_HIZ GPIO_PIN_RESET])
     /\ (u16 (termination_counter w + 1) <= 3 ->
         gpio w' ILIM_HIZ = GPIO_PIN_SET))
  /\ (termination_condition cfg w = false ->
     termination_counter w' = 0 /\ gpio w' ILIM_HIZ = GPIO_PIN_SET).
Proof.
  intros Hg w'. subst w'. rewrite (Control_Charger_Output_open w Hg).
  destruct (enabled_output_state w) as (Hq & Hc & Hz & _).
  set (w1 := disconnect_probe cfg (enable_output cfg w)) in *.
  assert (Hb : battery_state w1 = battery_state w) by apply Hq.
  assert (Ht : termination_counter w1 = termination_counter w) by apply Hq.
  pose proof (termination_condition_ext w w1 Hb Hc) as Hcond.
  unfold charge_termination. rewrite Hcond. split; intros Hc'; rewrite Hc'.
  - simpl termination_counter. rewrite Ht.
    destruct (Z.ltb_spec 3 (u16 (termination_counter w + 1))) as [H3 | H3].
    + split; [reflexivity |]. split; [| lia]. intros _. split; reflexivity.
    + split; [reflexivity |]. split; [lia |]. intros _. exact Hz.
  - split; [reflexivity | exact Hz].
Qed.

(** With the gate closed the counter is left as it is. *)
Lemma blocked_keeps_counter w :
  output_gate cfg w = false ->
  termination_counter (Control_Charger_Output cfg w) = termination_counter w.
Proof.
  intros Hg. unfold Control_Charger_Output. rewrite Hg.
  pose proof (Regulator_HI_Z_quiet 1 w) as H1.
  pose proof (Set_Charge_Voltage_quiet cfg 0 (Regulator_HI_Z 1 w)) as H2.
  pose proof (Set_Charge_Current_quiet cfg 0
                (Set_Charge_Voltage cfg 0 (Regulator_HI_Z 1 w))) as H3.
  apply (driver_quiet_trans _ _ _ H1 (driver_quiet_trans _ _ _ H2 H3)).
Qed.

(** The release of a forced high impedance: every pass with the gate
    open commands the output on before the termination test. *)
Lemma open_gate_releases_hi_z w :
  output_gate cfg w = true ->
  In (EvGpioWrite ILIM_HIZ GPIO_PIN_SET)
     (trace (Control_Charger_Output cfg w)).
Proof.
  intros Hg. rewrite (Control_Charger_Output_open w Hg).
  destruct (enabled_output_state w) as (_ & _ & _ & Hin).
  set (w1 := disconnect_probe cfg (enable_output cfg w)) in *.
  unfold charge_termination. repeat break_if; simpl; tauto.
Qed.

End Termination.

Lemma u16_succ c : 0 <= c < 65535 -> u16 (c + 1) = c + 1.
Proof. intros H. unfold u16. apply Z.mod_small. change (2 ^ 16) with 65536. lia. Qed.

(** Four consecutive passes that make the termination test and find it
    true end with the output in high impedance, as long as the counter
    does not reach the end of its 16 bits on the way. *)
Lemma four_passes_force_hi_z cfg w1 w2 w3 w4 :
  terminating_pass cfg w1 -> terminating_pass cfg w2 ->
  terminating_pass cfg w3 -> terminating_pass cfg w4 ->
  termination_counter w2 = termination_counter (Control_Charger_Output cfg w1) ->
  termination_counter w3 = termination_counter (Control_Charger_Output cfg w2) ->
  termination_counter w4 = termination_counter (Control_Charger_Output cfg w3) ->
  0 <= termination_counter w1 <= 65531 ->
  let w' := Control_Charger_Output cfg w4 in
  gpio w' ILIM_HIZ = GPIO_PIN_RESET
  /\ firstn 3 (trace w')
     = [EvDelay (500 / portTICK_PERIOD_MS cfg);
        EvGpioWrite FAN_ENn GPIO_PIN_SET;
        EvGpioWrite ILIM_HIZ GPIO_PIN_RESET].
Proof.
  intros [G1 C1] [G2 C2] [G3 C3] [G4 C4] E2 E3 E4 Hc w'. subst w'.
  destruct (proj1 (termination_step cfg w1 G1) C1) as (T1 & _).
  destruct (proj1 (termination_step cfg w2 G2) C2) as (T2 & _).
  destruct (proj1 (termination_step cfg w3 G3) C3) as (T3 & _).
  destruct (proj1 (termination_step cfg w4 G4) C4) as (_ & F4 & _).
  rewrite T1, u16_succ in E2 by lia.
  rewrite T2, E2, u16_succ in E3 by lia.
  rewrite T3, E3, u16_succ in E4 by lia.
  apply F4. rewrite E4, u16_succ by lia. lia.
Qed.

(** Every counter value is reached by consecutive terminating passes. *)
Lemma counter_reachable c :
  0 <= c < 65535 ->
  terminating_pass example_config (terminating_world c)
  /\ termination_counter
       (Control_Charger_Output example_config (terminating_world c)) = c + 1.
Proof.
  intros Hc.
  assert (Hp : terminating_pass example_config (terminating_world c))
    by (split; reflexivity).
  split; [exact Hp |]. destruct Hp as [G C].
  destruct (proj1 (termination_step example_config _ G) C) as (T & _).
  rewrite T. simpl termination_counter. now apply u16_succ.
Qed.

(** C7: four consecutive passes that each observe
    [requires_charging = 0] and a charge current below
    CHARGE_TERM_CURRENT_MA do not force high impedance when the 16-bit
    termination counter starts them at 65532: it wraps to 0 in the
    fourth pass, which leaves the output enabled. *)
Theorem termination_counter_wraps cfg w1 w2 w3 w4 :
  terminating_pass cfg w1 -> terminating_pass cfg w2 ->
  terminating_pass cfg w3 -> terminating_pass cfg w4 ->
  termination_counter w2 = termination_counter (Control_Charger_Output cfg w1) ->
  termination_counter w3 = termination_counter (Control_Charger_Output cfg w2) ->
  termination_counter w4 = termination_counter (Control_Charger_Output cfg w3) ->
  termination_counter w1 = 65532 ->
  let w' := Control_Charger_Output cfg w4 in
  termination_counter w' = 0 /\ gpio w' ILIM_HIZ = GPIO_PIN_SET.
Proof.
  intros [G1 C1] [G2 C2] [G3 C3] [G4 C4] E2 E3 E4 Hc w'. subst w'.
  destruct (proj1 (termination_step cfg w1 G1) C1) as (T1 & _).
  destruct (proj1 (termination_step cfg w2 G2) C2) as (T2 & _).
  destruct (proj1 (termination_step cfg w3 G3) C3) as (T3 & _).
  destruct (proj1 (termination_step cfg w4 G4) C4) as (T4 & _ & F4).
  rewrite T1, Hc in E2. rewrite T2, E2 in E3. rewrite T3, E3 in E4.
  assert (Hw : u16 (termination_counter w4 + 1) = 0) by (rewrite E4; reflexivity).
  split; [now rewrite T4 | apply F4; lia].
Qed.

(** ** UVP recovery *)

Section UvpRecovery.

Variable cfg : Config.

Lemma precharge_pulse_quiet ticks w :
  driver_quiet w (precharge_pulse cfg ticks w).
Proof.
  revert w. induction ticks as [| k IH]; intros w; simpl;
    [apply driver_quiet_refl |].
  eapply driver_quiet_trans; [| apply IH].
  eapply driver_quiet_trans; [apply Set_Charge_Voltage_quiet |].
  eapply driver_quiet_trans; [apply Set_Charge_Current_quiet |].
  eapply driver_quiet_trans; [apply Regulator_HI_Z_quiet |].
  eapply driver_quiet_trans; [apply Read_Charge_Status_quiet |].
  eapply driver_quiet_trans; [apply Regulator_Read_ADC_quiet |].
  apply vTaskDelay_quiet.
Qed.

(** One pass: the counter goes down by one, the wakeup flag is spent and
    the precharge flag is up. *)
Lemma precharge_attempt_statics w :
  precharge_timeout (precharge_attempt cfg w) = u16 (precharge_timeout w - 1)
  /\ initial_precharge_wakeup (precharge_attempt cfg w) = 0
  /\ precharging_state (precharge_attempt cfg w) = 1.
Proof.
  unfold precharge_attempt.
  set (w1 := if negb (initial_precharge_wakeup (set_precharging_state 1 w) =? 0)
             then _ else _).
  assert (H1 : precharge_timeout w1 = precharge_timeout w
               /\ initial_precharge_wakeup w1 = 0
               /\ precharging_state w1 = 1).
  { subst w1. simpl initial_precharge_wakeup.
    destruct (Z.eqb_spec (initial_precharge_wakeup w) 0) as [E | E]; simpl;
      repeat split; assumption. }
  destruct H1 as (A & B & C).
  pose proof (precharge_pulse_quiet (pulse_ticks w) w1) as Hq.
  destruct Hq as (_ & _ & Q3 & _ & Q5 & Q6 & _).
  simpl. rewrite Q5, Q6, Q3, A. repeat split; assumption.
Qed.

Lemma pulse_ticks_after w :
  initial_precharge_wakeup w = 0 -> pulse_ticks w = 12%nat.
Proof. intros H. unfold pulse_ticks. now rewrite H. Qed.

Lemma pulse_ticks_first w :
  initial_precharge_wakeup w <> 0 -> pulse_ticks w = 20%nat.
Proof.
  intros H. unfold pulse_ticks. apply Z.eqb_neq in H. now rewrite H.
Qed.

(** The precharge loop, for a counter within its 16 bits and fuel that
    covers it. *)
Lemma precharge_loop_spec fuel : forall w,
  0 <= precharge_timeout w < 2 ^ 16 ->
  (Z.to_nat (precharge_timeout w) <= fuel)%nat ->
  let w' := fst (precharge_loop cfg fuel w) in
  let passes := snd (precharge_loop cfg fuel w) in
  Z.of_nat (length passes) = precharge_timeout w - precharge_timeout w'
  /\ (1 <= precharge_timeout w -> 1 <= precharge_timeout w')
  /\ (1 <? precharge_timeout w') && vbat_needs_precharge cfg w' = false
  /\ (passes = []
      \/ passes = pulse_ticks w :: repeat 12%nat (length passes - 1))
  /\ (passes = [] -> w' = w)
  /\ (passes <> [] -> precharging_state w' = 1).
Proof.
  induction fuel as [| k IH]; intros w Hr Hf; cbv zeta.
  - cbn [precharge_loop fst snd length]. assert (precharge_timeout w = 0) by lia.
    replace (1 <? precharge_timeout w) with false
      by (symmetry; apply Z.ltb_ge; lia).
    repeat split; try lia; try tauto.
  - cbn [precharge_loop].
    destruct ((1 <? precharge_timeout w) && vbat_needs_precharge cfg w) eqn:Ec.
    + apply andb_true_iff in Ec. destruct Ec as [Et Ev]. apply Z.ltb_lt in Et.
      destruct (precharge_attempt_statics w) as (A1 & A2 & A3).
      assert (At : precharge_timeout (precharge_attempt cfg w)
                   = precharge_timeout w - 1).
      { rewrite A1. unfold u16. apply Z.mod_small. lia. }
      specialize (IH (precharge_attempt cfg w)).
      cbv zeta in IH. rewrite At in IH.
      specialize (IH ltac:(lia) ltac:(lia)).
      destruct (precharge_loop cfg k (precharge_attempt cfg w)) as [w' passes].
      cbn [fst snd length] in *. destruct IH as (I1 & I2 & I3 & I4 & I5 & I6).
      split; [lia |]. split; [lia |]. split; [exact I3 |]. split.
      * right. f_equal. rewrite Nat.sub_succ, Nat.sub_0_r.
        destruct I4 as [E | E]; [now rewrite E |].
        rewrite (pulse_ticks_after _ A2) in E.
        destruct passes as [| p ps]; [discriminate |].
        cbn [length] in E. rewrite Nat.sub_succ, Nat.sub_0_r in E.
        injection E as -> E. cbn [length repeat]. now f_equal.
      * split; [discriminate |]. intros _.
        destruct passes as [| p ps]; [| apply I6; discriminate].
        rewrite (I5 eq_refl). exact A3.
    + cbn [fst snd length]. rewrite Ec. repeat split; try lia; tauto.
Qed.

Lemma settle_quiet ticks w : driver_quiet w (settle cfg ticks w).
Proof.
  revert w. induction ticks as [| k IH]; intros w; simpl;
    [apply driver_quiet_refl |].
  eapply driver_quiet_trans; [| apply IH].
  eapply driver_quiet_trans; [apply vTaskDelay_quiet |].
  eapply driver_quiet_trans; [apply Read_Charge_Status_quiet |].
  apply Regulator_Read_ADC_quiet.
Qed.

Lemma settle_gpio ticks w : gpio (settle cfg ticks w) = gpio w.
Proof.
  revert w. induction ticks as [| k IH]; intros w; simpl; [reflexivity |].
  now rewrite IH, Regulator_Read_ADC_gpio, Read_Charge_Status_gpio.
Qed.

Lemma settle_trace ticks w :
  exists ps, length ps = ticks
    /\ trace (settle cfg ticks w) = settle_events cfg ps ++ trace w.
Proof.
  revert w. induction ticks as [| k IH]; intros w; simpl.
  - now exists [].
  - set (xDelay := 250 / portTICK_PERIOD_MS cfg).
    destruct (IH (Regulator_Read_ADC cfg
                    (Read_Charge_Status cfg (vTaskDelay xDelay w))))
      as (ps & Hl & Ht).
    destruct (Regulator_Read_ADC_trace cfg
                (Read_Charge_Status cfg (vTaskDelay xDelay w))) as [p Hp].
    exists (ps ++ [p]). split; [rewrite length_app; simpl; lia |].
    rewrite Ht, Hp, Read_Charge_Status_trace. simpl trace.
    unfold settle_events. rewrite flat_map_app. simpl.
    rewrite <- app_assoc. reflexivity.
Qed.

End UvpRecovery.

(** A pulse of [ticks] ticks gives the scheduler exactly [ticks] delays. *)
Lemma precharge_pulse_delays cfg ticks w :
  length (filter is_delay (trace (precharge_pulse cfg ticks w)))
  = (ticks + length (filter is_delay (trace w)))%nat.
Proof.
  revert w. induction ticks as [| k IH]; intros w; [reflexivity |].
  cbn [precharge_pulse]. rewrite IH. cbn [vTaskDelay log trace filter is_delay length].
  destruct (Regulator_Read_ADC_trace cfg
              (Read_Charge_Status cfg
                 (Regulator_HI_Z 0
                    (Set_Charge_Current cfg (UVP_RECOVERY_CURRENT_MA cfg)
                       (Set_Charge_Voltage cfg (u8 (NUM_SERIES cfg)) w)))))
    as [p Hp].
  rewrite Hp, Read_Charge_Status_trace.
  destruct (Regulator_HI_Z_off 0
              (Set_Charge_Current cfg (UVP_RECOVERY_CURRENT_MA cfg)
                 (Set_Charge_Voltage cfg (u8 (NUM_SERIES cfg)) w))
              ltac:(discriminate)) as (_ & _ & Hz).
  rewrite Hz, Set_Charge_Current_trace, Set_Charge_Voltage_trace.
  cbn [app filter is_delay length]. lia.
Qed.

(** The loop leaves at least one in the counter, so that the exit block
    runs: from 300 it makes at most 299 passes. *)
Lemma precharge_passes_at_most_299 cfg w :
  precharge_timeout w = 300 ->
  (length (snd (uvp_recovery cfg w)) <= 299)%nat
  /\ 1 <= precharge_timeout (fst (precharge_loop cfg 300 w)).
Proof.
  intros Ht. unfold uvp_recovery. rewrite Ht. change (Z.to_nat 300) with 300%nat.
  pose proof (precharge_loop_spec cfg 300 w) as H. cbv zeta in H.
  rewrite Ht in H. specialize (H ltac:(lia) ltac:(lia)).
  destruct (precharge_loop cfg 300 w) as [wl passes]. cbn [fst snd] in *.
  destruct H as (H1 & H2 & _). lia.
Qed.

(** Once the exit block has run the recovery is over for good. *)
Lemma uvp_recovery_once cfg w :
  precharge_timeout w = 0 -> uvp_recovery cfg w = (w, []).
Proof.
  intros Ht. unfold uvp_recovery. rewrite Ht. simpl.
  unfold precharge_exit. now rewrite Ht.
Qed.

(** ** What the recovery writes, reads and stores *)

Lemma nth_after_skipn {A} (d : A) n : forall k (l : list A),
  nth k (skipn n l) d = nth (n + k) l d.
Proof.
  induction n as [| n IH]; intros k l; [reflexivity |].
  destruct l as [| a l]; [now destruct k |]. apply IH.
Qed.

Lemma skipn_twice {A} a b (l : list A) :
  skipn a (skipn b l) = skipn (b + a) l.
Proof.
  revert l. induction b as [| b IH]; intros l; [reflexivity |].
  destruct l as [| x l]; [now rewrite !skipn_nil |]. apply IH.
Qed.

Lemma pulse_events_app cfg qs1 qs2 :
  pulse_events cfg (qs1 ++ qs2) = pulse_events cfg qs1 ++ pulse_events cfg qs2.
Proof. apply flat_map_app. Qed.

Section Replies.

Variable cfg : Config.

(** Every driver operation takes one reply off the bus. *)
Lemma bus_operation_bus ev w :
  bus (snd (bus_operation ev w)) = skipn 1 (bus w).
Proof.
  unfold bus_operation, next_reply.
  destruct (bus w) as [| r rest] eqn:E; simpl; [exact E |].
  now destruct (comm_fault r).
Qed.

Lemma bus_operation_reply ev w : fst (bus_operation ev w) = reply_at 0 w.
Proof.
  unfold bus_operation, next_reply, reply_at.
  now destruct (bus w) as [| r rest].
Qed.

Lemma Regulator_HI_Z_bus h w : bus (Regulator_HI_Z h w) = bus w.
Proof. unfold Regulator_HI_Z. now destruct (h =? 1). Qed.

Lemma Set_Charge_Voltage_bus n w :
  bus (Set_Charge_Voltage cfg n w) = skipn 2 (bus w).
Proof.
  unfold Set_Charge_Voltage.
  destruct (charge_voltage_registers cfg n) as [[r1 r2] ms].
  unfold I2C_Write_Register, I2C_Write_Two_Byte_Register.
  now rewrite !bus_operation_bus, skipn_twice.
Qed.

Lemma Set_Charge_Current_bus x w :
  bus (Set_Charge_Current cfg x w) = skipn 1 (bus w).
Proof.
  unfold Set_Charge_Current. cbv zeta.
  destruct (charge_current_registers _) as [r1 r2].
  unfold I2C_Write_Two_Byte_Register. now rewrite bus_operation_bus.
Qed.

(** [Read_Charge_Status] takes one reply and stores the status that it
    stands for. *)
Lemma Read_Charge_Status_stores w :
  bus (Read_Charge_Status cfg w) = skipn 1 (bus w)
  /\ Get_Regulator_Charging_State (Read_Charge_Status cfg w)
     = status_of cfg (reply_at 0 w).
Proof.
  unfold Read_Charge_Status, status_of, Get_Regulator_Charging_State.
  pose proof (bus_operation_bus EvChargeStatusRead w) as Hb.
  pose proof (bus_operation_reply EvChargeStatusRead w) as Hr.
  destruct (bus_operation EvChargeStatusRead w) as [r w1].
  cbn [fst snd] in Hb, Hr. subst r.
  now destruct (Z.land _ _ =? 0).
Qed.

(** [Regulator_Read_ADC] takes one reply and stores the samples that it
    stands for; the charge status stays. *)
Lemma Regulator_Read_ADC_stores w :
  bus (Regulator_Read_ADC cfg w) = skipn 1 (bus w)
  /\ stored_samples (Regulator_Read_ADC cfg w) = samples_of cfg (reply_at 0 w)
  /\ Get_Regulator_Charging_State (Regulator_Read_ADC cfg w)
     = Get_Regulator_Charging_State w.
Proof.
  unfold Regulator_Read_ADC, next_reply, reply_at.
  destruct (bus w) as [| r rest] eqn:E; cbn [nth].
  - split; [exact E | split; reflexivity].
  - destruct (comm_fault r); repeat split.
Qed.

(** One tick of a pulse. *)
Lemma precharge_tick_events w :
  let w' := vTaskDelay (250 / portTICK_PERIOD_MS cfg)
              (Regulator_Read_ADC cfg
                 (Read_Charge_Status cfg
                    (Regulator_HI_Z 0
                       (Set_Charge_Current cfg (UVP_RECOVERY_CURRENT_MA cfg)
                          (Set_Charge_Voltage cfg (u8 (NUM_SERIES cfg)) w))))) in
  (exists p, trace w' = pulse_events cfg [p] ++ trace w)
  /\ bus w' = skipn 5 (bus w).
Proof.
  intros w'. subst w'.
  set (w1 := Set_Charge_Voltage cfg (u8 (NUM_SERIES cfg)) w).
  set (w2 := Set_Charge_Current cfg (UVP_RECOVERY_CURRENT_MA cfg) w1).
  set (w3 := Regulator_HI_Z 0 w2).
  set (w4 := Read_Charge_Status cfg w3).
  split.
  - destruct (Regulator_Read_ADC_trace cfg w4) as [p Hp]. exists p.
    cbn [vTaskDelay log trace]. rewrite Hp. subst w4.
    rewrite Read_Charge_Status_trace. subst w3.
    destruct (Regulator_HI_Z_off 0 w2 ltac:(discriminate)) as (_ & _ & Hz).
    rewrite Hz. subst w2 w1.
    rewrite Set_Charge_Current_trace, Set_Charge_Voltage_trace. reflexivity.
  - assert (Hd : forall t v, bus (vTaskDelay t v) = bus v) by reflexivity.
    rewrite Hd. rewrite (proj1 (Regulator_Read_ADC_stores w4)). subst w4.
    rewrite (proj1 (Read_Charge_Status_stores w3)). subst w3.
    rewrite Regulator_HI_Z_bus. subst w2. rewrite Set_Charge_Current_bus.
    subst w1. rewrite Set_Charge_Voltage_bus. now rewrite !skipn_twice.
Qed.

Lemma precharge_pulse_unfold k w :
  precharge_pulse cfg (S k) w
  = precharge_pulse cfg k
      (vTaskDelay (250 / portTICK_PERIOD_MS cfg)
         (Regulator_Read_ADC cfg
            (Read_Charge_Status cfg
               (Regulator_HI_Z 0
                  (Set_Charge_Current cfg (UVP_RECOVERY_CURRENT_MA cfg)
                     (Set_Charge_Voltage cfg (u8 (NUM_SERIES cfg)) w)))))).
Proof. reflexivity. Qed.

(** A pulse of [ticks] ticks: [ticks] times the commands of a tick, five
    replies taken per tick. *)
Lemma precharge_pulse_events ticks : forall w,
  (exists qs, length qs = ticks
     /\ trace (precharge_pulse cfg ticks w) = pulse_events cfg qs ++ trace w)
  /\ bus (precharge_pulse cfg ticks w) = skipn (5 * ticks) (bus w).
Proof.
  induction ticks as [| k IH]; intros w.
  - split; [now exists [] | reflexivity].
  - rewrite precharge_pulse_unfold.
    destruct (precharge_tick_events w) as ((p & Hp) & Hb).
    destruct (IH (vTaskDelay (250 / portTICK_PERIOD_MS cfg)
         (Regulator_Read_ADC cfg
            (Read_Charge_Status cfg
               (Regulator_HI_Z 0
                  (Set_Charge_Current cfg (UVP_RECOVERY_CURRENT_MA cfg)
                     (Set_Charge_Voltage cfg (u8 (NUM_SERIES cfg)) w)))))))
      as ((qs & Hl & Ht) & Hb').
    split.
    + exists (qs ++ [p]). split; [rewrite length_app; cbn [length]; lia |].
      rewrite Ht, Hp, pulse_events_app, <- app_assoc. reflexivity.
    + rewrite Hb', Hb, skipn_twice. f_equal. lia.
Qed.

(** One pass of the loop: a pulse of 20 ticks when the wakeup flag is
    up, of 12 when it is down. *)
Lemma precharge_attempt_events w :
  let n := if initial_precharge_wakeup w =? 0 then 12%nat else 20%nat in
  (exists qs, length qs = n
     /\ trace (precharge_attempt cfg w) = pulse_events cfg qs ++ trace w)
  /\ bus (precharge_attempt cfg w) = skipn (5 * n) (bus w)
  /\ pulse_ticks w = n.
Proof.
  intros n.
  assert (Hn : pulse_ticks w = n).
  { subst n. unfold pulse_ticks. now destruct (initial_precharge_wakeup w =? 0). }
  unfold precharge_attempt. cbv zeta. rewrite Hn.
  set (w1 := if negb (initial_precharge_wakeup (set_precharging_state 1 w) =? 0)
             then _ else _).
  assert (H1 : trace w1 = trace w /\ bus w1 = bus w)
    by (subst w1; now destruct (negb _)).
  destruct H1 as [T1 B1].
  destruct (precharge_pulse_events n w1) as ((qs & Hl & Ht) & Hb).
  assert (Hs : forall t v, trace (set_precharge_timeout t v) = trace v
                           /\ bus (set_precharge_timeout t v) = bus v)
    by (intros; split; reflexivity).
  split; [| split; [| reflexivity]].
  - exists qs. split; [exact Hl |].
    rewrite (proj1 (Hs _ _)), Ht, T1. reflexivity.
  - rewrite (proj2 (Hs _ _)), Hb, B1. reflexivity.
Qed.

(** The loop: the commands are those of the ticks of its passes, and
    nothing else. *)
Lemma precharge_loop_events fuel : forall w,
  let w' := fst (precharge_loop cfg fuel w) in
  let ticks := list_sum (snd (precharge_loop cfg fuel w)) in
  (exists qs, length qs = ticks /\ trace w' = pulse_events cfg qs ++ trace w)
  /\ bus w' = skipn (5 * ticks) (bus w).
Proof.
  induction fuel as [| k IH]; intros w; cbv zeta.
  - cbn [precharge_loop fst snd list_sum fold_right].
    split; [now exists [] | reflexivity].
  - cbn [precharge_loop].
    destruct ((1 <? precharge_timeout w) && vbat_needs_precharge cfg w).
    + specialize (IH (precharge_attempt cfg w)). cbv zeta in IH.
      destruct (precharge_attempt_events w) as ((q1 & L1 & T1) & B1 & N1).
      destruct (precharge_loop cfg k (precharge_attempt cfg w)) as [w' passes].
      cbn [fst snd] in *. destruct IH as ((qs & Hl & Ht) & Hb).
      rewrite N1. cbn [list_sum fold_right]. fold (list_sum passes).
      split.
      * exists (qs ++ q1). split; [rewrite length_app; lia |].
        rewrite Ht, T1, pulse_events_app, <- app_assoc. reflexivity.
      * rewrite Hb, B1, skipn_twice. f_equal. lia.
    + cbn [fst snd list_sum fold_right].
      split; [now exists [] | reflexivity].
Qed.

(** The settle ticks, the last one apart. *)
Lemma settle_last k : forall w,
  settle cfg (S k) w
  = Regulator_Read_ADC cfg
      (Read_Charge_Status cfg
         (vTaskDelay (250 / portTICK_PERIOD_MS cfg) (settle cfg k w))).
Proof.
  induction k as [| k IH]; intros w; [reflexivity |].
  change (settle cfg (S (S k)) w)
    with (settle cfg (S k)
            (Regulator_Read_ADC cfg
               (Read_Charge_Status cfg
                  (vTaskDelay (250 / portTICK_PERIOD_MS cfg) w)))).
  rewrite IH. reflexivity.
Qed.

Lemma settle_bus k : forall w, bus (settle cfg k w) = skipn (2 * k) (bus w).
Proof.
  induction k as [| k IH]; intros w; [reflexivity |].
  rewrite settle_last.
  rewrite (proj1 (Regulator_Read_ADC_stores _)).
  rewrite (proj1 (Read_Charge_Status_stores _)).
  change (bus (vTaskDelay (250 / portTICK_PERIOD_MS cfg) (settle cfg k w)))
    with (bus (settle cfg k w)).
  rewrite IH, !skipn_twice. f_equal. lia.
Qed.

(** After the settle ticks the record holds the status and the samples
    of the last two replies. *)
Lemma settle_stores k w :
  let w' := settle cfg (S k) w in
  Get_Regulator_Charging_State w' = status_of cfg (reply_at (2 * k) w)
  /\ stored_samples w' = samples_of cfg (reply_at (2 * k + 1) w)
  /\ bus w' = skipn (2 * k + 2) (bus w).
Proof.
  intros w'. subst w'. split; [| split].
  - rewrite settle_last.
    rewrite (proj2 (proj2 (Regulator_Read_ADC_stores _))).
    rewrite (proj2 (Read_Charge_Status_stores _)).
    unfold reply_at.
    change (bus (vTaskDelay (250 / portTICK_PERIOD_MS cfg) (settle cfg k w)))
      with (bus (settle cfg k w)).
    rewrite settle_bus, nth_after_skipn. f_equal. f_equal. lia.
  - rewrite settle_last.
    rewrite (proj1 (proj2 (Regulator_Read_ADC_stores _))).
    unfold reply_at. rewrite (proj1 (Read_Charge_Status_stores _)).
    change (bus (vTaskDelay (250 / portTICK_PERIOD_MS cfg) (settle cfg k w)))
      with (bus (settle cfg k w)).
    rewrite settle_bus, skipn_twice, nth_after_skipn. f_equal. f_equal. lia.
  - rewrite settle_bus. f_equal. lia.
Qed.

End Replies.

(** C3: started at boot (counter 300, wakeup flag set) the UVP recovery
    makes at most 300 passes through its loop, as many as the counter
    goes down, the first with a pulse of 20 ticks and every later one
    with 12: a pass runs 20 ticks when the wakeup flag is up and 12
    when it is down, and leaves the flag down.  The commands of the loop
    are exactly those of the ticks of its pulses: each tick writes the
    charge voltage and the recovery current, releases high impedance,
    reads the charge status, takes a set of samples and waits, and takes
    five replies off the bus.  The loop ends because its condition
    fails; and on exit [precharging_state] is 0, the counter is 0, high
    impedance is on and 4 settle ticks have each waited, read the charge
    status and taken a set of samples, so that the regulator record
    holds the status and the samples of the last two replies. *)
Theorem uvp_recovery_bounded cfg w :
  precharge_timeout w = 300 ->
  initial_precharge_wakeup w = 1 ->
  let wl := fst (precharge_loop cfg 300 w) in
  let w' := fst (uvp_recovery cfg w) in
  let passes := snd (uvp_recovery cfg w) in
  let ticks := list_sum passes in
  (length passes <= 300)%nat
  /\ Z.of_nat (length passes) = 300 - precharge_timeout wl
  /\ (passes = [] \/ passes = 20%nat :: repeat 12%nat (length passes - 1))
  /\ (exists qs, length qs = ticks
        /\ trace wl = pulse_events cfg qs ++ trace w)
  /\ bus wl = skipn (5 * ticks) (bus w)
  /\ (1 <? precharge_timeout wl) && vbat_needs_precharge cfg wl = false
  /\ precharging_state w' = 0
  /\ precharge_timeout w' = 0
  /\ gpio w' ILIM_HIZ = GPIO_PIN_RESET
  /\ (exists ps, length ps = 4%nat
        /\ trace w' = settle_events cfg ps
                      ++ [EvGpioWrite FAN_ENn GPIO_PIN_SET;
                          EvGpioWrite ILIM_HIZ GPIO_PIN_RESET] ++ trace wl)
  /\ Get_Regulator_Charging_State w'
     = status_of cfg (reply_at (5 * ticks + 6) w)
  /\ stored_samples w' = samples_of cfg (reply_at (5 * ticks + 7) w)
  /\ bus w' = skipn (5 * ticks + 8) (bus w)
  /\ (forall v,
       let n := if initial_precharge_wakeup v =? 0 then 12%nat else 20%nat in
       (exists qs, length qs = n
          /\ trace (precharge_attempt cfg v) = pulse_events cfg qs ++ trace v)
       /\ initial_precharge_wakeup (precharge_attempt cfg v) = 0).
Proof.
  intros Ht Hw wl w' passes ticks.
  destruct (precharge_passes_at_most_299 cfg w Ht) as [Hlen Hone].
  fold passes in Hlen. fold wl in Hone.
  pose proof (precharge_loop_spec cfg 300 w) as H. cbv zeta in H.
  rewrite Ht in H. specialize (H ltac:(lia) ltac:(lia)). fold wl in H.
  assert (Hu : uvp_recovery cfg w
               = (precharge_exit cfg wl, snd (precharge_loop cfg 300 w))).
  { unfold uvp_recovery. rewrite Ht. change (Z.to_nat 300) with 300%nat.
    subst wl. now destruct (precharge_loop cfg 300 w). }
  assert (Hp : passes = snd (precharge_loop cfg 300 w))
    by (subst passes; now rewrite Hu).
  assert (Hw' : w' = precharge_exit cfg wl) by (subst w'; now rewrite Hu).
  destruct H as (H0 & _ & H3 & H4 & _).
  rewrite <- Hp in H4, H0.
  rewrite (pulse_ticks_first w) in H4 by lia.
  destruct (precharge_loop_events cfg 300 w) as (He & Hb).
  fold wl in He, Hb. rewrite <- Hp in He, Hb. fold ticks in He, Hb.
  split; [lia |]. split; [exact H0 |]. split; [exact H4 |].
  split; [exact He |]. split; [exact Hb |]. split; [exact H3 |].
  rewrite Hw'. unfold precharge_exit.
  replace (precharge_timeout wl =? 0) with false
    by (symmetry; apply Z.eqb_neq; lia).
  cbn [negb]. cbv zeta.
  set (w1 := Regulator_HI_Z 1
               (set_precharge_timeout 0 (set_precharging_state 0 wl))).
  assert (Hb1 : bus w1 = skipn (5 * ticks) (bus w)).
  { subst w1. rewrite Regulator_HI_Z_bus. exact Hb. }
  destruct (settle_quiet cfg 4 w1) as (_ & _ & Q3 & _ & Q5 & _).
  destruct (settle_trace cfg 4 w1) as (ps & Hl & Htr).
  destruct (settle_stores cfg 3 w1) as (S1 & S2 & S3). cbv zeta in S1, S2, S3.
  assert (Hr : forall k, reply_at k w1 = reply_at (5 * ticks + k) w).
  { intros k. unfold reply_at. rewrite Hb1. apply nth_after_skipn. }
  split; [now rewrite Q3 |]. split; [now rewrite Q5 |].
  split; [now rewrite settle_gpio |].
  split; [exists ps; split; [exact Hl | rewrite Htr; reflexivity] |].
  split; [rewrite S1, Hr; reflexivity |].
  split; [rewrite S2, Hr; reflexivity |].
  split; [rewrite S3, Hb1, skipn_twice; reflexivity |].
  intros v.
  destruct (precharge_attempt_events cfg v) as (Hq & _ & _).
  split; [exact Hq | apply precharge_attempt_statics].
Qed.

(* ================================================================== *)
(** * The properties at concrete inputs *)

(** ** Battery monitor *)

(** Scenario S4: taps {3.7, 0, 3.7, 3.7} V give no cells and the
    connection fault; the 3S pack of scenario S1 gives three cells. *)
Lemma ladder_cell_count_witness :
  (number_of_cells
     (battery_state (Balance_Connection_State example_config gap_world)) = 0
   /\ has_error CELL_CONNECTION_ERROR
        (Balance_Connection_State example_config gap_world) = true)
  /\ (number_of_cells
        (battery_state (Balance_Connection_State example_config example_world))
      = 2 + 1
      /\ has_error CELL_CONNECTION_ERROR
           (Balance_Connection_State example_config example_world) = false).
Proof.
  split.
  - apply (ladder_cell_count example_config gap_world 3); [lia | |].
    + split; [reflexivity | intros j Hj; lia].
    + exists 1. split; [lia | reflexivity].
  - apply (ladder_cell_count example_config example_world 2); [lia | |].
    + split; [reflexivity |]. intros j Hj. assert (j = 3) as -> by lia.
      reflexivity.
    + intros j Hj. assert (j = 0 \/ j = 1) as [-> | ->] by lia; reflexivity.
Defined.

Lemma charging_skips_balancing_witness :
  balancing_enabled
    (battery_state (Battery_Connection_State example_config charging_world)) = 1
  /\ cell_balance_bitmask
       (battery_state (Battery_Connection_State example_config charging_world))
     = 5
  /\ trace (Battery_Connection_State example_config charging_world) = [].
Proof.
  destruct (charging_skips_balancing example_config charging_world)
    as (_ & H1 & H2 & _ & H4).
  - simpl. discriminate.
  - repeat split; assumption.
Defined.

Lemma closed_gate_disables_balancing_witness :
  discharge_off (Battery_Connection_State example_config overheated_world).
Proof.
  destruct (closed_gate_disables_balancing example_config overheated_world)
    as [_ H].
  - left. exists MCU_OVER_TEMP. reflexivity.
  - apply H; reflexivity.
Defined.

(** One cell at 4.25 V with a fault set: its resistor is switched off. *)
Example overheated_cell_not_discharged :
  CELL_OVER_VOLTAGE_ENABLE_DISCHARGE example_config
    <= Get_Cell_Voltage 0 overheated_world
  /\ gpio overheated_world CELL_1S_DIS_EN = GPIO_PIN_SET
  /\ gpio (Battery_Connection_State example_config overheated_world)
          CELL_1S_DIS_EN = GPIO_PIN_RESET.
Proof. vm_compute. repeat split; discriminate. Qed.



(** ** Regulator controller *)

(** C1, the counterexample: with fixed-voltage charging compiled in, the
    output of the overheated pack is blocked and the charge voltage that
    [Control_Charger_Output] commands is not 0: MaxChargeVoltage is
    written with the fixed set point of 16.8 V. *)
Lemma blocked_output_fixed_voltage :
  output_blocked fixed_voltage_config overheated_world
  /\ trace (Control_Charger_Output fixed_voltage_config overheated_world)
     = [EvI2cWrite CHARGE_CURRENT_ADDR [0; 0];
        EvI2cWrite MAX_CHARGE_VOLTAGE_ADDR [160; 65];
        EvI2cWrite MINIMUM_SYSTEM_VOLTAGE_ADDR [48];
        EvGpioWrite FAN_ENn GPIO_PIN_SET;
        EvGpioWrite ILIM_HIZ GPIO_PIN_RESET]
  /\ decode_max_charge_voltage 160 65 = 16800
  /\ decode_max_charge_voltage 160 65 <> 0.
Proof.
  split; [| split; [| split]].
  - right; right; left. exists MCU_OVER_TEMP. reflexivity.
  - vm_compute. reflexivity.
  - reflexivity.
  - discriminate.
Qed.

(** The overheated pack of scenario S5: high impedance on and current 0
    in both builds; the charge voltage is 0 in the build of the example
    and 16.8 V with fixed-voltage charging. *)
Lemma blocked_output_is_disabled_witness :
  gpio (Control_Charger_Output example_config overheated_world) ILIM_HIZ
  = GPIO_PIN_RESET
  /\ Get_Max_Charge_Current
       (vRegulator_iteration example_config overheated_world) = 0
  /\ (exists lsb msb minsys,
        trace (Control_Charger_Output example_config overheated_world)
        = [EvI2cWrite CHARGE_CURRENT_ADDR [0; 0];
           EvI2cWrite MAX_CHARGE_VOLTAGE_ADDR [lsb; msb];
           EvI2cWrite MINIMUM_SYSTEM_VOLTAGE_ADDR [minsys];
           EvGpioWrite FAN_ENn GPIO_PIN_SET;
           EvGpioWrite ILIM_HIZ GPIO_PIN_RESET] ++ trace overheated_world
        /\ decode_max_charge_voltage lsb msb = 0)
  /\ (exists lsb msb minsys,
        trace (Control_Charger_Output fixed_voltage_config overheated_world)
        = [EvI2cWrite CHARGE_CURRENT_ADDR [0; 0];
           EvI2cWrite MAX_CHARGE_VOLTAGE_ADDR [lsb; msb];
           EvI2cWrite MINIMUM_SYSTEM_VOLTAGE_ADDR [minsys];
           EvGpioWrite FAN_ENn GPIO_PIN_SET;
           EvGpioWrite ILIM_HIZ GPIO_PIN_RESET] ++ trace overheated_world
        /\ decode_max_charge_voltage lsb msb = 16800).
Proof.
  assert (Hmax : 0 <= MAX_CHARGE_CURRENT_MA example_config) by (simpl; lia).
  assert (Hblocked : forall cfg, output_blocked cfg overheated_world).
  { intros cfg. right; right; left. exists MCU_OVER_TEMP. reflexivity. }
  destruct (blocked_output_is_disabled example_config Hmax) as (H1 & H2 & _).
  destruct (blocked_output_is_disabled fixed_voltage_config Hmax)
    as (F1 & _).
  destruct (H1 overheated_world (Hblocked _)) as (G1 & _ & V1).
  destruct (F1 overheated_world (Hblocked _)) as (_ & _ & V2).
  split; [exact G1 |]. split; [| split; [exact V1 | exact V2]].
  apply (H2 overheated_world). exists MCU_OVER_TEMP. reflexivity.
Defined.

(** Scenario S2 with a pack that recovers during the long first pulse:
    one pass of 20 ticks, whose commands are all that the loop sends;
    after the exit block the record holds the samples of the last
    conversion, with the bus voltage of the start replaced. *)
Lemma uvp_recovery_bounded_witness :
  let wl := fst (precharge_loop example_config 300 uvp_world) in
  let w' := fst (uvp_recovery example_config uvp_world) in
  let ticks := list_sum (snd (uvp_recovery example_config uvp_world)) in
  (length (snd (uvp_recovery example_config uvp_world)) <= 300)%nat
  /\ ticks = 20%nat
  /\ (exists qs, length qs = ticks
        /\ trace wl = pulse_events example_config qs ++ trace uvp_world)
  /\ precharging_state w' = 0
  /\ gpio w' ILIM_HIZ = GPIO_PIN_RESET
  /\ stored_samples w'
     = samples_of example_config (reply_at (5 * ticks + 7) uvp_world)
  /\ stored_samples uvp_world = (288000, 288000, 0, 0, 2000000)
  /\ stored_samples w' = (288000, 288000, 0, 0, 320000).
Proof.
  intros wl w' ticks.
  destruct (uvp_recovery_bounded example_config uvp_world eq_refl eq_refl)
    as (H1 & _ & _ & H4 & _ & _ & H7 & _ & H9 & _ & _ & H12 & _).
  split; [exact H1 |].
  split; [vm_compute; reflexivity |].
  split; [exact H4 |]. split; [exact H7 |]. split; [exact H9 |].
  split; [exact H12 |].
  split; vm_compute; reflexivity.
Defined.

(** Scenario S2 with a pack that recovers during the long first pulse. *)
Example uvp_recovery_first_pulse :
  snd (uvp_recovery example_config uvp_world) = [20%nat]
  /\ firstn 14 (trace (fst (uvp_recovery example_config uvp_world)))
     = settle_events example_config [0; 0; 0; 0]%nat
       ++ [EvGpioWrite FAN_ENn GPIO_PIN_SET;
           EvGpioWrite ILIM_HIZ GPIO_PIN_RESET].
Proof. vm_compute. split; reflexivity. Qed.

Lemma charge_limits_witness :
  Get_Max_Charge_Current (Set_Charge_Current example_config 9000 example_world)
  <= 6000
  /\ Calculate_Max_Charge_Power example_config (world_at_temperature 25)
     <= 60000.
Proof.
  destruct (charge_limits example_config) as (H1 & _ & H3);
    try (simpl; lia); try reflexivity.
  split; [apply H1 | apply H3].
Defined.

Lemma set_charge_voltage_table_witness :
  exists lsb msb minsys,
    trace (Set_Charge_Voltage example_config 3 example_world)
    = [EvI2cWrite MAX_CHARGE_VOLTAGE_ADDR [lsb; msb];
       EvI2cWrite MINIMUM_SYSTEM_VOLTAGE_ADDR [minsys]]
    /\ decode_max_charge_voltage lsb msb = 12592.
Proof.
  destruct (set_charge_voltage_table example_config example_world 3)
    as (lsb & msb & minsys & Ht & Hd & _); [reflexivity | lia |].
  exists lsb, msb, minsys. split; [exact Ht | exact Hd].
Defined.

(** With 0 cells the MinimumSystemVoltage register is not written with
    zero but with the 1024 mV bit. *)
Lemma minimum_system_voltage_not_zero :
  trace (Set_Charge_Voltage example_config 0 example_world)
  = [EvI2cWrite MAX_CHARGE_VOLTAGE_ADDR [0; 0];
     EvI2cWrite MINIMUM_SYSTEM_VOLTAGE_ADDR [MIN_VOLT_ADD_1024_MV]]
  /\ MIN_VOLT_ADD_1024_MV <> 0
  /\ ~ In (EvI2cWrite MINIMUM_SYSTEM_VOLTAGE_ADDR [0])
          (trace (Set_Charge_Voltage example_config 0 example_world)).
Proof.
  split; [reflexivity |]. split; [discriminate |].
  vm_compute. intros [H | [H | []]]; discriminate.
Qed.

(** A 3S pack left on the charger, the counter at 65532: the next four
    passes all make the termination test and the fourth ends with the
    counter at 0 and the output enabled. *)
Lemma termination_counter_wraps_witness :
  let w1 := terminating_world 65532 in
  let w2 := Control_Charger_Output example_config w1 in
  let w3 := Control_Charger_Output example_config w2 in
  let w4 := Control_Charger_Output example_config w3 in
  let w5 := Control_Charger_Output example_config w4 in
  termination_counter w1 = 65532
  /\ termination_counter w5 = 0 /\ gpio w5 ILIM_HIZ = GPIO_PIN_SET.
Proof.
  intros w1 w2 w3 w4 w5. split; [reflexivity |].
  apply (termination_counter_wraps example_config w1 w2 w3 w4);
    try reflexivity; split; vm_compute; reflexivity.
Defined.

(* ================================================================== *)
(** * Further properties of the battery monitor *)

(** ** Cell count and ladder *)

Section CellCount.

Variable cfg : Config.

Lemma infer_cell_count_values w :
  let n := number_of_cells (battery_state (infer_cell_count w)) in
  (n = 0 \/ n = 2 \/ n = 3 \/ n = 4)
  /\ (has_error CELL_CONNECTION_ERROR (infer_cell_count w) = true -> n = 0).
Proof.
  unfold infer_cell_count, accept_cells, reject_cells.
  repeat break_if; simpl; split; try tauto; try discriminate.
Qed.

(** The balance port never counts a single cell: the count is 0, 2, 3 or
    4, the port is reported connected exactly from two cells on, and a
    connection error always comes with a count of 0. *)
Theorem cell_count_never_one w :
  let w' := Balance_Connection_State cfg w in
  let n := number_of_cells (battery_state w') in
  (n = 0 \/ n = 2 \/ n = 3 \/ n = 4)
  /\ (balance_port_connected (battery_state w') = CONNECTED <-> 2 <= n)
  /\ (has_error CELL_CONNECTION_ERROR w' = true -> n = 0).
Proof.
  intros w' n. subst w' n. unfold Balance_Connection_State.
  destruct (infer_cell_count_values (ladder_probe cfg w)) as [Hv He].
  set (w1 := infer_cell_count (ladder_probe cfg w)) in *.
  cbv zeta in Hv, He.
  destruct (Z.ltb_spec 1 (number_of_cells (battery_state w1))) as [H1 | H1];
    simpl; (split; [exact Hv | split; [| exact He]]).
  - unfold CONNECTED. split; [lia | reflexivity].
  - unfold CONNECTED, NOT_CONNECTED. split; [discriminate | lia].
Qed.

Lemma ladder_bit_adc c b w : adc (ladder_bit c b w) = adc w.
Proof. unfold ladder_bit. now destruct c. Qed.

Lemma ladder_probe_writes w :
  let th := VOLTAGE_CONNECTED_THRESHOLD cfg in
  cell_connected_bitmask (ladder_probe cfg w)
  = ladder_writes (cell_connected_bitmask w)
      ((th <? Get_Four_S_Voltage w) && (th <? Get_Cell_Voltage 3 w))
      ((th <? Get_Three_S_Voltage w) && (th <? Get_Cell_Voltage 2 w))
      ((th <? Get_Two_S_Voltage w) && (th <? Get_Cell_Voltage 1 w))
      (th <? Get_Cell_Voltage 0 w).
Proof.
  unfold ladder_probe. cbv zeta.
  unfold Get_Four_S_Voltage, Get_Three_S_Voltage, Get_Two_S_Voltage,
    Get_Cell_Voltage.
  rewrite !ladder_bit_adc.
  generalize (VOLTAGE_CONNECTED_THRESHOLD cfg <? cell_voltage_0 (adc w)).
  generalize ((VOLTAGE_CONNECTED_THRESHOLD cfg <? two_s_voltage (adc w))
              && (VOLTAGE_CONNECTED_THRESHOLD cfg <? cell_voltage_1 (adc w))).
  generalize ((VOLTAGE_CONNECTED_THRESHOLD cfg <? three_s_voltage (adc w))
              && (VOLTAGE_CONNECTED_THRESHOLD cfg <? cell_voltage_2 (adc w))).
  generalize ((VOLTAGE_CONNECTED_THRESHOLD cfg <? four_s_voltage (adc w))
              && (VOLTAGE_CONNECTED_THRESHOLD cfg <? cell_voltage_3 (adc w))).
  intros [|] [|] [|] [|]; reflexivity.
Qed.

Lemma ladder_writes_spec b3 b2 b1 b0 m :
  0 <= m < 256 ->
  ladder_writes m b3 b2 b1 b0 = Z.lor (Z.land m 240) (taps_value b3 b2 b1 b0).
Proof.
  intros Hm. apply Z.eqb_eq. fold (ladder_writes_ok b3 b2 b1 b0 m).
  apply (forallb_Z_range (ladder_writes_ok b3 b2 b1 b0) 0 256); [| lia].
  destruct b3, b2, b1, b0; vm_compute; reflexivity.
Qed.

(** The ladder probe rewrites the four low bits of the bitmask from the
    samples alone and keeps the four high bits; a bitmask below 16, as
    the initial 0 is, is replaced by the value of the samples and stays
    below 16. *)
Theorem ladder_probe_samples w :
  0 <= cell_connected_bitmask w < 256 ->
  let m' := cell_connected_bitmask (ladder_probe cfg w) in
  m' = Z.lor (Z.land (cell_connected_bitmask w) 240) (ladder_of_samples cfg w)
  /\ (cell_connected_bitmask w < 16 ->
      m' = ladder_of_samples cfg w /\ 0 <= m' < 16).
Proof.
  intros Hm m'. subst m'. rewrite ladder_probe_writes.
  rewrite ladder_writes_spec by exact Hm.
  assert (Ht : forall b3 b2 b1 b0, 0 <= taps_value b3 b2 b1 b0 < 16).
  { intros [|] [|] [|] [|]; vm_compute; split; congruence. }
  split; [reflexivity |].
  intros H16. fold (ladder_of_samples cfg w).
  replace (Z.land (cell_connected_bitmask w) 240) with 0.
  - split; [reflexivity | apply Ht].
  - symmetry. apply Z.bits_inj'. intros k Hk.
    rewrite Z.land_spec, Z.bits_0.
    destruct (Z.lt_ge_cases k 4) as [Hlow | Hhigh].
    + replace (Z.testbit 240 k) with false; [apply andb_false_r |].
      assert (k = 0 \/ k = 1 \/ k = 2 \/ k = 3) as [-> | [-> | [-> | ->]]] by lia;
        reflexivity.
    + rewrite (Z.bits_above_log2 (cell_connected_bitmask w) k); [reflexivity | lia |].
      destruct (Z.eq_dec (cell_connected_bitmask w) 0) as [-> | Hnz];
        [simpl; lia |].
      apply Z.log2_lt_pow2; [lia |].
      apply Z.lt_le_trans with (2 ^ 4); [simpl; lia |].
      apply Z.pow_le_mono_r; lia.
Qed.

End CellCount.

(** ** What the monitor leaves alone *)

Lemma fold_left_keeps {A B : Type} (g : World -> A) (f : World -> B -> World) l :
  (forall w i, g (f w i) = g w) -> forall w, g (fold_left f l w) = g w.
Proof.
  intros H. induction l as [| i l IH]; intros w; simpl; [reflexivity |].
  now rewrite IH, H.
Qed.

Lemma logged_refl w : logged_discharge_writes w w.
Proof. exists []. split; [reflexivity | constructor]. Qed.

Lemma logged_trans w1 w2 w3 :
  logged_discharge_writes w1 w2 -> logged_discharge_writes w2 w3 ->
  logged_discharge_writes w1 w3.
Proof.
  intros (e1 & H1 & F1) (e2 & H2 & F2). exists (e2 ++ e1). split.
  - now rewrite H2, H1, app_assoc.
  - apply Forall_app. now split.
Qed.

Lemma logged_same_trace w w' : trace w' = trace w -> logged_discharge_writes w w'.
Proof. intros H. exists []. split; [exact H | constructor]. Qed.

Section MonitorFrame.

Variable cfg : Config.

Lemma set_latch_side x v :
  regulator_side (upd_battery (set_balancing_enabled x) v) = regulator_side v
  /\ outside_balancing (upd_battery (set_balancing_enabled x) v)
     = outside_balancing v
  /\ trace (upd_battery (set_balancing_enabled x) v) = trace v.
Proof. repeat split. Qed.

Lemma Balancing_GPIO_Control_side m w :
  regulator_side (Balancing_GPIO_Control m w) = regulator_side w
  /\ outside_balancing (Balancing_GPIO_Control m w) = outside_balancing w
  /\ logged_discharge_writes w (Balancing_GPIO_Control m w).
Proof.
  unfold Balancing_GPIO_Control.
  destruct (bit_set m 3), (bit_set m 2), (bit_set m 1), (bit_set m 0);
    (split; [reflexivity | split; [reflexivity |]]);
    (eexists [_; _; _; _]; split; [reflexivity | repeat constructor]).
Qed.

Lemma cell_balance_step_side vmin scalar w i :
  regulator_side (cell_balance_step cfg vmin scalar w i) = regulator_side w
  /\ outside_balancing (cell_balance_step cfg vmin scalar w i) = outside_balancing w
  /\ trace (cell_balance_step cfg vmin scalar w i) = trace w.
Proof. unfold cell_balance_step. repeat break_if; repeat split. Qed.

Lemma update_balancing_enabled_side vmin vmax scalar w :
  regulator_side (update_balancing_enabled cfg vmin vmax scalar w) = regulator_side w
  /\ outside_balancing (update_balancing_enabled cfg vmin vmax scalar w)
     = outside_balancing w
  /\ trace (update_balancing_enabled cfg vmin vmax scalar w) = trace w.
Proof. unfold update_balancing_enabled. repeat break_if; repeat split. Qed.

Lemma Balance_Battery_side w :
  regulator_side (Balance_Battery cfg w) = regulator_side w
  /\ outside_balancing (Balance_Battery cfg w) = outside_balancing w
  /\ logged_discharge_writes w (Balance_Battery cfg w).
Proof.
  unfold Balance_Battery. destruct (balancing_gate cfg w).
  - destruct (min_max_cell_voltage w) as [vmin vmax].
    set (scalar := balancing_scalar cfg w vmax).
    destruct (update_balancing_enabled_side vmin vmax scalar w) as (U1 & U2 & U3).
    set (w1 := update_balancing_enabled cfg vmin vmax scalar w) in *.
    set (l := for_range 0 (number_of_cells (battery_state w1))).
    set (w2 := fold_left (cell_balance_step cfg vmin scalar) l w1).
    assert (L1 : regulator_side w2 = regulator_side w1).
    { apply (fold_left_keeps regulator_side). intros. apply cell_balance_step_side. }
    assert (L2 : outside_balancing w2 = outside_balancing w1).
    { apply (fold_left_keeps outside_balancing). intros. apply cell_balance_step_side. }
    assert (L3 : trace w2 = trace w1).
    { apply (fold_left_keeps trace). intros. apply cell_balance_step_side. }
    destruct (Balancing_GPIO_Control_side (cell_balance_bitmask (battery_state w2)) w2)
      as (G1 & G2 & G3).
    split; [congruence | split; [congruence |]].
    eapply logged_trans; [| exact G3]. apply logged_same_trace. congruence.
  - destruct (Balancing_GPIO_Control_side 0 w) as (G1 & G2 & G3).
    destruct (set_latch_side 0 (Balancing_GPIO_Control 0 w)) as (U1 & U2 & U3).
    split; [congruence | split; [congruence |]].
    eapply logged_trans; [exact G3 |]. apply logged_same_trace. exact U3.
Qed.

Lemma ladder_bit_side c b w :
  regulator_side (ladder_bit c b w) = regulator_side w
  /\ trace (ladder_bit c b w) = trace w
  /\ error_state (ladder_bit c b w) = error_state w.
Proof. unfold ladder_bit. destruct c; repeat split. Qed.

Lemma ladder_probe_side w :
  regulator_side (ladder_probe cfg w) = regulator_side w
  /\ trace (ladder_probe cfg w) = trace w
  /\ error_state (ladder_probe cfg w) = error_state w.
Proof.
  unfold ladder_probe. cbv zeta.
  set (th := VOLTAGE_CONNECTED_THRESHOLD cfg).
  set (w1 := ladder_bit _ 8 w).
  set (w2 := ladder_bit _ 4 w1).
  set (w3 := ladder_bit _ 2 w2).
  destruct (ladder_bit_side ((th <? Get_Four_S_Voltage w) && (th <? Get_Cell_Voltage 3 w))
              8 w) as (A1 & A2 & A3).
  destruct (ladder_bit_side ((th <? Get_Three_S_Voltage w1) && (th <? Get_Cell_Voltage 2 w1))
              4 w1) as (B1 & B2 & B3).
  destruct (ladder_bit_side ((th <? Get_Two_S_Voltage w2) && (th <? Get_Cell_Voltage 1 w2))
              2 w2) as (C1 & C2 & C3).
  destruct (ladder_bit_side (th <? Get_Cell_Voltage 0 w3) 1 w3) as (D1 & D2 & D3).
  fold w1 in A1, A2, A3. fold w2 in B1, B2, B3. fold w3 in C1, C2, C3.
  split; [congruence | split; congruence].
Qed.

Lemma set_cells_side (f : Fault -> World -> World) n v :
  (f = Set_Error_State \/ f = Clear_Error_State) ->
  let v' := f CELL_CONNECTION_ERROR (upd_battery (set_number_of_cells n) v) in
  regulator_side v' = regulator_side v
  /\ trace v' = trace v
  /\ forall g, g <> CELL_CONNECTION_ERROR -> error_state v' g = error_state v g.
Proof.
  intros [-> | ->]; cbv zeta; (split; [reflexivity | split; [reflexivity |]]);
    intros [] Hg; try reflexivity; now elim Hg.
Qed.

Lemma infer_cell_count_side w :
  regulator_side (infer_cell_count w) = regulator_side w
  /\ trace (infer_cell_count w) = trace w
  /\ forall f, f <> CELL_CONNECTION_ERROR ->
     error_state (infer_cell_count w) f = error_state w f.
Proof.
  unfold infer_cell_count, accept_cells, reject_cells.
  repeat break_if;
    first [ apply (set_cells_side Clear_Error_State); now right
          | apply (set_cells_side Set_Error_State); now left ].
Qed.

Lemma set_port_side x v :
  regulator_side (upd_battery (set_balance_port_connected x) v) = regulator_side v
  /\ trace (upd_battery (set_balance_port_connected x) v) = trace v
  /\ error_state (upd_battery (set_balance_port_connected x) v) = error_state v.
Proof. repeat split. Qed.

Lemma Balance_Connection_State_side w :
  regulator_side (Balance_Connection_State cfg w) = regulator_side w
  /\ trace (Balance_Connection_State cfg w) = trace w
  /\ forall f, f <> CELL_CONNECTION_ERROR ->
     error_state (Balance_Connection_State cfg w) f = error_state w f.
Proof.
  unfold Balance_Connection_State. cbv zeta.
  destruct (ladder_probe_side w) as (P1 & P2 & P3).
  destruct (infer_cell_count_side (ladder_probe cfg w)) as (I1 & I2 & I3).
  set (v := infer_cell_count (ladder_probe cfg w)) in *.
  destruct (set_port_side CONNECTED v) as (C1 & C2 & C3).
  destruct (set_port_side NOT_CONNECTED v) as (N1 & N2 & N3).
  destruct (1 <? number_of_cells (battery_state v));
    (split; [congruence | split; [congruence |]]);
    intros f Hf; specialize (I3 f Hf); congruence.
Qed.

Lemma MCU_Temperature_Safety_Check_side w :
  regulator_side (MCU_Temperature_Safety_Check cfg w) = regulator_side w
  /\ trace (MCU_Temperature_Safety_Check cfg w) = trace w
  /\ battery_state (MCU_Temperature_Safety_Check cfg w) = battery_state w
  /\ cell_connected_bitmask (MCU_Temperature_Safety_Check cfg w)
     = cell_connected_bitmask w
  /\ forall f, f <> MCU_OVER_TEMP ->
     error_state (MCU_Temperature_Safety_Check cfg w) f = error_state w f.
Proof.
  unfold MCU_Temperature_Safety_Check.
  repeat break_if; repeat split; intros [] Hf; try reflexivity; now elim Hf.
Qed.

Lemma Cell_Voltage_Safety_Check_side w :
  regulator_side (Cell_Voltage_Safety_Check cfg w) = regulator_side w
  /\ trace (Cell_Voltage_Safety_Check cfg w) = trace w
  /\ cell_connected_bitmask (Cell_Voltage_Safety_Check cfg w)
     = cell_connected_bitmask w
  /\ forall f, f <> CELL_VOLTAGE_ERROR ->
     error_state (Cell_Voltage_Safety_Check cfg w) f = error_state w f.
Proof.
  unfold Cell_Voltage_Safety_Check.
  destruct (fold_left _ _ _) as [o u].
  repeat break_if; repeat split; intros [] Hf; try reflexivity; now elim Hf.
Qed.

Lemma before_balancing_side w :
  regulator_side (before_balancing cfg w) = regulator_side w
  /\ trace (before_balancing cfg w) = trace w.
Proof.
  unfold before_balancing.
  set (w1 := if _ <? Get_Battery_Voltage w then _ else _).
  assert (H1 : regulator_side w1 = regulator_side w /\ trace w1 = trace w).
  { subst w1. now break_if. }
  set (w2 := if ENABLE_BALANCING cfg then Balance_Connection_State cfg w1 else _).
  assert (H2 : regulator_side w2 = regulator_side w1 /\ trace w2 = trace w1).
  { subst w2. destruct (ENABLE_BALANCING cfg).
    - destruct (Balance_Connection_State_side w1) as (A & B & _). now split.
    - now split. }
  destruct (MCU_Temperature_Safety_Check_side w2) as (M1 & M2 & _).
  set (w3 := MCU_Temperature_Safety_Check cfg w2) in *.
  destruct (Cell_Voltage_Safety_Check_side w3) as (C1 & C2 & _).
  destruct H1, H2.
  destruct (ENABLE_BALANCING cfg); split; congruence.
Qed.

Lemma update_requires_charging_side w :
  regulator_side (update_requires_charging cfg w) = regulator_side w
  /\ trace (update_requires_charging cfg w) = trace w.
Proof. unfold update_requires_charging. repeat break_if; now split. Qed.

(** One iteration of the battery monitor leaves the regulator task's
    side of the state as it is: the regulator record, the statics of the
    task, the high-impedance, fan and OTG pins, the two faults of the
    regulator, the bus and the inputs.  The only commands it sends are
    writes to the four discharge pins. *)
Theorem monitor_keeps_regulator_side w :
  let w' := Battery_Connection_State cfg w in
  regulator_side w' = regulator_side w /\ logged_discharge_writes w w'.
Proof.
  intros w'. subst w'. unfold Battery_Connection_State.
  destruct (before_balancing_side w) as [B1 B2].
  set (w1 := before_balancing cfg w) in *.
  assert (S : regulator_side (balancing_step cfg w1) = regulator_side w1
              /\ logged_discharge_writes w1 (balancing_step cfg w1)).
  { unfold balancing_step. repeat break_if;
      try (split; [reflexivity | apply logged_refl]).
    destruct (Balance_Battery_side w1) as (A & _ & C). now split. }
  destruct S as [S1 S2]. set (w2 := balancing_step cfg w1) in *.
  destruct (update_requires_charging_side w2) as [U1 U2].
  split; [congruence |].
  eapply logged_trans; [apply logged_same_trace; exact B2 |].
  eapply logged_trans; [exact S2 |]. now apply logged_same_trace.
Qed.

End MonitorFrame.

(** ** Safety checks *)

Section SafetyChecks.

Variable cfg : Config.

Lemma safety_fold w l o u :
  (o = 0 \/ o = 1) -> (u = 0 \/ u = 1) ->
  let ou := fold_left (safety_step cfg w) l (o, u) in
  ((fst ou = 0 \/ fst ou = 1)
   /\ (fst ou = 1 <->
       o = 1 \/ exists i, In i l
                /\ CELL_OVER_VOLTAGE_DISABLE_CHARGING cfg < Get_Cell_Voltage i w))
  /\ ((snd ou = 0 \/ snd ou = 1)
      /\ (snd ou = 1 <->
          u = 1 \/ exists i, In i l
                   /\ Get_Cell_Voltage i w < MIN_CELL_VOLTAGE_SAFE_LIMIT cfg)).
Proof.
  revert o u. induction l as [| i l IH]; intros o u Ho Hu; simpl.
  - split; (split; [assumption |]); split; try tauto;
      intros [H | (i & [] & _)]; exact H.
  - set (o' := if CELL_OVER_VOLTAGE_DISABLE_CHARGING cfg <? Get_Cell_Voltage i w
               then 1 else o).
    set (u' := if Get_Cell_Voltage i w <? MIN_CELL_VOLTAGE_SAFE_LIMIT cfg
               then 1 else u).
    assert (Ho' : (o' = 0 \/ o' = 1)
                  /\ (o' = 1 <-> o = 1 \/ CELL_OVER_VOLTAGE_DISABLE_CHARGING cfg
                                           < Get_Cell_Voltage i w)).
    { subst o'. destruct (Z.ltb_spec (CELL_OVER_VOLTAGE_DISABLE_CHARGING cfg)
                            (Get_Cell_Voltage i w)); split; try tauto; lia. }
    assert (Hu' : (u' = 0 \/ u' = 1)
                  /\ (u' = 1 <-> u = 1 \/ Get_Cell_Voltage i w
                                           < MIN_CELL_VOLTAGE_SAFE_LIMIT cfg)).
    { subst u'. destruct (Z.ltb_spec (Get_Cell_Voltage i w)
                            (MIN_CELL_VOLTAGE_SAFE_LIMIT cfg)); split; try tauto; lia. }
    destruct Ho' as [Ho1 Ho2], Hu' as [Hu1 Hu2].
    destruct (IH o' u' Ho1 Hu1) as ((A1 & A2) & (B1 & B2)).
    split; (split; [assumption |]).
    + rewrite A2, Ho2. clear. split.
      * intros [[H | H] | (j & Hj & H)]; [now left | | ].
        -- right. exists i. split; [now left | exact H].
        -- right. exists j. split; [now right | exact H].
      * intros [H | (j & [Hj | Hj] & H)].
        -- left. now left.
        -- left. right. now subst j.
        -- right. now exists j.
    + rewrite B2, Hu2. clear. split.
      * intros [[H | H] | (j & Hj & H)]; [now left | | ].
        -- right. exists i. split; [now left | exact H].
        -- right. exists j. split; [now right | exact H].
      * intros [H | (j & [Hj | Hj] & H)].
        -- left. now left.
        -- left. right. now subst j.
        -- right. now exists j.
Qed.

(** [Cell_Voltage_Safety_Check] raises the cell-voltage fault exactly
    when one of the counted cells is below the safe limit and clears it
    otherwise; it reports over-voltage (1) exactly when one of them is
    above the limit that disables charging, and 0 otherwise.  With no
    cell counted the fault is cleared and the report is 0.  No other
    fault changes. *)
Theorem cell_voltage_safety_spec w :
  let w' := Cell_Voltage_Safety_Check cfg w in
  let n := number_of_cells (battery_state w) in
  (has_error CELL_VOLTAGE_ERROR w' = true <->
     exists i, 0 <= i < n
       /\ Get_Cell_Voltage i w < MIN_CELL_VOLTAGE_SAFE_LIMIT cfg)
  /\ (cell_over_voltage (battery_state w') = 1 <->
     exists i, 0 <= i < n
       /\ CELL_OVER_VOLTAGE_DISABLE_CHARGING cfg < Get_Cell_Voltage i w)
  /\ (cell_over_voltage (battery_state w') = 0
      \/ cell_over_voltage (battery_state w') = 1)
  /\ (forall f, f <> CELL_VOLTAGE_ERROR -> error_state w' f = error_state w f).
Proof.
  intros w' n. subst w'.
  destruct (Cell_Voltage_Safety_Check_side cfg w) as (_ & _ & _ & Hf).
  unfold Cell_Voltage_Safety_Check in *. fold n in Hf |- *.
  destruct (safety_fold w (for_range 0 n) 0 0 (or_introl eq_refl)
              (or_introl eq_refl)) as ((A1 & A2) & (B1 & B2)).
  destruct (fold_left (safety_step cfg w) (for_range 0 n) (0, 0)) as [o u].
  simpl fst in *; simpl snd in *.
  assert (R : forall P : Z -> Prop,
             (0 = 1 \/ exists i, In i (for_range 0 n) /\ P i)
             <-> exists i, 0 <= i < n /\ P i).
  { intros P. split.
    - intros [H | (i & Hi & H)]; [discriminate |].
      exists i. apply in_for_range in Hi; [now split | lia].
    - intros (i & Hi & H). right. exists i. split; [| exact H].
      apply in_for_range; lia. }
  rewrite R in A2, B2.
  split; [| split; [| split]].
  - rewrite <- B2. unfold has_error.
    destruct (Z.eqb_spec u 1) as [Hu | Hu]; simpl; split; intros H;
      try assumption; try reflexivity; try discriminate; contradiction.
  - rewrite <- A2. destruct (u =? 1); simpl; tauto.
  - destruct (u =? 1); simpl; exact A1.
  - exact Hf.
Qed.


(** The balancing step and the charge request leave the fault registry
    as the checks left it. *)
Lemma after_checks_faults v :
  error_state (update_requires_charging cfg (balancing_step cfg v))
  = error_state v.
Proof.
  assert (E1 : error_state (update_requires_charging cfg (balancing_step cfg v))
               = error_state (balancing_step cfg v)).
  { unfold update_requires_charging. repeat break_if; reflexivity. }
  rewrite E1. unfold balancing_step. repeat break_if; try reflexivity.
  destruct (Balance_Battery_side cfg v) as (_ & O & _).
  unfold outside_balancing in O. congruence.
Qed.

(** Over one iteration of the battery monitor the over-temperature
    fault is a latch with hysteresis: it is set when the temperature is
    above [MAX_MCU_TEMP_C_FOR_OPERATION], and otherwise it keeps its
    value unless the temperature is below [MCU_TEMP_C_RECOVERY], which
    clears it. *)
Theorem over_temperature_latch w :
  has_error MCU_OVER_TEMP (Battery_Connection_State cfg w)
  = (MAX_MCU_TEMP_C_FOR_OPERATION cfg <? Get_MCU_Temperature w)
    || (has_error MCU_OVER_TEMP w
        && negb (Get_MCU_Temperature w <? MCU_TEMP_C_RECOVERY cfg)).
Proof.
  unfold Battery_Connection_State, has_error.
  rewrite after_checks_faults. unfold before_balancing.
  set (w1 := if _ <? Get_Battery_Voltage w then _ else _).
  assert (H1 : error_state w1 = error_state w /\ adc w1 = adc w).
  { subst w1. now break_if. }
  set (w2 := if ENABLE_BALANCING cfg then Balance_Connection_State cfg w1 else _).
  assert (H2 : error_state w2 MCU_OVER_TEMP = error_state w1 MCU_OVER_TEMP
               /\ adc w2 = adc w1).
  { subst w2. destruct (ENABLE_BALANCING cfg).
    - destruct (Balance_Connection_State_side cfg w1) as (A & _ & C).
      split; [apply C; discriminate |].
      unfold regulator_side in A. congruence.
    - now split. }
  assert (H3 : error_state (MCU_Temperature_Safety_Check cfg w2) MCU_OVER_TEMP
               = (MAX_MCU_TEMP_C_FOR_OPERATION cfg <? Get_MCU_Temperature w2)
                 || (error_state w2 MCU_OVER_TEMP
                     && negb (Get_MCU_Temperature w2 <? MCU_TEMP_C_RECOVERY cfg))).
  { unfold MCU_Temperature_Safety_Check, has_error.
    destruct (_ <? Get_MCU_Temperature w2); [reflexivity |].
    destruct (error_state w2 MCU_OVER_TEMP) eqn:E;
      destruct (Get_MCU_Temperature w2 <? _); simpl; try reflexivity; exact E. }
  assert (HT : Get_MCU_Temperature w2 = Get_MCU_Temperature w).
  { unfold Get_MCU_Temperature. destruct H1, H2. congruence. }
  rewrite HT in H3. destruct H1 as [H1 _], H2 as [H2 _].
  rewrite H2, H1 in H3.
  set (w3 := MCU_Temperature_Safety_Check cfg w2) in *.
  destruct (ENABLE_BALANCING cfg); [| exact H3].
  destruct (Cell_Voltage_Safety_Check_side cfg w3) as (_ & _ & _ & C).
  rewrite C by discriminate. exact H3.
Qed.


End SafetyChecks.

(** ** Charge request *)

Section RequiresCharging.

Variable cfg : Config.

Lemma Balance_Connection_State_xt60 w :
  xt60_connected (battery_state (Balance_Connection_State cfg w))
  = xt60_connected (battery_state w)
  /\ adc (Balance_Connection_State cfg w) = adc w.
Proof.
  assert (Hl : forall c b v,
             xt60_connected (battery_state (ladder_bit c b v))
             = xt60_connected (battery_state v)
             /\ adc (ladder_bit c b v) = adc v)
    by (intros c b v; unfold ladder_bit; destruct c; split; reflexivity).
  assert (Hp : xt60_connected (battery_state (ladder_probe cfg w))
               = xt60_connected (battery_state w)
               /\ adc (ladder_probe cfg w) = adc w).
  { unfold ladder_probe. cbv zeta.
    set (th := VOLTAGE_CONNECTED_THRESHOLD cfg).
    set (w1 := ladder_bit _ 8 w).
    set (w2 := ladder_bit _ 4 w1).
    set (w3 := ladder_bit _ 2 w2).
    destruct (Hl ((th <? Get_Four_S_Voltage w) && (th <? Get_Cell_Voltage 3 w)) 8 w)
      as (A1 & A2).
    destruct (Hl ((th <? Get_Three_S_Voltage w1) && (th <? Get_Cell_Voltage 2 w1)) 4 w1)
      as (B1 & B2).
    destruct (Hl ((th <? Get_Two_S_Voltage w2) && (th <? Get_Cell_Voltage 1 w2)) 2 w2)
      as (C1 & C2).
    destruct (Hl (th <? Get_Cell_Voltage 0 w3) 1 w3) as (D1 & D2).
    fold w1 in A1, A2. fold w2 in B1, B2. fold w3 in C1, C2.
    split; congruence. }
  assert (Hi : forall v, xt60_connected (battery_state (infer_cell_count v))
                         = xt60_connected (battery_state v)
                         /\ adc (infer_cell_count v) = adc v).
  { intros v. unfold infer_cell_count, accept_cells, reject_cells.
    repeat break_if; split; reflexivity. }
  unfold Balance_Connection_State. cbv zeta.
  destruct (Hi (ladder_probe cfg w)) as [I1 I2]. destruct Hp as [P1 P2].
  set (v := infer_cell_count (ladder_probe cfg w)) in *.
  assert (Hs : forall x, xt60_connected
                           (battery_state (upd_battery (set_balance_port_connected x) v))
                         = xt60_connected (battery_state v)
                         /\ adc (upd_battery (set_balance_port_connected x) v) = adc v)
    by (intros x; split; reflexivity).
  destruct (Hs CONNECTED) as [S1 S2]. destruct (Hs NOT_CONNECTED) as [N1 N2].
  destruct (1 <? number_of_cells (battery_state v)); split; congruence.
Qed.

Lemma Cell_Voltage_Safety_Check_pack w :
  let b := battery_state w in
  let b' := battery_state (Cell_Voltage_Safety_Check cfg w) in
  xt60_connected b' = xt60_connected b
  /\ balance_port_connected b' = balance_port_connected b
  /\ number_of_cells b' = number_of_cells b
  /\ adc (Cell_Voltage_Safety_Check cfg w) = adc w.
Proof.
  unfold Cell_Voltage_Safety_Check. destruct (fold_left _ _ _) as [o u].
  break_if; repeat split.
Qed.

(** The pack as the balancing step finds it: the XT60 flag follows the
    battery voltage, and with balancing compiled in the port flag
    follows the cell count. *)
Lemma before_balancing_pack w :
  let b := battery_state (before_balancing cfg w) in
  (xt60_connected b = CONNECTED <->
     VOLTAGE_CONNECTED_THRESHOLD cfg < Get_Battery_Voltage w)
  /\ (ENABLE_BALANCING cfg = true ->
      (balance_port_connected b = CONNECTED <-> 2 <= number_of_cells b)
      /\ (number_of_cells b = 0 \/ number_of_cells b = 2
          \/ number_of_cells b = 3 \/ number_of_cells b = 4))
  /\ adc (before_balancing cfg w) = adc w.
Proof.
  unfold before_balancing.
  set (w1 := if _ <? Get_Battery_Voltage w then _ else _).
  assert (H1 : (xt60_connected (battery_state w1) = CONNECTED <->
                VOLTAGE_CONNECTED_THRESHOLD cfg < Get_Battery_Voltage w)
               /\ adc w1 = adc w).
  { subst w1.
    destruct (Z.ltb_spec (VOLTAGE_CONNECTED_THRESHOLD cfg) (Get_Battery_Voltage w));
      simpl; (split; [| reflexivity]); unfold CONNECTED, NOT_CONNECTED;
      split; intros; try reflexivity; try assumption; try discriminate; lia. }
  destruct H1 as [X1 A1].
  destruct (ENABLE_BALANCING cfg) eqn:EB.
  - destruct (Balance_Connection_State_xt60 w1) as [X2 A2].
    assert (P2 : let b := battery_state (Balance_Connection_State cfg w1) in
                 (balance_port_connected b = CONNECTED <-> 2 <= number_of_cells b)
                 /\ (number_of_cells b = 0 \/ number_of_cells b = 2
                     \/ number_of_cells b = 3 \/ number_of_cells b = 4)).
    { unfold Balance_Connection_State.
      destruct (infer_cell_count_values (ladder_probe cfg w1)) as [Hv _].
      set (v := infer_cell_count (ladder_probe cfg w1)) in *. cbv zeta in Hv.
      destruct (Z.ltb_spec 1 (number_of_cells (battery_state v))); simpl;
        (split; [| exact Hv]); unfold CONNECTED, NOT_CONNECTED;
        split; intros; try reflexivity; try discriminate; lia. }
    set (w2 := Balance_Connection_State cfg w1) in *. cbv zeta in P2.
    destruct (MCU_Temperature_Safety_Check_side cfg w2) as (R3 & _ & B3 & _).
    set (w3 := MCU_Temperature_Safety_Check cfg w2) in *.
    assert (A3 : adc w3 = adc w2) by (unfold regulator_side in R3; congruence).
    destruct (Cell_Voltage_Safety_Check_pack w3) as (C1 & C2 & C3 & A4).
    cbv zeta. rewrite C1, C2, C3, B3, X2.
    split; [exact X1 | split; [intros _; exact P2 | congruence]].
  - destruct (MCU_Temperature_Safety_Check_side cfg
                (Clear_Error_State CELL_CONNECTION_ERROR
                   (upd_battery (set_number_of_cells (u8 (NUM_SERIES cfg)))
                      (upd_battery (set_balance_port_connected CONNECTED) w1))))
      as (R3 & _ & B3 & _).
    set (w2 := Clear_Error_State _ _) in *.
    assert (A3 : adc (MCU_Temperature_Safety_Check cfg w2) = adc w2)
      by (unfold regulator_side in R3; congruence).
    cbv zeta. rewrite B3, A3.
    split; [exact X1 | split; [discriminate | exact A1]].
Qed.

Lemma balancing_step_pack w :
  outside_balancing (balancing_step cfg w) = outside_balancing w
  /\ adc (balancing_step cfg w) = adc w.
Proof.
  unfold balancing_step. repeat break_if; try (split; reflexivity).
  destruct (Balance_Battery_side cfg w) as (R & O & _).
  split; [exact O |]. unfold regulator_side in R. congruence.
Qed.

(** After one iteration of the battery monitor the pack asks for charge
    exactly when the battery voltage shows an XT60 connection, the
    balance port is connected and the battery voltage is below the
    charge-enable voltage of the counted cells; with balancing compiled
    in, that needs at least two cells. *)
Theorem requires_charging_rule w :
  let w' := Battery_Connection_State cfg w in
  let b := battery_state w' in
  (requires_charging b = 1 <->
     VOLTAGE_CONNECTED_THRESHOLD cfg < Get_Battery_Voltage w
     /\ balance_port_connected b = CONNECTED
     /\ Get_Battery_Voltage w
        < u32 (number_of_cells b * CELL_VOLTAGE_TO_ENABLE_CHARGING cfg))
  /\ (requires_charging b = 0 \/ requires_charging b = 1)
  /\ (ENABLE_BALANCING cfg = true -> requires_charging b = 1 ->
      2 <= number_of_cells b <= 4).
Proof.
  intros w' b. subst w' b. unfold Battery_Connection_State.
  destruct (before_balancing_pack w) as (X & P & A).
  set (w1 := before_balancing cfg w) in *. cbv zeta in X, P.
  destruct (balancing_step_pack w1) as [O A2].
  set (w2 := balancing_step cfg w1) in *.
  unfold outside_balancing in O.
  assert (Ex : xt60_connected (battery_state w2) = xt60_connected (battery_state w1))
    by congruence.
  assert (Ep : balance_port_connected (battery_state w2)
               = balance_port_connected (battery_state w1)) by congruence.
  assert (En : number_of_cells (battery_state w2) = number_of_cells (battery_state w1))
    by congruence.
  assert (Ev : Get_Battery_Voltage w2 = Get_Battery_Voltage w)
    by (unfold Get_Battery_Voltage; congruence).
  rewrite <- Ex in X. rewrite <- Ep, <- En in P. clearbody w2. clear O Ex Ep En.
  unfold update_requires_charging. rewrite Ev.
  destruct (Z.eqb_spec (xt60_connected (battery_state w2)) CONNECTED) as [Hx | Hx];
    destruct (Z.eqb_spec (balance_port_connected (battery_state w2)) CONNECTED)
      as [Hp | Hp]; simpl andb; cbv iota.
  - destruct (Z.ltb_spec (Get_Battery_Voltage w)
                (u32 (number_of_cells (battery_state w2)
                      * CELL_VOLTAGE_TO_ENABLE_CHARGING cfg))) as [Hv | Hv]; simpl.
    + split; [| split; [now right |]].
      * split; [intros _ | reflexivity].
        split; [now apply X | split; [exact Hp | exact Hv]].
      * intros HE _. destruct (P HE) as [P1 P2]. apply P1 in Hp. lia.
    + split; [| split; [now left | discriminate]].
      split; [discriminate | intros (_ & _ & H); lia].
  - simpl. split; [| split; [now left | discriminate]].
    split; [discriminate | intros (_ & H & _); contradiction].
  - simpl. split; [| split; [now left | discriminate]].
    split; [discriminate | intros (H & _ & _); apply X in H; contradiction].
  - simpl. split; [| split; [now left | discriminate]].
    split; [discriminate | intros (_ & H & _); contradiction].
Qed.

End RequiresCharging.

(** ** Discharge resistors *)

Lemma u8_testbit x i : 0 <= i < 8 -> Z.testbit (u8 x) i = Z.testbit x i.
Proof. intros H. unfold u8. apply Z.mod_pow2_bits_low. lia. Qed.

Lemma set_bit_testbit m j i :
  0 <= j -> 0 <= i < 8 ->
  Z.testbit (u8 (Z.lor m (Z.shiftl 1 j))) i
  = if i =? j then true else Z.testbit m i.
Proof.
  intros Hj Hi. rewrite u8_testbit, Z.lor_spec, Z.shiftl_1_l by lia.
  rewrite Z.pow2_bits_eqb by lia. rewrite (Z.eqb_sym j i).
  destruct (i =? j); [apply orb_true_r | apply orb_false_r].
Qed.

Lemma clear_bit_testbit m j i :
  0 <= j -> 0 <= i < 8 ->
  Z.testbit (u8 (Z.land m (Z.lnot (Z.shiftl 1 j)))) i
  = if i =? j then false else Z.testbit m i.
Proof.
  intros Hj Hi. rewrite u8_testbit, Z.land_spec, Z.lnot_spec, Z.shiftl_1_l by lia.
  rewrite Z.pow2_bits_eqb by lia. rewrite (Z.eqb_sym j i).
  destruct (i =? j); [apply andb_false_r | apply andb_true_r].
Qed.

Section Selection.

Variable cfg : Config.
Variable vmin : Z.
Variable scalar : float.

Lemma cell_balance_step_bit w j i :
  0 <= j -> 0 <= i < 8 ->
  Z.testbit (cell_balance_bitmask
               (battery_state (cell_balance_step cfg vmin scalar w j))) i
  = if i =? j
    then cell_selected cfg (balancing_enabled (battery_state w)) vmin scalar w j
    else Z.testbit (cell_balance_bitmask (battery_state w)) i.
Proof.
  intros Hj Hi. unfold cell_balance_step, cell_selected.
  destruct ((balancing_enabled (battery_state w) =? 1) && _); simpl.
  - now apply set_bit_testbit.
  - destruct (_ <=? Get_Cell_Voltage j w); simpl.
    + now apply set_bit_testbit.
    + now apply clear_bit_testbit.
Qed.

Lemma cell_balance_step_inputs w j :
  balancing_enabled (battery_state (cell_balance_step cfg vmin scalar w j))
  = balancing_enabled (battery_state w)
  /\ adc (cell_balance_step cfg vmin scalar w j) = adc w.
Proof. unfold cell_balance_step. repeat break_if; split; reflexivity. Qed.

Lemma cell_selected_ext latch w w' i :
  adc w' = adc w ->
  cell_selected cfg latch vmin scalar w' i = cell_selected cfg latch vmin scalar w i.
Proof.
  intros H. unfold cell_selected, Get_Cell_Voltage. now rewrite H.
Qed.

Lemma cell_balance_loop_bit l : forall w i,
  (forall j, In j l -> 0 <= j) -> 0 <= i < 8 ->
  Z.testbit (cell_balance_bitmask
               (battery_state (fold_left (cell_balance_step cfg vmin scalar) l w))) i
  = if existsb (Z.eqb i) l
    then cell_selected cfg (balancing_enabled (battery_state w)) vmin scalar w i
    else Z.testbit (cell_balance_bitmask (battery_state w)) i.
Proof.
  induction l as [| j l IH]; intros w i Hl Hi; simpl; [reflexivity |].
  destruct (cell_balance_step_inputs w j) as [EL EA].
  rewrite IH by (try assumption; intros; apply Hl; now right).
  rewrite EL, (cell_selected_ext _ w _ i EA).
  rewrite cell_balance_step_bit by (try assumption; apply Hl; now left).
  destruct (Z.eqb_spec i j) as [-> | Hij]; simpl;
    now destruct (existsb (Z.eqb _) l).
Qed.

End Selection.

Lemma existsb_for_range i n :
  existsb (Z.eqb i) (for_range 0 n) = (0 <=? i) && (i <? n).
Proof.
  destruct (existsb (Z.eqb i) (for_range 0 n)) eqn:E.
  - apply existsb_exists in E. destruct E as (j & Hj & Hij).
    apply Z.eqb_eq in Hij. subst j. apply in_for_range in Hj; [| lia].
    symmetry. apply andb_true_iff. split; [apply Z.leb_le | apply Z.ltb_lt]; lia.
  - symmetry. apply andb_false_iff.
    destruct (Z.leb_spec 0 i) as [H0 |]; [| now left].
    destruct (Z.ltb_spec i n) as [Hn |]; [| now right].
    assert (Hex : existsb (Z.eqb i) (for_range 0 n) = true).
    { apply existsb_exists. exists i. split; [| apply Z.eqb_refl].
      apply in_for_range; lia. }
    congruence.
Qed.

Lemma Balancing_GPIO_Control_pins m w i :
  0 <= i < 4 ->
  gpio (Balancing_GPIO_Control m w) (discharge_pin i) = Z.testbit m i.
Proof.
  intros Hi. rewrite <- bit_set_testbit by lia. unfold Balancing_GPIO_Control.
  assert (i = 0 \/ i = 1 \/ i = 2 \/ i = 3) as [-> | [-> | [-> | ->]]] by lia;
    destruct (bit_set m 3), (bit_set m 2), (bit_set m 1), (bit_set m 0);
    reflexivity.
Qed.

Section BalanceBits.

Variable cfg : Config.

(** What [Balance_Battery] leaves in the discharge mask and on the pins
    when its gate is open. *)
Lemma Balance_Battery_bits w :
  balancing_gate cfg w = true ->
  let w' := Balance_Battery cfg w in
  let n := number_of_cells (battery_state w) in
  let vmin := fst (min_max_cell_voltage w) in
  let scalar := balancing_scalar cfg w (snd (min_max_cell_voltage w)) in
  let mask' := cell_balance_bitmask (battery_state w') in
  (forall i, 0 <= i < 4 -> gpio w' (discharge_pin i) = Z.testbit mask' i)
  /\ (forall i, 0 <= i < 8 -> i < n ->
      Z.testbit mask' i
      = cell_selected cfg (balancing_enabled (battery_state w')) vmin scalar w i)
  /\ (forall i, 0 <= i < 8 -> n <= i ->
      Z.testbit mask' i = Z.testbit (cell_balance_bitmask (battery_state w)) i).
Proof.
  intros Hg. cbv zeta. unfold Balance_Battery. rewrite Hg.
  destruct (min_max_cell_voltage w) as [vmin vmax]. simpl fst; simpl snd.
  set (scalar := balancing_scalar cfg w vmax).
  destruct (update_balancing_enabled_side cfg vmin vmax scalar w) as (U1 & U2 & _).
  set (w1 := update_balancing_enabled cfg vmin vmax scalar w) in *.
  assert (En : number_of_cells (battery_state w1) = number_of_cells (battery_state w))
    by (unfold outside_balancing in U2; congruence).
  assert (Ea : adc w1 = adc w) by (unfold regulator_side in U1; congruence).
  assert (Em : cell_balance_bitmask (battery_state w1)
               = cell_balance_bitmask (battery_state w)).
  { subst w1. unfold update_balancing_enabled. repeat break_if; reflexivity. }
  rewrite En. set (n := number_of_cells (battery_state w)).
  set (w2 := fold_left (cell_balance_step cfg vmin scalar) (for_range 0 n) w1).
  assert (Hb : forall i, 0 <= i < 8 ->
             Z.testbit (cell_balance_bitmask (battery_state w2)) i
             = if (0 <=? i) && (i <? n)
               then cell_selected cfg (balancing_enabled (battery_state w1))
                      vmin scalar w1 i
               else Z.testbit (cell_balance_bitmask (battery_state w1)) i).
  { intros i Hi. subst w2. rewrite cell_balance_loop_bit.
    - now rewrite existsb_for_range.
    - intros j Hj. apply in_for_range in Hj; lia.
    - exact Hi. }
  assert (El : balancing_enabled (battery_state w2)
               = balancing_enabled (battery_state w1))
    by apply cell_balance_loop_latch.
  rewrite Balancing_GPIO_Control_battery.
  split; [| split].
  - intros i Hi. now apply Balancing_GPIO_Control_pins.
  - intros i Hi Hn. rewrite Hb by exact Hi.
    replace ((0 <=? i) && (i <? n)) with true.
    + rewrite El. now apply cell_selected_ext.
    + symmetry. apply andb_true_iff. split; [apply Z.leb_le | apply Z.ltb_lt]; lia.
  - intros i Hi Hn. rewrite Hb by exact Hi.
    replace ((0 <=? i) && (i <? n)) with false; [exact (f_equal (fun m => Z.testbit m i) Em) |].
    symmetry. apply andb_false_iff. right. apply Z.ltb_ge. lia.
Qed.

(** With its gate open [Balance_Battery] switches the discharge
    resistor of every counted cell by the decision of its loop for that
    cell, and leaves the resistor of a cell that is not counted in the
    state that the discharge mask kept from the last call, whatever pack
    was connected then; the four low bits of the mask are what the pins
    show. *)
Theorem balance_selection w :
  balancing_gate cfg w = true ->
  let w' := Balance_Battery cfg w in
  let n := number_of_cells (battery_state w) in
  let vmin := fst (min_max_cell_voltage w) in
  let scalar := balancing_scalar cfg w (snd (min_max_cell_voltage w)) in
  (forall i, 0 <= i < 4 -> i < n ->
     gpio w' (discharge_pin i)
     = cell_selected cfg (balancing_enabled (battery_state w')) vmin scalar w i)
  /\ (forall i, 0 <= i < 4 -> n <= i ->
      gpio w' (discharge_pin i)
      = Z.testbit (cell_balance_bitmask (battery_state w)) i)
  /\ (forall i, 0 <= i < 4 ->
      Z.testbit (cell_balance_bitmask (battery_state w')) i
      = gpio w' (discharge_pin i)).
Proof.
  intros Hg. destruct (Balance_Battery_bits w Hg) as (P & S & K). cbv zeta.
  split; [| split].
  - intros i Hi Hn. rewrite P by exact Hi. apply S; lia.
  - intros i Hi Hn. rewrite P by exact Hi. apply K; lia.
  - intros i Hi. symmetry. now apply P.
Qed.

(** With the gate open, a counted cell at or above
    [CELL_OVER_VOLTAGE_ENABLE_DISCHARGE] has its discharge resistor
    switched on, whatever the balancing latch says. *)
Theorem over_voltage_cell_discharged w i :
  balancing_gate cfg w = true ->
  0 <= i < number_of_cells (battery_state w) -> i < 4 ->
  CELL_OVER_VOLTAGE_ENABLE_DISCHARGE cfg <= Get_Cell_Voltage i w ->
  gpio (Balance_Battery cfg w) (discharge_pin i) = GPIO_PIN_SET.
Proof.
  intros Hg Hi H4 Hov.
  destruct (Balance_Battery_bits w Hg) as (P & S & _).
  rewrite P, S by lia. unfold cell_selected.
  apply Z.leb_le in Hov. rewrite Hov. apply orb_true_r.
Qed.

End BalanceBits.

(** ** The scaled hysteresis is positive *)

Lemma cmp_scaled_pos_zero z e e0 : 0 < z -> cmp_scaled z e 0 e0 = Gt.
Proof.
  intros H. unfold cmp_scaled. apply Z.compare_gt_iff.
  assert (0 < 2 ^ (e - Z.min e e0)) by (apply Z.pow_pos_nonneg; lia).
  nia.
Qed.

(** A number that the comparison [x < 1.0f] does not catch is a NaN or
    at least 1. *)
Lemma not_below_one x :
  f_lt x f_one = false -> x = S754_nan \/ at_least x 1 0.
Proof.
  unfold f_lt. rewrite f_one_eq. intros H.
  destruct x as [s | [|] | | [|] m e]; simpl in H; try discriminate.
  - right. exact I.
  - now left.
  - (* negative *) rewrite cmp_scaled_neg_l in H by lia. discriminate.
  - right. simpl.
    assert (Hc : cmp_scaled (Zpos m) e 8388608 (-23) <> Lt).
    { intros E. rewrite E in H. discriminate. }
    apply cmp_scaled_not_Lt in Hc.
    eapply Qle_trans; [| exact Hc]. rewrite scaled_one. vm_compute. discriminate.
Qed.

Lemma at_least_not_le_zero x : at_least x 1 0 -> f_le x f_zero = false.
Proof.
  destruct x as [s | [|] | | [|] m e]; simpl; try contradiction; intros _;
    try reflexivity.
  unfold f_le. simpl. now rewrite cmp_scaled_pos_zero.
Qed.

(** The product of two numbers that are at least 1. *)
Lemma f32_mul_at_least_one a x :
  at_least a 1 0 -> at_least x 1 0 -> at_least (f32_mul a x) 1 0.
Proof.
  intros Ha Hx. destruct a as [s | [|] | | [|] ma ea]; try contradiction.
  - destruct x as [s | [|] | | [|] m e]; try contradiction; exact I.
  - simpl in Ha. unfold f32_mul.
    apply (SFmul_at_least 24 128 ltac:(lia) ma ea x 1 0 1 0);
      [lia | vm_compute; discriminate | | exact Hx].
    rewrite Z.mul_1_r, Z.add_0_r. exact Ha.
Qed.

Lemma scaled_hysteresis_positive H s :
  1 <= H -> f_lt s f_one = false ->
  f_ge f_zero (f32_mul (f32_of_Z H) s) = false.
Proof.
  intros HH Hs. unfold f_ge.
  destruct (not_below_one s Hs) as [-> | Hx].
  - assert (Ha : at_least (f32_of_Z H) 1 0) by (apply f32_of_Z_at_least; lia).
    destruct (f32_of_Z H) as [s | [|] | | [|] m e]; try contradiction; reflexivity.
  - apply at_least_not_le_zero. apply f32_mul_at_least_one; [| exact Hx].
    apply f32_of_Z_at_least; lia.
Qed.

Section LowestCell.

Variable cfg : Config.

Lemma balancing_scalar_not_below_one w vmax :
  f_lt (balancing_scalar cfg w vmax) f_one = false.
Proof.
  unfold balancing_scalar. destruct (_ =? CONNECTED); [| reflexivity].
  cbv zeta. set (s := f32_mul _ _).
  destruct (f_lt s f_one) eqn:E; [reflexivity | exact E].
Qed.

(** With the gate open and a hysteresis of at least one count, a counted
    cell that no other counted cell is below, and that is not over
    voltage, has its discharge resistor off after [Balance_Battery]:
    balancing never bleeds the lowest cell. *)
Theorem lowest_cell_not_bled w i :
  balancing_gate cfg w = true ->
  1 <= CELL_BALANCING_HYSTERESIS_V cfg ->
  0 <= i < number_of_cells (battery_state w) -> i < 4 ->
  (forall j, 0 <= j < number_of_cells (battery_state w) ->
     Get_Cell_Voltage i w <= Get_Cell_Voltage j w) ->
  Get_Cell_Voltage i w < CELL_OVER_VOLTAGE_ENABLE_DISCHARGE cfg ->
  gpio (Balance_Battery cfg w) (discharge_pin i) = GPIO_PIN_RESET.
Proof.
  intros Hg HH Hi H4 Hlow Hov.
  destruct (Balance_Battery_bits cfg w Hg) as (P & S & _).
  rewrite P, S by lia. unfold cell_selected.
  destruct (min_max_cell_voltage_spec w ltac:(lia)) as (Hb & (j & Hj & Ej) & _).
  assert (Ev : Get_Cell_Voltage i w = fst (min_max_cell_voltage w)).
  { specialize (Hb i Hi). specialize (Hlow j Hj). lia. }
  rewrite Ev, Z.sub_diag. change (f32_of_Z (u32 0)) with f_zero.
  rewrite scaled_hysteresis_positive;
    [| exact HH | apply balancing_scalar_not_below_one].
  rewrite andb_false_r. simpl. apply Z.leb_gt. lia.
Qed.

End LowestCell.

(* ================================================================== *)
(** * Further properties of the regulator driver *)

(** ** Commands *)

Section Commands.

Variable cfg : Config.

(** The ChargeCurrent write of [Set_Charge_Current] stands for the
    clamped limit rounded down to a multiple of 64 mA: it is never above
    the limit and less than 64 mA below it up to 8192 mA, where the code
    saturates; a limit below 64 mA commands no current at all.  The two
    bytes fit their registers and the six low bits of the low byte are
    clear. *)
Theorem charge_current_quantised x w :
  0 <= x -> 0 <= MAX_CHARGE_CURRENT_MA cfg ->
  let c := Z.min x (MAX_CHARGE_CURRENT_MA cfg) in
  exists lsb msb,
    trace (Set_Charge_Current cfg x w)
    = EvI2cWrite CHARGE_CURRENT_ADDR [lsb; msb] :: trace w
    /\ decode_charge_current lsb msb = 64 * Z.min (c / 64) 128
    /\ (c < 8256 -> c - 63 <= decode_charge_current lsb msb <= c)
    /\ (8192 <= c -> decode_charge_current lsb msb = 8192)
    /\ (c < 64 -> lsb = 0 /\ msb = 0)
    /\ 0 <= lsb < 256 /\ 0 <= msb < 256 /\ lsb mod 64 = 0.
Proof.
  intros Hx Hmax c. rewrite Set_Charge_Current_trace.
  fold c. change (clamp_current cfg x) with c.
  assert (Hc : 0 <= c) by (subst c; lia). clearbody c.
  pose proof (charge_current_registers_decode c Hc) as Hd.
  assert (Hb : 0 <= snd (charge_current_registers c) < 256
               /\ 0 <= fst (charge_current_registers c) < 256
               /\ snd (charge_current_registers c) mod 64 = 0
               /\ (c < 64 -> charge_current_registers c = (0, 0))).
  { unfold charge_current_registers.
    set (c0 := if negb (c =? 0) then c / 64 else 0).
    assert (Hc0 : c0 = c / 64).
    { subst c0. destruct (Z.eqb_spec c 0) as [-> |]; reflexivity. }
    set (c1 := if 128 <? c0 then 128 else c0).
    assert (Hc1 : c1 = Z.min (c / 64) 128).
    { subst c1. rewrite Hc0. destruct (Z.ltb_spec 128 (c / 64)); lia. }
    assert (Hr : 0 <= c1 <= 128).
    { rewrite Hc1. pose proof (Z.div_pos c 64 Hc ltac:(lia)). lia. }
    replace ((0 <=? c1) || (c1 <=? 128)) with true
      by (symmetry; apply orb_true_iff; left; apply Z.leb_le; lia).
    cbn [fst snd]. unfold u8. change (2 ^ 8) with 256.
    split; [apply Z.mod_pos_bound; lia |].
    split; [apply Z.mod_pos_bound; lia |]. split.
    - rewrite Z.shiftl_mul_pow2 by lia. change (2 ^ 6) with 64.
      replace 256 with (64 * 4) by reflexivity.
      rewrite (Z.mul_comm c1 64), Z.mul_mod_distr_l by lia.
      rewrite Z.mul_comm. apply Z.mod_mul. lia.
    - intros H64. assert (c1 = 0).
      { rewrite Hc1. rewrite Z.div_small by lia. reflexivity. }
      subst c1. rewrite H. reflexivity. }
  destruct (charge_current_registers c) as [r1 r2]. cbn [fst snd] in *.
  destruct Hb as (B1 & B2 & B3 & B4).
  exists r2, r1. split; [reflexivity |]. split; [exact Hd |].
  pose proof (Z.div_mod c 64 ltac:(lia)) as Hdm.
  pose proof (Z.mod_pos_bound c 64 ltac:(lia)) as Hmb.
  split; [| split; [| split; [| repeat split; lia]]].
  - intros H. rewrite Hd.
    assert (c / 64 < 129) by (apply Z.div_lt_upper_bound; lia). lia.
  - intros H. rewrite Hd.
    assert (128 <= c / 64) by (apply Z.div_le_lower_bound; lia). lia.
  - intros H. specialize (B4 H). now injection B4 as -> ->.
Qed.

(** With fixed-voltage charging compiled in, [Set_Charge_Voltage]
    ignores the cell count: every call, the one of the disabled branch
    with 0 cells included, writes the fixed set point to MaxChargeVoltage
    and the high byte of the precharge threshold to
    MinimumSystemVoltage. *)
Theorem fixed_voltage_ignores_cells n w :
  FIXED_VOLTAGE_CHARGING cfg = true ->
  exists lsb msb minsys,
    trace (Set_Charge_Voltage cfg n w)
    = [EvI2cWrite MAX_CHARGE_VOLTAGE_ADDR [lsb; msb];
       EvI2cWrite MINIMUM_SYSTEM_VOLTAGE_ADDR [minsys]] ++ trace w
    /\ decode_max_charge_voltage lsb msb = u16 (FIXED_VOLTAGE_SETPOINT cfg)
    /\ decode_minimum_system_voltage minsys
       = 256 * (u16 (FIXED_VOLTAGE_PRECHARGE cfg) / 256).
Proof.
  intros Hf. rewrite Set_Charge_Voltage_trace.
  unfold charge_voltage_registers. rewrite Hf. cbn [fst snd].
  do 3 eexists. split; [reflexivity |].
  assert (Hb : forall v, 0 <= v < 65536 ->
             u8 (Z.shiftr (Z.land v 65280) 8) = v / 256
             /\ u8 (Z.land v 255) = v mod 256).
  { intros v Hv.
    change 255 with (Z.ones 8). rewrite Z.land_ones by lia.
    change (2 ^ 8) with 256.
    assert (Hh : Z.shiftr (Z.land v 65280) 8 = v / 256).
    { apply Z.bits_inj'. intros k Hk.
      rewrite Z.shiftr_spec, Z.land_spec by lia.
      replace (v / 256) with (Z.shiftr v 8)
        by (rewrite Z.shiftr_div_pow2 by lia; reflexivity).
      rewrite Z.shiftr_spec by lia.
      destruct (Z.lt_ge_cases k 8) as [Hlo | Hhi].
      - replace (Z.testbit 65280 (k + 8)) with true; [apply andb_true_r |].
        assert (k = 0 \/ k = 1 \/ k = 2 \/ k = 3 \/ k = 4 \/ k = 5 \/ k = 6 \/ k = 7)
          as [-> | [-> | [-> | [-> | [-> | [-> | [-> | ->]]]]]]] by lia;
          reflexivity.
      - rewrite (Z.bits_above_log2 v (k + 8)); [reflexivity | lia |].
        destruct (Z.eq_dec v 0) as [-> |]; [simpl; lia |].
        apply Z.log2_lt_pow2; [lia |].
        apply Z.lt_le_trans with (2 ^ 16); [simpl; lia |].
        apply Z.pow_le_mono_r; lia. }
    rewrite Hh. unfold u8. change (2 ^ 8) with 256. split.
    - apply Z.mod_small. split; [apply Z.div_pos; lia |].
      apply Z.div_lt_upper_bound; lia.
    - apply Z.mod_small. apply Z.mod_pos_bound. lia. }
  assert (Hu : forall v, 0 <= u16 v < 65536).
  { intros v. unfold u16. change (2 ^ 16) with 65536.
    apply Z.mod_pos_bound. lia. }
  destruct (Hb _ (Hu (FIXED_VOLTAGE_SETPOINT cfg))) as [S1 S2].
  destruct (Hb _ (Hu (FIXED_VOLTAGE_PRECHARGE cfg))) as [P1 _].
  change 0xFF00 with 65280. change 0x00FF with 255.
  rewrite S1, S2, P1. unfold decode_max_charge_voltage, decode_minimum_system_voltage.
  split; [| reflexivity].
  pose proof (Z.div_mod (u16 (FIXED_VOLTAGE_SETPOINT cfg)) 256 ltac:(lia)). lia.
Qed.

End Commands.

Section SourcePower.

Variable cfg : Config.

(** The thermal throttle never raises the power, and the computed charge
    power never exceeds what the source advertises, for an efficiency
    between 0 and 1 and powers that a [float] holds exactly. *)
Theorem power_within_source w :
  0 <= MAX_CHARGING_POWER cfg < 2 ^ 24 ->
  0 <= Get_Max_Input_Power w < 2 ^ 24 ->
  f_le f_zero (ASSUME_EFFICIENCY cfg) = true ->
  f_le (ASSUME_EFFICIENCY cfg) f_one = true ->
  0 <= Calculate_Max_Charge_Power cfg w <= input_limited_power cfg w
  /\ input_limited_power cfg w <= Get_Max_Input_Power w.
Proof.
  intros Hpow Hsrc He0 He1.
  pose proof (f_le_unit_scalar _ He0 He1) as Heff.
  pose proof (input_limited_power_bounds cfg Hpow Heff w) as Hi.
  split.
  - unfold Calculate_Max_Charge_Power.
    apply (thermal_throttle_le cfg Hpow). exact Hi.
  - clear Hi. unfold input_limited_power.
    set (p0 := f_to_u32 _).
    set (p1 := if MAX_CHARGING_POWER cfg <? p0 then MAX_CHARGING_POWER cfg else p0).
    destruct (Z.ltb_spec (Get_Max_Input_Power w) p1) as [Hlt | Hge]; [| exact Hge].
    pose proof (f32_scale_le (Get_Max_Input_Power w) (ASSUME_EFFICIENCY cfg)
                  ltac:(lia) Heff). lia.
Qed.

End SourcePower.

(** ** What a pass leaves alone *)

Section RegulatorFrame.

Variable cfg : Config.

Lemma bus_operation_monitor ev w :
  monitor_side (snd (bus_operation ev w)) = monitor_side w.
Proof.
  unfold bus_operation, next_reply.
  destruct (bus w) as [| r rest]; simpl; [reflexivity |].
  now destruct (comm_fault r).
Qed.

Lemma Regulator_HI_Z_monitor h w :
  monitor_side (Regulator_HI_Z h w) = monitor_side w.
Proof. unfold Regulator_HI_Z. now break_if. Qed.

Lemma vTaskDelay_monitor t w : monitor_side (vTaskDelay t w) = monitor_side w.
Proof. reflexivity. Qed.

Lemma Set_Charge_Voltage_monitor n w :
  monitor_side (Set_Charge_Voltage cfg n w) = monitor_side w.
Proof.
  unfold Set_Charge_Voltage. destruct (charge_voltage_registers cfg n) as [[r1 r2] ms].
  unfold I2C_Write_Register, I2C_Write_Two_Byte_Register.
  now rewrite !bus_operation_monitor.
Qed.

Lemma Set_Charge_Current_monitor x w :
  monitor_side (Set_Charge_Current cfg x w) = monitor_side w.
Proof.
  unfold Set_Charge_Current. destruct (charge_current_registers _) as [r1 r2].
  unfold I2C_Write_Two_Byte_Register. now rewrite bus_operation_monitor.
Qed.

Lemma Read_Charge_Status_monitor w :
  monitor_side (Read_Charge_Status cfg w) = monitor_side w.
Proof.
  unfold Read_Charge_Status.
  pose proof (bus_operation_monitor EvChargeStatusRead w) as H.
  destruct (bus_operation EvChargeStatusRead w) as [r w1]. simpl in H.
  now destruct (negb _).
Qed.

Lemma Regulator_Read_ADC_monitor w :
  monitor_side (Regulator_Read_ADC cfg w) = monitor_side w.
Proof.
  unfold Regulator_Read_ADC, next_reply.
  destruct (bus w) as [| r rest]; simpl; [reflexivity |].
  now destruct (comm_fault r).
Qed.

Lemma precharge_pulse_monitor ticks w :
  monitor_side (precharge_pulse cfg ticks w) = monitor_side w.
Proof.
  revert w. induction ticks as [| k IH]; intros w; simpl; [reflexivity |].
  now rewrite IH, vTaskDelay_monitor, Regulator_Read_ADC_monitor,
    Read_Charge_Status_monitor, Regulator_HI_Z_monitor,
    Set_Charge_Current_monitor, Set_Charge_Voltage_monitor.
Qed.

Lemma precharge_attempt_monitor w :
  monitor_side (precharge_attempt cfg w) = monitor_side w.
Proof.
  unfold precharge_attempt.
  change (monitor_side (precharge_pulse cfg (pulse_ticks w)
                          (if negb (initial_precharge_wakeup (set_precharging_state 1 w) =? 0)
                           then set_initial_precharge_wakeup 0 (set_precharging_state 1 w)
                           else set_precharging_state 1 w)) = monitor_side w).
  rewrite precharge_pulse_monitor. now break_if.
Qed.

Lemma precharge_loop_monitor fuel w :
  monitor_side (fst (precharge_loop cfg fuel w)) = monitor_side w.
Proof.
  revert w. induction fuel as [| k IH]; intros w; simpl; [reflexivity |].
  break_if; [| reflexivity].
  specialize (IH (precharge_attempt cfg w)).
  destruct (precharge_loop cfg k (precharge_attempt cfg w)) as [w' ps].
  simpl in *. now rewrite IH, precharge_attempt_monitor.
Qed.

Lemma settle_monitor ticks w : monitor_side (settle cfg ticks w) = monitor_side w.
Proof.
  revert w. induction ticks as [| k IH]; intros w; simpl; [reflexivity |].
  now rewrite IH, Regulator_Read_ADC_monitor, Read_Charge_Status_monitor.
Qed.

Lemma uvp_recovery_monitor w :
  monitor_side (fst (uvp_recovery cfg w)) = monitor_side w.
Proof.
  unfold uvp_recovery.
  pose proof (precharge_loop_monitor (Z.to_nat (precharge_timeout w)) w) as H.
  destruct (precharge_loop cfg _ w) as [w1 ps]. simpl in *.
  unfold precharge_exit. break_if; [| exact H].
  now rewrite settle_monitor, Regulator_HI_Z_monitor.
Qed.

Lemma before_control_monitor w :
  monitor_side (before_control cfg w) = monitor_side w.
Proof.
  unfold before_control.
  set (w1 := if negb (Read_Charge_Okay w =? 1) then _ else _).
  assert (H1 : monitor_side w1 = monitor_side w).
  { subst w1. destruct (negb _); [reflexivity |]. now destruct (has_error _ w). }
  set (w2 := if has_error REGULATOR_COMMUNICATION_ERROR w1 then _ else _).
  assert (H2 : monitor_side w2 = monitor_side w1).
  { subst w2. now destruct (has_error _ w1). }
  destruct (ATTEMPT_UVP_RECOVERY cfg);
    rewrite ?uvp_recovery_monitor, Regulator_Read_ADC_monitor,
      Read_Charge_Status_monitor; congruence.
Qed.

Lemma enable_output_monitor w :
  monitor_side (enable_output cfg w) = monitor_side w.
Proof.
  unfold enable_output. cbv zeta.
  now rewrite Regulator_HI_Z_monitor, Set_Charge_Current_monitor,
    Set_Charge_Voltage_monitor.
Qed.

Lemma disconnect_probe_monitor w :
  monitor_side (disconnect_probe cfg w) = monitor_side w.
Proof.
  unfold disconnect_probe. cbv zeta. break_if; [| reflexivity].
  now rewrite Regulator_HI_Z_monitor, vTaskDelay_monitor, Regulator_HI_Z_monitor.
Qed.

Lemma charge_termination_monitor w :
  monitor_side (charge_termination cfg w) = monitor_side w.
Proof.
  unfold charge_termination. cbv zeta. break_if; [| reflexivity].
  break_if; [| reflexivity].
  now rewrite vTaskDelay_monitor, Regulator_HI_Z_monitor.
Qed.

Lemma Control_Charger_Output_monitor w :
  monitor_side (Control_Charger_Output cfg w) = monitor_side w.
Proof.
  unfold Control_Charger_Output. break_if.
  - now rewrite charge_termination_monitor, disconnect_probe_monitor,
      enable_output_monitor.
  - now rewrite Set_Charge_Current_monitor, Set_Charge_Voltage_monitor,
      Regulator_HI_Z_monitor.
Qed.

(** One pass of the regulator task leaves the battery monitor's side of
    the state as it is: the battery record, the ladder bitmask, the four
    discharge pins, the cell-connection, cell-voltage and
    over-temperature faults, and the inputs. *)
Theorem regulator_keeps_monitor_side w :
  monitor_side (vRegulator_iteration cfg w) = monitor_side w.
Proof.
  unfold vRegulator_iteration, charger_dispatch. cbv zeta.
  rewrite vTaskDelay_monitor.
  destruct (ENABLE_BALANCING cfg); simpl;
    now rewrite Control_Charger_Output_monitor, before_control_monitor.
Qed.

End RegulatorFrame.

(** ** Start of the task *)

Section Boot.

Variable cfg : Config.
Variable ids : DriverIds.

Lemma I2C_Read_Register_spec addr w :
  fst (I2C_Read_Register addr w) = rx (nth 0 (bus w) quiet_bus)
  /\ bus (snd (I2C_Read_Register addr w)) = tl (bus w)
  /\ trace (snd (I2C_Read_Register addr w)) = EvI2cWrite addr [] :: trace w
  /\ gpio (snd (I2C_Read_Register addr w)) = gpio w
  /\ driver_quiet w (snd (I2C_Read_Register addr w))
  /\ regulator (snd (I2C_Read_Register addr w)) = regulator w.
Proof.
  unfold I2C_Read_Register, bus_operation, next_reply.
  destruct (bus w) as [| r rest] eqn:E; simpl; [now repeat split |].
  destruct (comm_fault r); repeat split.
Qed.

Lemma Query_Regulator_Connection_spec w :
  let c := fst (Query_Regulator_Connection ids w) in
  let w' := snd (Query_Regulator_Connection ids w) in
  let matched := (answered_device_id w =? BQ26703A_DEVICE_ID ids)
                 && (answered_manufacturer_id w =? BQ26703A_MANUFACTURER_ID ids) in
  c = (if matched then CONNECTED else NOT_CONNECTED)
  /\ has_error REGULATOR_COMMUNICATION_ERROR w' = negb matched
  /\ trace w' = [EvI2cWrite (DEVICE_ID_ADDR ids) [];
                 EvI2cWrite (MANUFACTURER_ID_ADDR ids) []] ++ trace w
  /\ gpio w' = gpio w
  /\ driver_quiet w w'
  /\ regulator w' = regulator w.
Proof.
  unfold Query_Regulator_Connection, answered_device_id, answered_manufacturer_id.
  destruct (I2C_Read_Register_spec (MANUFACTURER_ID_ADDR ids) w)
    as (A1 & A2 & A3 & A4 & A5 & A6).
  destruct (I2C_Read_Register (MANUFACTURER_ID_ADDR ids) w) as [b1 w1].
  cbn [fst snd] in *.
  destruct (I2C_Read_Register_spec (DEVICE_ID_ADDR ids) w1)
    as (B1 & B2 & B3 & B4 & B5 & B6).
  destruct (I2C_Read_Register (DEVICE_ID_ADDR ids) w1) as [b2 w2].
  cbn [fst snd] in *. subst b1 b2. rewrite A2.
  replace (nth 0 (tl (bus w)) quiet_bus) with (nth 1 (bus w) quiet_bus)
    by (destruct (bus w); reflexivity).
  pose proof (driver_quiet_trans _ _ _ A5 B5) as Q.
  destruct ((_ =? BQ26703A_DEVICE_ID ids) && _); cbn [fst snd];
    (split; [reflexivity |]); (split; [reflexivity |]);
    (split; [simpl; now rewrite B3, A3 |]);
    (split; [simpl; congruence |]);
    (split; [exact Q | simpl; congruence]).
Qed.

Lemma vTaskDelay_frame t v :
  trace (vTaskDelay t v) = EvDelay t :: trace v
  /\ gpio (vTaskDelay t v) = gpio v
  /\ regulator (vTaskDelay t v) = regulator v
  /\ error_state (vTaskDelay t v) = error_state v
  /\ driver_quiet v (vTaskDelay t v).
Proof. repeat split. Qed.

Lemma set_connected_frame c v :
  trace (upd_regulator (set_connected c) v) = trace v
  /\ gpio (upd_regulator (set_connected c) v) = gpio v
  /\ connected (regulator (upd_regulator (set_connected c) v)) = c
  /\ error_state (upd_regulator (set_connected c) v) = error_state v
  /\ driver_quiet v (upd_regulator (set_connected c) v).
Proof. repeat split. Qed.

(** Output off and OTG off: the first two steps of the task. *)
Lemma init_head v :
  let v' := Regulator_OTG_EN 0 (Regulator_HI_Z 1 v) in
  trace v' = [EvGpioWrite EN_OTG GPIO_PIN_RESET;
              EvGpioWrite FAN_ENn GPIO_PIN_SET;
              EvGpioWrite ILIM_HIZ GPIO_PIN_RESET] ++ trace v
  /\ gpio v' ILIM_HIZ = GPIO_PIN_RESET
  /\ gpio v' FAN_ENn = GPIO_PIN_SET
  /\ gpio v' EN_OTG = GPIO_PIN_RESET
  /\ bus v' = bus v
  /\ driver_quiet v v'.
Proof. repeat split. Qed.

(** The two option registers and the wait: the last steps before the
    loop. *)
Lemma init_tail v :
  let v' := vTaskDelay (250 / portTICK_PERIOD_MS cfg)
              (Regulator_Set_ADC_Option ids (Regulator_Set_Charge_Option_0 ids v)) in
  trace v' = [EvDelay (250 / portTICK_PERIOD_MS cfg);
              EvI2cWrite (ADC_OPTION_ADDR ids) [u8 (ADC_ENABLED_BITMASK ids)];
              EvI2cWrite (CHARGE_OPTION_0_ADDR ids) [14; 38]] ++ trace v
  /\ gpio v' = gpio v
  /\ regulator v' = regulator v
  /\ (forall f, error_state v f = true -> error_state v' f = true)
  /\ driver_quiet v v'.
Proof.
  cbv zeta. unfold Regulator_Set_ADC_Option, Regulator_Set_Charge_Option_0.
  cbv zeta. unfold I2C_Write_Register, I2C_Write_Two_Byte_Register.
  set (e1 := EvI2cWrite (CHARGE_OPTION_0_ADDR ids) [14; 38]).
  set (e2 := EvI2cWrite (ADC_OPTION_ADDR ids) [u8 (ADC_ENABLED_BITMASK ids)]).
  set (v1 := snd (bus_operation e1 v)).
  set (v2 := snd (bus_operation e2 v1)).
  destruct (vTaskDelay_frame (250 / portTICK_PERIOD_MS cfg) v2)
    as (D1 & D2 & D3 & D4 & D5).
  pose proof (bus_operation_trace e1 v) as T1. fold v1 in T1.
  pose proof (bus_operation_trace e2 v1) as T2. fold v2 in T2.
  pose proof (bus_operation_gpio e1 v) as G1. fold v1 in G1.
  pose proof (bus_operation_gpio e2 v1) as G2. fold v2 in G2.
  pose proof (bus_operation_regulator e1 v) as R1. fold v1 in R1.
  pose proof (bus_operation_regulator e2 v1) as R2. fold v2 in R2.
  pose proof (bus_operation_quiet e1 v) as Q1. fold v1 in Q1.
  pose proof (bus_operation_quiet e2 v1) as Q2. fold v2 in Q2.
  split; [| split; [| split; [| split]]].
  - rewrite D1, T2, T1. reflexivity.
  - congruence.
  - congruence.
  - intros f Hf. rewrite D4. subst v2 v1.
    now apply bus_operation_faults, bus_operation_faults.
  - eapply driver_quiet_trans; [exact Q1 |].
    eapply driver_quiet_trans; [exact Q2 | exact D5].
Qed.

Lemma vRegulator_init_eq w :
  vRegulator_init cfg ids w
  = vTaskDelay (250 / portTICK_PERIOD_MS cfg)
      (Regulator_Set_ADC_Option ids
         (Regulator_Set_Charge_Option_0 ids
            (upd_regulator
               (set_connected
                  (fst (Query_Regulator_Connection ids
                          (Regulator_OTG_EN 0 (Regulator_HI_Z 1 w)))))
               (snd (Query_Regulator_Connection ids
                       (Regulator_OTG_EN 0 (Regulator_HI_Z 1 w))))))).
Proof.
  unfold vRegulator_init. cbv zeta.
  now destruct (Query_Regulator_Connection ids (Regulator_OTG_EN 0 (Regulator_HI_Z 1 w))).
Qed.

(** The pins after the initialisation; the statics and the battery
    record are untouched. *)
Lemma vRegulator_init_frame w :
  let w' := vRegulator_init cfg ids w in
  gpio w' ILIM_HIZ = GPIO_PIN_RESET
  /\ gpio w' FAN_ENn = GPIO_PIN_SET
  /\ gpio w' EN_OTG = GPIO_PIN_RESET
  /\ driver_quiet w w'.
Proof.
  cbv zeta. rewrite vRegulator_init_eq.
  destruct (init_head w) as (_ & G1 & G2 & G3 & _ & Q1). cbv zeta in G1, G2, G3, Q1.
  set (w1 := Regulator_OTG_EN 0 (Regulator_HI_Z 1 w)) in *.
  destruct (Query_Regulator_Connection_spec w1) as (_ & _ & _ & G4 & Q2 & _).
  cbv zeta in G4, Q2.
  set (c := fst (Query_Regulator_Connection ids w1)) in *.
  set (w2 := snd (Query_Regulator_Connection ids w1)) in *.
  destruct (set_connected_frame c w2) as (_ & G5 & _ & _ & Q3).
  set (w3 := upd_regulator (set_connected c) w2) in *.
  destruct (init_tail w3) as (_ & G6 & _ & _ & Q4). cbv zeta in G6, Q4.
  rewrite G6, G5, G4.
  split; [exact G1 | split; [exact G2 | split; [exact G3 |]]].
  eapply driver_quiet_trans; [exact Q1 |].
  eapply driver_quiet_trans; [exact Q2 |].
  eapply driver_quiet_trans; [exact Q3 | exact Q4].
Qed.

(** The regulator task starts by putting the output in high impedance
    and by disabling OTG, before any traffic on the bus; it then asks
    for the two identifiers, writes ChargeOption0 and the ADC option,
    and waits.  The regulator counts as connected exactly when both
    identifiers match, and when they do not the communication fault is
    set when the task enters its loop. *)
Theorem boot_sequence w :
  let w' := vRegulator_init cfg ids w in
  let matched := (answered_device_id w =? BQ26703A_DEVICE_ID ids)
                 && (answered_manufacturer_id w =? BQ26703A_MANUFACTURER_ID ids) in
  trace w' = boot_commands cfg ids ++ trace w
  /\ gpio w' ILIM_HIZ = GPIO_PIN_RESET
  /\ gpio w' FAN_ENn = GPIO_PIN_SET
  /\ gpio w' EN_OTG = GPIO_PIN_RESET
  /\ Get_Regulator_Connection_State w'
     = (if matched then CONNECTED else NOT_CONNECTED)
  /\ (matched = false -> has_error REGULATOR_COMMUNICATION_ERROR w' = true).
Proof.
  intros w' matched.
  destruct (vRegulator_init_frame w) as (G1 & G2 & G3 & _). fold w' in G1, G2, G3.
  split; [| split; [exact G1 | split; [exact G2 | split; [exact G3 |]]]];
    subst w'; rewrite vRegulator_init_eq;
    destruct (init_head w) as (T1 & _ & _ & _ & B1 & _); cbv zeta in T1, B1;
    set (w1 := Regulator_OTG_EN 0 (Regulator_HI_Z 1 w)) in *;
    destruct (Query_Regulator_Connection_spec w1) as (C & E & T2 & _ & _ & _);
    cbv zeta in C, E, T2;
    unfold answered_device_id, answered_manufacturer_id in C, E;
    rewrite B1 in C, E;
    fold (answered_device_id w) (answered_manufacturer_id w) in C, E;
    fold matched in C, E;
    set (c := fst (Query_Regulator_Connection ids w1)) in *;
    set (w2 := snd (Query_Regulator_Connection ids w1)) in *;
    destruct (set_connected_frame c w2) as (T3 & _ & R3 & F3 & _);
    set (w3 := upd_regulator (set_connected c) w2) in *;
    destruct (init_tail w3) as (T4 & _ & R4 & F4 & _); cbv zeta in T4, R4, F4.
  - rewrite T4, T3, T2, T1. reflexivity.
  - split.
    + unfold Get_Regulator_Connection_State. rewrite R4, R3. exact C.
    + intros Hm. unfold has_error in *. apply F4. rewrite F3, E, Hm. reflexivity.
Qed.

End Boot.

(** ** Pins *)

Lemma precharge_pulse_S cfg k w :
  precharge_pulse cfg (S k) w = precharge_pulse cfg k (precharge_tick cfg w).
Proof. reflexivity. Qed.

Section Pins.

Variable cfg : Config.

Lemma pins_settled_gpio w w' : gpio w' = gpio w -> pins_settled w -> pins_settled w'.
Proof. unfold pins_settled, fan_follows_output. intros ->. tauto. Qed.

Lemma Regulator_HI_Z_settles h w :
  gpio w EN_OTG = GPIO_PIN_RESET -> pins_settled (Regulator_HI_Z h w).
Proof.
  intros H. unfold Regulator_HI_Z. break_if; split; try reflexivity; exact H.
Qed.

Lemma precharge_tick_pins w :
  pins_settled w -> pins_settled (precharge_tick cfg w).
Proof.
  intros H. unfold precharge_tick.
  set (v := Regulator_HI_Z 0
              (Set_Charge_Current cfg (UVP_RECOVERY_CURRENT_MA cfg)
                 (Set_Charge_Voltage cfg (u8 (NUM_SERIES cfg)) w))).
  apply (pins_settled_gpio v).
  - destruct (vTaskDelay_frame (250 / portTICK_PERIOD_MS cfg)
                (Regulator_Read_ADC cfg (Read_Charge_Status cfg v)))
      as (_ & G & _).
    now rewrite G, Regulator_Read_ADC_gpio, Read_Charge_Status_gpio.
  - apply Regulator_HI_Z_settles.
    rewrite Set_Charge_Current_gpio, Set_Charge_Voltage_gpio. apply H.
Qed.

Lemma precharge_pulse_pins ticks w :
  pins_settled w -> pins_settled (precharge_pulse cfg ticks w).
Proof.
  revert w. induction ticks as [| k IH]; intros w H; [exact H |].
  rewrite precharge_pulse_S. apply IH. now apply precharge_tick_pins.
Qed.

Lemma precharge_loop_pins fuel w :
  pins_settled w -> pins_settled (fst (precharge_loop cfg fuel w)).
Proof.
  revert w. induction fuel as [| k IH]; intros w H; simpl; [exact H |].
  break_if; [| exact H].
  specialize (IH (precharge_attempt cfg w)).
  destruct (precharge_loop cfg k (precharge_attempt cfg w)) as [w' ps].
  simpl in *. apply IH. unfold precharge_attempt.
  apply (pins_settled_gpio
           (precharge_pulse cfg (pulse_ticks w)
              (if negb (initial_precharge_wakeup (set_precharging_state 1 w) =? 0)
               then set_initial_precharge_wakeup 0 (set_precharging_state 1 w)
               else set_precharging_state 1 w))); [reflexivity |].
  apply precharge_pulse_pins. now break_if.
Qed.

Lemma uvp_recovery_pins w :
  pins_settled w -> pins_settled (fst (uvp_recovery cfg w)).
Proof.
  intros H. unfold uvp_recovery.
  pose proof (precharge_loop_pins (Z.to_nat (precharge_timeout w)) w H) as H1.
  destruct (precharge_loop cfg _ w) as [w1 ps]. simpl in *.
  unfold precharge_exit. break_if; [| exact H1].
  apply (pins_settled_gpio
           (Regulator_HI_Z 1 (set_precharge_timeout 0 (set_precharging_state 0 w1))));
    [apply settle_gpio |].
  apply Regulator_HI_Z_settles. apply H1.
Qed.

Lemma before_recovery_eq w :
  before_control cfg w
  = if ATTEMPT_UVP_RECOVERY cfg
    then fst (uvp_recovery cfg (before_recovery cfg w))
    else before_recovery cfg w.
Proof. reflexivity. Qed.

Lemma before_recovery_frame w :
  gpio (before_recovery cfg w) = gpio w
  /\ driver_quiet w (before_recovery cfg w).
Proof.
  unfold before_recovery.
  set (w1 := if negb (Read_Charge_Okay w =? 1) then _ else _).
  assert (H1 : gpio w1 = gpio w /\ driver_quiet w w1).
  { subst w1. destruct (negb _); [now repeat split |].
    destruct (has_error _ w); now repeat split. }
  set (w2 := if has_error REGULATOR_COMMUNICATION_ERROR w1 then _ else _).
  assert (H2 : gpio w2 = gpio w1 /\ driver_quiet w1 w2).
  { subst w2. destruct (has_error _ w1); now repeat split. }
  destruct H1 as [G1 Q1], H2 as [G2 Q2]. split.
  - rewrite Regulator_Read_ADC_gpio, Read_Charge_Status_gpio. congruence.
  - eapply driver_quiet_trans; [exact Q1 |].
    eapply driver_quiet_trans; [exact Q2 |].
    eapply driver_quiet_trans; [apply Read_Charge_Status_quiet |].
    apply Regulator_Read_ADC_quiet.
Qed.

Lemma before_control_pins w :
  pins_settled w -> pins_settled (before_control cfg w).
Proof.
  intros H. rewrite before_recovery_eq.
  assert (H1 : pins_settled (before_recovery cfg w))
    by (apply (pins_settled_gpio w); [apply before_recovery_frame | exact H]).
  destruct (ATTEMPT_UVP_RECOVERY cfg); [now apply uvp_recovery_pins | exact H1].
Qed.

Lemma enable_output_pins w :
  gpio w EN_OTG = GPIO_PIN_RESET -> pins_settled (enable_output cfg w).
Proof.
  intros H. unfold enable_output. cbv zeta. apply Regulator_HI_Z_settles.
  now rewrite Set_Charge_Current_gpio, Set_Charge_Voltage_gpio.
Qed.

Lemma disconnect_probe_pins w :
  pins_settled w -> pins_settled (disconnect_probe cfg w).
Proof.
  intros H. unfold disconnect_probe. cbv zeta. break_if; [| exact H].
  apply Regulator_HI_Z_settles. cbn [vTaskDelay log gpio].
  apply (Regulator_HI_Z_settles 1). apply H.
Qed.

Lemma charge_termination_pins w :
  pins_settled w -> pins_settled (charge_termination cfg w).
Proof.
  intros H. unfold charge_termination. cbv zeta.
  destruct (termination_condition cfg w); [| exact H].
  set (w1 := set_termination_counter _ w).
  destruct (3 <? termination_counter w1); [| exact H].
  apply (pins_settled_gpio (Regulator_HI_Z 1 w1)); [reflexivity |].
  apply Regulator_HI_Z_settles. apply H.
Qed.

Lemma Control_Charger_Output_pins w :
  gpio w EN_OTG = GPIO_PIN_RESET -> pins_settled (Control_Charger_Output cfg w).
Proof.
  intros H. unfold Control_Charger_Output. break_if.
  - now apply charge_termination_pins, disconnect_probe_pins, enable_output_pins.
  - apply (pins_settled_gpio (Regulator_HI_Z 1 w)).
    + now rewrite Set_Charge_Current_gpio, Set_Charge_Voltage_gpio.
    + now apply Regulator_HI_Z_settles.
Qed.

Lemma vRegulator_iteration_pins w :
  pins_settled w -> pins_settled (vRegulator_iteration cfg w).
Proof.
  intros H. unfold vRegulator_iteration. cbv zeta.
  apply (pins_settled_gpio (charger_dispatch cfg (before_control cfg w)));
    [reflexivity |].
  rewrite charger_dispatch_eq. apply Control_Charger_Output_pins.
  apply before_control_pins, H.
Qed.

Lemma pins_settled_owned w w' :
  regulator_owned w' = regulator_owned w -> pins_settled w -> pins_settled w'.
Proof.
  unfold regulator_owned, pins_settled, fan_follows_output.
  intros E [H1 H2]. injection E as _ _ _ _ _ E1 E2 E3.
  rewrite E1, E2, E3. now split.
Qed.

Variable ids : DriverIds.

Lemma vRegulator_init_pins w : pins_settled (vRegulator_init cfg ids w).
Proof.
  destruct (vRegulator_init_frame cfg ids w) as (G1 & G2 & G3 & _).
  cbv zeta in G1, G2, G3. split; [| exact G3].
  unfold fan_follows_output. now rewrite G1, G2.
Qed.

End Pins.

(** ** Passes of the task loop *)

Section Passes.

Variable cfg : Config.
Variable ids : DriverIds.

(** Whenever the regulator task starts a pass of its loop, whatever the
    other tasks did in between, the fan-enable line is the complement
    of the high-impedance line (the fan runs exactly when the output is
    enabled) and OTG is disabled. *)
Theorem fan_follows_output_always w0 n w :
  at_pass cfg ids w0 n w ->
  gpio w FAN_ENn = negb (gpio w ILIM_HIZ) /\ gpio w EN_OTG = GPIO_PIN_RESET.
Proof.
  intros H. change (pins_settled w). induction H as [w E | n w w' _ IH E].
  - apply (pins_settled_owned _ _ E), vRegulator_init_pins.
  - apply (pins_settled_owned _ _ E), vRegulator_iteration_pins, IH.
Qed.

Lemma charge_termination_recovery w :
  precharge_timeout (charge_termination cfg w) = precharge_timeout w
  /\ precharging_state (charge_termination cfg w) = precharging_state w.
Proof.
  unfold charge_termination. cbv zeta.
  destruct (termination_condition cfg w); [| now split].
  set (w1 := set_termination_counter _ w).
  destruct (3 <? termination_counter w1); now split.
Qed.

Lemma Control_Charger_Output_recovery w :
  precharge_timeout (Control_Charger_Output cfg w) = precharge_timeout w
  /\ precharging_state (Control_Charger_Output cfg w) = precharging_state w.
Proof.
  unfold Control_Charger_Output. break_if.
  - destruct (enabled_output_state cfg w) as (Q & _).
    destruct (charge_termination_recovery (disconnect_probe cfg (enable_output cfg w)))
      as [A B].
    destruct Q as (_ & _ & Q3 & _ & Q5 & _). split; congruence.
  - pose proof (Regulator_HI_Z_quiet 1 w) as H1.
    pose proof (Set_Charge_Voltage_quiet cfg 0 (Regulator_HI_Z 1 w)) as H2.
    pose proof (Set_Charge_Current_quiet cfg 0
                  (Set_Charge_Voltage cfg 0 (Regulator_HI_Z 1 w))) as H3.
    destruct (driver_quiet_trans _ _ _ H1 (driver_quiet_trans _ _ _ H2 H3))
      as (_ & _ & Q3 & _ & Q5 & _).
    now split.
Qed.

(** The recovery block leaves its counter at 0, and the precharge flag
    down unless it did not run at all. *)
Lemma uvp_recovery_over w :
  0 <= precharge_timeout w < 2 ^ 16 ->
  let w' := fst (uvp_recovery cfg w) in
  precharge_timeout w' = 0
  /\ (1 <= precharge_timeout w \/ precharging_state w = 0 ->
      precharging_state w' = 0).
Proof.
  intros Hr. cbv zeta. unfold uvp_recovery.
  pose proof (precharge_loop_spec cfg (Z.to_nat (precharge_timeout w)) w Hr
                (Nat.le_refl _)) as H.
  cbv zeta in H.
  destruct (precharge_loop cfg (Z.to_nat (precharge_timeout w)) w) as [wl ps].
  cbn [fst snd] in *. destruct H as (H1 & H2 & _ & _ & H5 & _).
  unfold precharge_exit.
  destruct (Z.eqb_spec (precharge_timeout wl) 0) as [E0 | E0]; cbn [negb].
  - split; [exact E0 |]. intros [Hp | Hp]; [specialize (H2 Hp); lia |].
    assert (ps = []).
    { destruct ps as [| p ps]; [reflexivity |]. exfalso.
      cbn [length] in H1. lia. }
    now rewrite (H5 H).
  - set (w1 := Regulator_HI_Z 1
                 (set_precharge_timeout 0 (set_precharging_state 0 wl))).
    destruct (settle_quiet cfg 4 w1) as (_ & _ & Q3 & _ & Q5 & _).
    split; [now rewrite Q5 | intros _; now rewrite Q3].
Qed.

Lemma vRegulator_iteration_recovery w :
  ATTEMPT_UVP_RECOVERY cfg = true ->
  0 <= precharge_timeout w < 2 ^ 16 ->
  1 <= precharge_timeout w \/ precharging_state w = 0 ->
  recovery_over (vRegulator_iteration cfg w).
Proof.
  intros Ha Hr Hs. unfold recovery_over, vRegulator_iteration. cbv zeta.
  cbn [vTaskDelay log precharge_timeout precharging_state].
  rewrite charger_dispatch_eq.
  destruct (Control_Charger_Output_recovery (before_control cfg w)) as [-> ->].
  rewrite before_recovery_eq, Ha.
  destruct (before_recovery_frame cfg w) as (_ & Q).
  destruct Q as (_ & _ & Q3 & _ & Q5 & _).
  destruct (uvp_recovery_over (before_recovery cfg w)) as [A B];
    [rewrite Q5; exact Hr |].
  cbv zeta in A, B. split; [exact A |]. apply B. rewrite Q5, Q3. exact Hs.
Qed.

Lemma recovery_over_owned w w' :
  regulator_owned w' = regulator_owned w -> recovery_over w -> recovery_over w'.
Proof.
  unfold regulator_owned, recovery_over.
  intros E [H1 H2]. injection E as _ E1 _ E2 _ _ _ _. split; congruence.
Qed.

(** The UVP recovery belongs to the first pass: with the recovery
    compiled in and the task started with a counter of at least 1 (it
    is 300 at boot), the counter and the precharge flag are 0 whenever
    a later pass starts, and in every later pass the recovery block
    does nothing: no precharge pulse, no settle tick. *)
Theorem uvp_recovery_first_pass_only w0 n w :
  ATTEMPT_UVP_RECOVERY cfg = true ->
  1 <= precharge_timeout w0 < 2 ^ 16 ->
  at_pass cfg ids w0 (S n) w ->
  precharge_timeout w = 0
  /\ Get_Precharge_State w = 0
  /\ uvp_recovery cfg (before_recovery cfg w) = (before_recovery cfg w, [])
  /\ before_control cfg w = before_recovery cfg w.
Proof.
  intros Ha H0 H.
  assert (Hover : recovery_over w).
  { remember (S n) as k eqn:Ek. revert n Ek.
    induction H as [w E | m w w' Hp IH E]; intros n Ek; [discriminate |].
    apply (recovery_over_owned _ _ E).
    destruct Hp as [w E0 | m w1 w Hp1 E1].
    - destruct (vRegulator_init_frame cfg ids w0) as (_ & _ & _ & Q).
      destruct Q as (_ & _ & Q3 & _ & Q5 & _).
      assert (Et : precharge_timeout w = precharge_timeout w0).
      { unfold regulator_owned in E0. injection E0 as _ _ _ E0 _ _ _ _. congruence. }
      apply vRegulator_iteration_recovery; [exact Ha | lia | left; lia].
    - assert (Ho : recovery_over w) by (apply (IH m); reflexivity).
      destruct Ho as [T P].
      apply vRegulator_iteration_recovery; [exact Ha | lia | now right]. }
  destruct Hover as [T P].
  destruct (before_recovery_frame cfg w) as (_ & Q).
  destruct Q as (_ & _ & _ & _ & Q5 & _).
  assert (U : uvp_recovery cfg (before_recovery cfg w) = (before_recovery cfg w, []))
    by (apply uvp_recovery_once; congruence).
  split; [exact T | split; [exact P | split; [exact U |]]].
  now rewrite before_recovery_eq, Ha, U.
Qed.

End Passes.

(** ** From the monitor to the output *)

Section EndToEnd.

Variable cfg : Config.

(** The checks of the monitor, as the balancing step finds their
    results. *)
Lemma before_balancing_detects w :
  let w1 := before_balancing cfg w in
  let n := number_of_cells (battery_state w1) in
  (MAX_MCU_TEMP_C_FOR_OPERATION cfg < Get_MCU_Temperature w ->
   error_state w1 MCU_OVER_TEMP = true)
  /\ (ENABLE_BALANCING cfg = true ->
      forall i, 0 <= i < n ->
        (Get_Cell_Voltage i w < MIN_CELL_VOLTAGE_SAFE_LIMIT cfg ->
         error_state w1 CELL_VOLTAGE_ERROR = true)
        /\ (CELL_OVER_VOLTAGE_DISABLE_CHARGING cfg < Get_Cell_Voltage i w ->
            cell_over_voltage (battery_state w1) = 1)).
Proof.
  cbv zeta. unfold before_balancing.
  set (w1 := if _ <? Get_Battery_Voltage w then _ else _).
  assert (A1 : adc w1 = adc w) by (subst w1; now break_if).
  set (w2 := if ENABLE_BALANCING cfg then Balance_Connection_State cfg w1 else _).
  assert (A2 : adc w2 = adc w1).
  { subst w2. destruct (ENABLE_BALANCING cfg); [| reflexivity].
    apply Balance_Connection_State_xt60. }
  destruct (MCU_Temperature_Safety_Check_side cfg w2) as (R3 & _ & B3 & _).
  set (w3 := MCU_Temperature_Safety_Check cfg w2) in *.
  assert (A3 : adc w3 = adc w) by (unfold regulator_side in R3; congruence).
  assert (T3 : MAX_MCU_TEMP_C_FOR_OPERATION cfg < Get_MCU_Temperature w ->
               error_state w3 MCU_OVER_TEMP = true).
  { intros HT. subst w3. unfold MCU_Temperature_Safety_Check.
    replace (Get_MCU_Temperature w2) with (Get_MCU_Temperature w)
      by (unfold Get_MCU_Temperature; congruence).
    apply Z.ltb_lt in HT. rewrite HT. reflexivity. }
  destruct (ENABLE_BALANCING cfg); [| split; [exact T3 | discriminate]].
  destruct (Cell_Voltage_Safety_Check_side cfg w3) as (_ & _ & _ & F4).
  destruct (Cell_Voltage_Safety_Check_pack cfg w3) as (_ & _ & N4 & _).
  cbv zeta in N4. rewrite N4.
  split; [intros HT; rewrite F4 by discriminate; now apply T3 |].
  intros _ i Hi.
  unfold Cell_Voltage_Safety_Check.
  destruct (safety_fold cfg w3 (for_range 0 (number_of_cells (battery_state w3)))
              0 0 (or_introl eq_refl) (or_introl eq_refl)) as ((_ & O) & (_ & U)).
  destruct (fold_left _ _ _) as [o u]. cbn [fst snd] in *.
  assert (Hin : In i (for_range 0 (number_of_cells (battery_state w3))))
    by (apply in_for_range; lia).
  assert (Ev : Get_Cell_Voltage i w3 = Get_Cell_Voltage i w)
    by (unfold Get_Cell_Voltage; now rewrite A3).
  split.
  - intros Hv. assert (Hu : u = 1).
    { apply U. right. exists i. split; [exact Hin | now rewrite Ev]. }
    rewrite Hu. reflexivity.
  - intros Hv. assert (Ho : o = 1).
    { apply O. right. exists i. split; [exact Hin | now rewrite Ev]. }
    rewrite Ho. now destruct (u =? 1).
Qed.

(** A pass of the regulator task that finds the output gate closed
    ends with the output disabled. *)
Lemma blocked_pass_disabled w :
  0 <= MAX_CHARGE_CURRENT_MA cfg ->
  output_blocked cfg (before_control cfg w) ->
  let w' := vRegulator_iteration cfg w in
  gpio w' ILIM_HIZ = GPIO_PIN_RESET
  /\ Get_Max_Charge_Current w' = 0
  /\ trace w' = EvDelay (250 / portTICK_PERIOD_MS cfg)
                :: disable_commands cfg ++ trace (before_control cfg w).
Proof.
  intros Hmax Hb w'. subst w'. unfold vRegulator_iteration.
  rewrite charger_dispatch_eq.
  rewrite (Control_Charger_Output_blocked cfg _ Hb).
  destruct (disabled_state cfg Hmax (before_control cfg w)) as (H1 & H2 & H3).
  cbv zeta. cbn [vTaskDelay log gpio trace]. unfold Get_Max_Charge_Current in *.
  cbn [regulator]. rewrite H3. repeat split; assumption.
Qed.

(** From the monitor to the output: when an iteration of the battery
    monitor sees the controller above its operating temperature, or
    (with balancing compiled in) a counted cell below the safe limit or
    above the voltage that disables charging, the next pass of the
    regulator task ends with high impedance on and a charge current of
    0, whatever state the regulator task itself is in. *)
Theorem unsafe_pack_disables_output w w2 :
  0 <= MAX_CHARGE_CURRENT_MA cfg ->
  let w1 := Battery_Connection_State cfg w in
  pack_unsafe cfg w (number_of_cells (battery_state w1)) ->
  monitor_side w2 = monitor_side w1 ->
  let w' := vRegulator_iteration cfg w2 in
  gpio w' ILIM_HIZ = GPIO_PIN_RESET
  /\ Get_Max_Charge_Current w' = 0
  /\ trace w' = EvDelay (250 / portTICK_PERIOD_MS cfg)
                :: disable_commands cfg ++ trace (before_control cfg w2).
Proof.
  intros Hmax w1 Hu Hm.
  apply blocked_pass_disabled; [exact Hmax |].
  destruct (before_balancing_detects w) as [DT DC]. cbv zeta in DT, DC.
  destruct (balancing_step_pack cfg (before_balancing cfg w)) as [O _].
  assert (Eb : forall v, battery_state (update_requires_charging cfg v)
                         = set_requires_charging
                             (requires_charging
                                (battery_state (update_requires_charging cfg v)))
                             (battery_state v)).
  { intros v. unfold update_requires_charging. repeat break_if; reflexivity. }
  assert (En : number_of_cells (battery_state w1)
               = number_of_cells (battery_state (before_balancing cfg w))).
  { subst w1. unfold Battery_Connection_State. rewrite Eb. simpl.
    unfold outside_balancing in O. congruence. }
  assert (Eo : cell_over_voltage (battery_state w1)
               = cell_over_voltage (battery_state (before_balancing cfg w))).
  { subst w1. unfold Battery_Connection_State. rewrite Eb. simpl.
    unfold outside_balancing in O. congruence. }
  assert (Ef : error_state w1 = error_state (before_balancing cfg w))
    by apply after_checks_faults.
  pose proof (before_control_monitor cfg w2) as Hc.
  unfold monitor_side in Hm, Hc.
  assert (Fault : forall f, error_state w1 f = true ->
                  f = CELL_CONNECTION_ERROR \/ f = CELL_VOLTAGE_ERROR
                  \/ f = MCU_OVER_TEMP ->
                  output_blocked cfg (before_control cfg w2)).
  { intros f Hf Hk. right; right; left. exists f.
    destruct Hk as [-> | [-> | ->]]; congruence. }
  rewrite En in Hu. destruct Hu as [HT | (Hen & i & Hi & [Hv | Hv])].
  - apply (Fault MCU_OVER_TEMP); [| tauto]. rewrite Ef. now apply DT.
  - apply (Fault CELL_VOLTAGE_ERROR); [| tauto]. rewrite Ef.
    now apply (DC Hen i Hi).
  - right; right; right; right. unfold Get_Cell_Over_Voltage_State.
    replace (battery_state (before_control cfg w2)) with (battery_state w1)
      by congruence.
    rewrite Eo, (proj2 (DC Hen i Hi) Hv). discriminate.
Qed.

End EndToEnd.

(** ** Precharge *)

Lemma trace_extends_refl w : trace_extends w w.
Proof. now exists []. Qed.

Lemma trace_extends_trans w1 w2 w3 :
  trace_extends w1 w2 -> trace_extends w2 w3 -> trace_extends w1 w3.
Proof.
  intros (e1 & H1) (e2 & H2). exists (e2 ++ e1). now rewrite H2, H1, app_assoc.
Qed.

Lemma trace_extends_in ev w w' :
  trace_extends w w' -> In ev (trace w) -> In ev (trace w').
Proof. intros (evs & ->) H. apply in_or_app. now right. Qed.

Section Precharge.

Variable cfg : Config.

Lemma precharge_tick_trace w :
  let w' := vTaskDelay (250 / portTICK_PERIOD_MS cfg)
              (Regulator_Read_ADC cfg
                 (Read_Charge_Status cfg
                    (Regulator_HI_Z 0
                       (Set_Charge_Current cfg (UVP_RECOVERY_CURRENT_MA cfg)
                          (Set_Charge_Voltage cfg (u8 (NUM_SERIES cfg)) w))))) in
  trace_extends w w' /\ In (EvGpioWrite ILIM_HIZ GPIO_PIN_SET) (trace w').
Proof.
  cbv zeta. unfold trace_extends. cbn [vTaskDelay log trace].
  set (w1 := Set_Charge_Current cfg _ (Set_Charge_Voltage cfg _ w)).
  assert (T1 : exists evs, trace w1 = evs ++ trace w).
  { subst w1. eexists. rewrite Set_Charge_Current_trace, Set_Charge_Voltage_trace.
    rewrite app_comm_cons. reflexivity. }
  destruct (Regulator_HI_Z_off 0 w1 ltac:(discriminate)) as (_ & _ & T2).
  set (w2 := Regulator_HI_Z 0 w1) in *.
  destruct (Regulator_Read_ADC_trace cfg (Read_Charge_Status cfg w2)) as [p T4].
  rewrite T4, Read_Charge_Status_trace, T2. split.
  - destruct T1 as [evs T1]. eexists. rewrite T1.
    rewrite !app_comm_cons, app_assoc. reflexivity.
  - simpl. tauto.
Qed.

Lemma precharge_pulse_trace ticks w :
  trace_extends w (precharge_pulse cfg ticks w)
  /\ ((0 < ticks)%nat ->
      In (EvGpioWrite ILIM_HIZ GPIO_PIN_SET) (trace (precharge_pulse cfg ticks w))).
Proof.
  revert w. induction ticks as [| k IH]; intros w.
  - split; [apply trace_extends_refl | intros H; inversion H].
  - cbn [precharge_pulse]. cbv zeta.
    destruct (precharge_tick_trace w) as [E I]. cbv zeta in E, I.
    set (w1 := vTaskDelay _ _) in *.
    destruct (IH w1) as [E1 _]. split.
    + eapply trace_extends_trans; eassumption.
    + intros _. eapply trace_extends_in; eassumption.
Qed.

Lemma precharge_attempt_trace w :
  trace_extends w (precharge_attempt cfg w)
  /\ In (EvGpioWrite ILIM_HIZ GPIO_PIN_SET) (trace (precharge_attempt cfg w)).
Proof.
  unfold precharge_attempt. cbv zeta.
  set (w1 := if negb (initial_precharge_wakeup (set_precharging_state 1 w) =? 0)
             then _ else _).
  assert (E1 : trace w1 = trace w) by (subst w1; now break_if).
  destruct (precharge_pulse_trace (pulse_ticks w) w1) as [E I].
  assert (Et : forall t v, trace (set_precharge_timeout t v) = trace v)
    by reflexivity.
  unfold trace_extends. rewrite Et. split.
  - destruct E as [evs E]. exists evs. now rewrite E, E1.
  - apply I. unfold pulse_ticks. break_if; lia.
Qed.

Lemma precharge_loop_trace fuel w :
  trace_extends w (fst (precharge_loop cfg fuel w)).
Proof.
  revert w. induction fuel as [| k IH]; intros w; cbn [precharge_loop];
    [apply trace_extends_refl |].
  break_if; [| apply trace_extends_refl].
  specialize (IH (precharge_attempt cfg w)).
  destruct (precharge_loop cfg k (precharge_attempt cfg w)) as [w' ps].
  cbn [fst] in *. eapply trace_extends_trans; [| exact IH].
  apply precharge_attempt_trace.
Qed.

Lemma precharge_exit_trace w : trace_extends w (precharge_exit cfg w).
Proof.
  unfold precharge_exit. break_if; [| apply trace_extends_refl]. cbv zeta.
  destruct (settle_trace cfg 4
              (Regulator_HI_Z 1 (set_precharge_timeout 0 (set_precharging_state 0 w))))
    as (ps & _ & T).
  destruct (Regulator_HI_Z_on (set_precharge_timeout 0 (set_precharging_state 0 w)))
    as (_ & _ & Tz).
  eexists. rewrite T, Tz.
  change (trace (set_precharge_timeout 0 (set_precharging_state 0 w)))
    with (trace w).
  rewrite app_assoc. reflexivity.
Qed.

(** The UVP recovery does not look at the fault registry: in the pass
    in which the recovery is still armed (a counter above 1) and the
    regulator reports a battery voltage under the recovery threshold,
    the output is switched on for a precharge pulse, whatever faults
    are set. *)
Theorem precharge_ignores_faults w :
  ATTEMPT_UVP_RECOVERY cfg = true ->
  1 < precharge_timeout w < 2 ^ 16 ->
  vbat_needs_precharge cfg (before_recovery cfg w) = true ->
  In (EvGpioWrite ILIM_HIZ GPIO_PIN_SET) (trace (before_control cfg w))
  /\ snd (uvp_recovery cfg (before_recovery cfg w)) <> [].
Proof.
  intros Ha Ht Hv. rewrite before_recovery_eq, Ha.
  destruct (before_recovery_frame cfg w) as (_ & Q).
  destruct Q as (_ & _ & _ & _ & Q5 & _).
  set (v := before_recovery cfg w) in *.
  unfold uvp_recovery.
  destruct (Z.to_nat (precharge_timeout v)) as [| k] eqn:Ek; [lia |].
  cbn [precharge_loop].
  replace (1 <? precharge_timeout v) with true
    by (symmetry; apply Z.ltb_lt; lia).
  rewrite Hv. cbn [andb].
  pose proof (precharge_loop_trace k (precharge_attempt cfg v)) as E.
  destruct (precharge_loop cfg k (precharge_attempt cfg v)) as [wl ps].
  cbn [fst snd] in *. split; [| discriminate].
  eapply trace_extends_in; [apply precharge_exit_trace |].
  eapply trace_extends_in; [exact E |]. apply precharge_attempt_trace.
Qed.

End Precharge.

(** ** Faults and the termination count across passes *)

Section PassFlags.

Variable cfg : Config.

Lemma bus_operation_flags ev w :
  pass_flags (snd (bus_operation ev w)) = pass_flags w.
Proof.
  unfold bus_operation, next_reply.
  destruct (bus w) as [| r rest]; simpl; [reflexivity |].
  now destruct (comm_fault r).
Qed.

Lemma Regulator_HI_Z_flags h w : pass_flags (Regulator_HI_Z h w) = pass_flags w.
Proof. unfold Regulator_HI_Z. now break_if. Qed.

Lemma vTaskDelay_flags t w : pass_flags (vTaskDelay t w) = pass_flags w.
Proof. reflexivity. Qed.

Lemma Set_Charge_Voltage_flags n w :
  pass_flags (Set_Charge_Voltage cfg n w) = pass_flags w.
Proof.
  unfold Set_Charge_Voltage. destruct (charge_voltage_registers cfg n) as [[r1 r2] ms].
  unfold I2C_Write_Register, I2C_Write_Two_Byte_Register.
  now rewrite !bus_operation_flags.
Qed.

Lemma set_max_current_flags x v :
  pass_flags (upd_regulator (set_max_charge_current_ma x) v) = pass_flags v.
Proof. reflexivity. Qed.

Lemma Set_Charge_Current_flags x w :
  pass_flags (Set_Charge_Current cfg x w) = pass_flags w.
Proof.
  unfold Set_Charge_Current. cbv zeta.
  destruct (charge_current_registers _) as [r1 r2].
  unfold I2C_Write_Two_Byte_Register.
  now rewrite bus_operation_flags, set_max_current_flags.
Qed.

Lemma set_charging_status_flags x v :
  pass_flags (upd_regulator (set_charging_status x) v) = pass_flags v.
Proof. reflexivity. Qed.

Lemma Read_Charge_Status_flags w :
  pass_flags (Read_Charge_Status cfg w) = pass_flags w.
Proof.
  unfold Read_Charge_Status.
  pose proof (bus_operation_flags EvChargeStatusRead w) as H.
  destruct (bus_operation EvChargeStatusRead w) as [r w1]. cbn [snd] in H.
  destruct (negb _); now rewrite set_charging_status_flags.
Qed.

Lemma Regulator_Read_ADC_flags w :
  pass_flags (Regulator_Read_ADC cfg w) = pass_flags w.
Proof.
  unfold Regulator_Read_ADC, next_reply.
  destruct (bus w) as [| r rest]; simpl; [reflexivity |].
  now destruct (comm_fault r).
Qed.

Lemma precharge_tick_flags w : pass_flags (precharge_tick cfg w) = pass_flags w.
Proof.
  unfold precharge_tick.
  now rewrite vTaskDelay_flags, Regulator_Read_ADC_flags, Read_Charge_Status_flags,
    Regulator_HI_Z_flags, Set_Charge_Current_flags, Set_Charge_Voltage_flags.
Qed.

Lemma precharge_pulse_flags ticks w :
  pass_flags (precharge_pulse cfg ticks w) = pass_flags w.
Proof.
  revert w. induction ticks as [| k IH]; intros w; [reflexivity |].
  now rewrite precharge_pulse_S, IH, precharge_tick_flags.
Qed.

Lemma precharge_attempt_flags w :
  pass_flags (precharge_attempt cfg w) = pass_flags w.
Proof.
  unfold precharge_attempt. cbv zeta.
  set (w1 := if negb (initial_precharge_wakeup (set_precharging_state 1 w) =? 0)
             then _ else _).
  assert (H1 : pass_flags w1 = pass_flags w) by (subst w1; now break_if).
  assert (H2 : forall t v, pass_flags (set_precharge_timeout t v) = pass_flags v)
    by reflexivity.
  now rewrite H2, precharge_pulse_flags.
Qed.

Lemma precharge_loop_flags fuel w :
  pass_flags (fst (precharge_loop cfg fuel w)) = pass_flags w.
Proof.
  revert w. induction fuel as [| k IH]; intros w; cbn [precharge_loop];
    [reflexivity |].
  break_if; [| reflexivity].
  specialize (IH (precharge_attempt cfg w)).
  destruct (precharge_loop cfg k (precharge_attempt cfg w)) as [w' ps].
  cbn [fst] in *. now rewrite IH, precharge_attempt_flags.
Qed.

Lemma settle_flags ticks w : pass_flags (settle cfg ticks w) = pass_flags w.
Proof.
  revert w. induction ticks as [| k IH]; intros w; cbn [settle]; [reflexivity |].
  cbv zeta.
  now rewrite IH, Regulator_Read_ADC_flags, Read_Charge_Status_flags, vTaskDelay_flags.
Qed.

Lemma uvp_recovery_flags w :
  pass_flags (fst (uvp_recovery cfg w)) = pass_flags w.
Proof.
  unfold uvp_recovery.
  pose proof (precharge_loop_flags (Z.to_nat (precharge_timeout w)) w) as H.
  destruct (precharge_loop cfg _ w) as [w1 ps]. cbn [fst] in *.
  unfold precharge_exit. break_if; [| exact H]. cbv zeta.
  rewrite settle_flags, Regulator_HI_Z_flags. exact H.
Qed.

Lemma Control_Charger_Output_flags w :
  pass_flags (Control_Charger_Output cfg w) = pass_flags w.
Proof.
  unfold Control_Charger_Output. break_if.
  - assert (H1 : pass_flags (enable_output cfg w) = pass_flags w).
    { unfold enable_output. cbv zeta.
      now rewrite Regulator_HI_Z_flags, Set_Charge_Current_flags,
        Set_Charge_Voltage_flags. }
    assert (H2 : forall v, pass_flags (disconnect_probe cfg v) = pass_flags v).
    { intros v. unfold disconnect_probe. cbv zeta. break_if; [| reflexivity].
      now rewrite Regulator_HI_Z_flags, vTaskDelay_flags, Regulator_HI_Z_flags. }
    assert (H3 : forall v, pass_flags (charge_termination cfg v) = pass_flags v).
    { intros v. unfold charge_termination. cbv zeta.
      destruct (termination_condition cfg v); [| reflexivity].
      set (v1 := set_termination_counter _ v).
      destruct (3 <? termination_counter v1); [| reflexivity].
      now rewrite vTaskDelay_flags, Regulator_HI_Z_flags. }
    now rewrite H3, H2, H1.
  - now rewrite Set_Charge_Current_flags, Set_Charge_Voltage_flags,
      Regulator_HI_Z_flags.
Qed.

(** The flags after a pass are the ones that the first two steps of the
    pass settle. *)
Lemma vRegulator_iteration_flags w :
  pass_flags (vRegulator_iteration cfg w)
  = ((if (negb (Read_Charge_Okay w =? 1) && false)
         || has_error REGULATOR_COMMUNICATION_ERROR w
      then 0 else connected (regulator w)),
     negb (Read_Charge_Okay w =? 1)).
Proof.
  unfold vRegulator_iteration. cbv zeta.
  rewrite vTaskDelay_flags, charger_dispatch_eq, Control_Charger_Output_flags.
  rewrite before_recovery_eq.
  assert (H : pass_flags (before_recovery cfg w)
              = ((if has_error REGULATOR_COMMUNICATION_ERROR w
                  then 0 else connected (regulator w)),
                 negb (Read_Charge_Okay w =? 1))).
  { unfold before_recovery. cbv zeta.
    rewrite Regulator_Read_ADC_flags, Read_Charge_Status_flags.
    unfold has_error.
    destruct (Read_Charge_Okay w =? 1); cbn [negb].
    - destruct (error_state w VOLTAGE_INPUT_ERROR) eqn:Ev;
        destruct (error_state w REGULATOR_COMMUNICATION_ERROR) eqn:Ec;
        unfold pass_flags; cbn; rewrite ?Ec; cbn; rewrite ?Ev; reflexivity.
    - destruct (error_state w REGULATOR_COMMUNICATION_ERROR) eqn:Ec;
        unfold pass_flags; cbn; rewrite ?Ec; reflexivity. }
  rewrite andb_false_r. cbn [orb].
  destruct (ATTEMPT_UVP_RECOVERY cfg); [rewrite uvp_recovery_flags |]; exact H.
Qed.

(** The input-voltage fault is not a latch: after every pass of the
    regulator task it is set exactly when the pass found the charge-okay
    line not high. *)
Theorem input_fault_follows_pin w :
  has_error VOLTAGE_INPUT_ERROR (vRegulator_iteration cfg w)
  = negb (Read_Charge_Okay w =? 1).
Proof.
  pose proof (vRegulator_iteration_flags w) as H. unfold pass_flags in H.
  unfold has_error. congruence.
Qed.

Lemma Control_Charger_Output_keeps w :
  faults_kept w (Control_Charger_Output cfg w).
Proof.
  unfold Control_Charger_Output. break_if.
  - assert (H1 : faults_kept w (enable_output cfg w)).
    { unfold enable_output. cbv zeta.
      eapply faults_kept_trans; [apply Set_Charge_Voltage_keeps |].
      eapply faults_kept_trans; [apply Set_Charge_Current_keeps |].
      apply Regulator_HI_Z_keeps. }
    assert (H2 : forall v, faults_kept v (disconnect_probe cfg v)).
    { intros v. unfold disconnect_probe. cbv zeta.
      break_if; [| apply faults_kept_refl].
      eapply faults_kept_trans; [apply Regulator_HI_Z_keeps |].
      eapply faults_kept_trans; [apply vTaskDelay_keeps |].
      apply Regulator_HI_Z_keeps. }
    assert (H3 : forall v, faults_kept v (charge_termination cfg v)).
    { intros v. unfold charge_termination. cbv zeta.
      destruct (termination_condition cfg v); [| intros f Hf; exact Hf].
      set (v1 := set_termination_counter _ v).
      destruct (3 <? termination_counter v1); [| intros f Hf; exact Hf].
      intros f Hf. apply vTaskDelay_keeps, Regulator_HI_Z_keeps. exact Hf. }
    eapply faults_kept_trans; [exact H1 |].
    eapply faults_kept_trans; [apply H2 | apply H3].
  - eapply faults_kept_trans; [apply Regulator_HI_Z_keeps |].
    eapply faults_kept_trans; [apply Set_Charge_Voltage_keeps |].
    apply Set_Charge_Current_keeps.
Qed.

(** A communication fault is never cleared in the task loop: a pass
    that starts with the fault set ends with it set, with the regulator
    marked as not connected and with the output disabled. *)
Theorem communication_fault_latches w :
  0 <= MAX_CHARGE_CURRENT_MA cfg ->
  has_error REGULATOR_COMMUNICATION_ERROR w = true ->
  let w' := vRegulator_iteration cfg w in
  has_error REGULATOR_COMMUNICATION_ERROR w' = true
  /\ Get_Regulator_Connection_State w' = 0
  /\ gpio w' ILIM_HIZ = GPIO_PIN_RESET
  /\ Get_Max_Charge_Current w' = 0.
Proof.
  intros Hmax Hf w'.
  assert (Hb : error_state (before_control cfg w) REGULATOR_COMMUNICATION_ERROR = true)
    by (apply before_control_faults; [exact Hf | discriminate]).
  assert (Hblocked : output_blocked cfg (before_control cfg w)).
  { right; right; left. now exists REGULATOR_COMMUNICATION_ERROR. }
  destruct (blocked_pass_disabled cfg w Hmax Hblocked) as (G & C & _).
  fold w' in G, C.
  pose proof (vRegulator_iteration_flags w) as Hfl. fold w' in Hfl.
  unfold pass_flags in Hfl. rewrite Hf, orb_true_r in Hfl.
  split; [| split; [| split; [exact G | exact C]]].
  - subst w'. unfold vRegulator_iteration, has_error. cbv zeta.
    rewrite charger_dispatch_eq.
    apply vTaskDelay_keeps, Control_Charger_Output_keeps. exact Hb.
  - unfold Get_Regulator_Connection_State. congruence.
Qed.

End PassFlags.

(** The termination counter is a static that only the enabled branch
    touches: a pass that finds the gate closed keeps the count, so two
    terminating passes before it and two after it force high impedance
    like four in a row. *)
Theorem closed_gate_keeps_count cfg w1 w2 wb w3 w4 :
  terminating_pass cfg w1 -> terminating_pass cfg w2 ->
  output_gate cfg wb = false ->
  terminating_pass cfg w3 -> terminating_pass cfg w4 ->
  termination_counter w2 = termination_counter (Control_Charger_Output cfg w1) ->
  termination_counter wb = termination_counter (Control_Charger_Output cfg w2) ->
  termination_counter w3 = termination_counter (Control_Charger_Output cfg wb) ->
  termination_counter w4 = termination_counter (Control_Charger_Output cfg w3) ->
  0 <= termination_counter w1 <= 65531 ->
  termination_counter (Control_Charger_Output cfg wb) = termination_counter w1 + 2
  /\ gpio (Control_Charger_Output cfg w4) ILIM_HIZ = GPIO_PIN_RESET.
Proof.
  intros [G1 C1] [G2 C2] Gb [G3 C3] [G4 C4] E2 Eb E3 E4 Hc.
  destruct (proj1 (termination_step cfg w1 G1) C1) as (T1 & _).
  destruct (proj1 (termination_step cfg w2 G2) C2) as (T2 & _).
  pose proof (blocked_keeps_counter cfg wb Gb) as Tb.
  destruct (proj1 (termination_step cfg w3 G3) C3) as (T3 & _).
  destruct (proj1 (termination_step cfg w4 G4) C4) as (_ & F4 & _).
  rewrite T1, u16_succ in E2 by lia.
  rewrite T2, E2, u16_succ in Eb by lia.
  rewrite Tb, Eb in E3.
  rewrite T3, E3, u16_succ in E4 by lia.
  split; [lia |].
  apply F4. rewrite E4, u16_succ by lia. lia.
Qed.


(* ================================================================== *)
(** * The further properties on the examples *)

(** The ladder of scenario S4, probed from the initial bitmask: the
    bitmask is the one of the samples, 0b1101. *)
Lemma ladder_probe_samples_witness :
  cell_connected_bitmask (ladder_probe example_config gap_world)
  = ladder_of_samples example_config gap_world
  /\ ladder_of_samples example_config gap_world = 13.
Proof.
  split; [| reflexivity].
  assert (H : 0 <= cell_connected_bitmask gap_world < 256)
    by (vm_compute; split; [discriminate | reflexivity]).
  apply (proj2 (ladder_probe_samples example_config gap_world H)).
  vm_compute. reflexivity.
Defined.

(** Two cells 20 mV apart with the latch open: the first resistor
    follows the decision of the loop, which is not to discharge. *)
Lemma balance_selection_witness :
  gpio (Balance_Battery example_config unbalanced_world) (discharge_pin 0)
  = GPIO_PIN_RESET.
Proof.
  assert (Hg : balancing_gate example_config unbalanced_world = true)
    by reflexivity.
  destruct (balance_selection example_config unbalanced_world Hg) as (H & _ & _).
  rewrite (H 0) by (vm_compute; split; congruence).
  vm_compute. reflexivity.
Defined.

(** The first cell at 4.25 V is discharged although the latch is open. *)
Lemma over_voltage_cell_discharged_witness :
  balancing_enabled (battery_state over_voltage_world) = 0
  /\ gpio (Balance_Battery example_config over_voltage_world) CELL_1S_DIS_EN
     = GPIO_PIN_SET.
Proof.
  split; [reflexivity |].
  apply (over_voltage_cell_discharged example_config over_voltage_world 0).
  - reflexivity.
  - vm_compute. split; [discriminate | reflexivity].
  - lia.
  - vm_compute. discriminate.
Defined.

(** The lower of two cells is not discharged. *)
Lemma lowest_cell_not_bled_witness :
  gpio (Balance_Battery example_config unbalanced_world) CELL_1S_DIS_EN
  = GPIO_PIN_RESET.
Proof.
  apply (lowest_cell_not_bled example_config unbalanced_world 0).
  - reflexivity.
  - vm_compute. discriminate.
  - vm_compute. split; [discriminate | reflexivity].
  - lia.
  - intros j Hj. change (number_of_cells (battery_state unbalanced_world)) with 2 in Hj.
    assert (j = 0 \/ j = 1) as [-> | ->] by lia; vm_compute; discriminate.
  - vm_compute. reflexivity.
Defined.

(** A request of 1500 mA is written as 1472 mA. *)
Lemma charge_current_quantised_witness :
  exists lsb msb,
    trace (Set_Charge_Current example_config 1500 example_world)
    = EvI2cWrite CHARGE_CURRENT_ADDR [lsb; msb] :: trace example_world
    /\ decode_charge_current lsb msb = 1472.
Proof.
  destruct (charge_current_quantised example_config 1500 example_world)
    as (lsb & msb & T & D & _); [lia | vm_compute; discriminate |].
  exists lsb, msb. split; [exact T | exact D].
Defined.

(** With fixed-voltage charging the call for 0 cells writes 16800 mV. *)
Lemma fixed_voltage_ignores_cells_witness :
  exists lsb msb minsys,
    trace (Set_Charge_Voltage fixed_voltage_config 0 example_world)
    = [EvI2cWrite MAX_CHARGE_VOLTAGE_ADDR [lsb; msb];
       EvI2cWrite MINIMUM_SYSTEM_VOLTAGE_ADDR [minsys]] ++ trace example_world
    /\ decode_max_charge_voltage lsb msb = 16800
    /\ decode_minimum_system_voltage minsys = 12288.
Proof.
  destruct (fixed_voltage_ignores_cells fixed_voltage_config 0 example_world
              eq_refl) as (lsb & msb & minsys & T & D & M).
  exists lsb, msb, minsys. split; [exact T | split; [exact D | exact M]].
Defined.

(** At 55 degrees with a 60 W source the power is derated below what
    the source allows. *)
Lemma power_within_source_witness :
  Calculate_Max_Charge_Power example_config (world_at_temperature 55)
  <= input_limited_power example_config (world_at_temperature 55)
  /\ input_limited_power example_config (world_at_temperature 55) <= 60000.
Proof.
  destruct (power_within_source example_config (world_at_temperature 55))
    as [[_ H1] H2].
  - vm_compute. split; [discriminate | reflexivity].
  - vm_compute. split; [discriminate | reflexivity].
  - reflexivity.
  - reflexivity.
  - split; [exact H1 | exact H2].
Defined.

(** After the initialisation and one pass the fan follows the output. *)
Lemma fan_follows_output_always_witness :
  let w := vRegulator_iteration example_config
             (vRegulator_init example_config example_ids example_world) in
  gpio w FAN_ENn = negb (gpio w ILIM_HIZ) /\ gpio w EN_OTG = GPIO_PIN_RESET.
Proof.
  apply (fan_follows_output_always example_config example_ids example_world 1).
  apply (at_next_pass _ _ _ 0
           (vRegulator_init example_config example_ids example_world));
    [apply at_first_pass |]; reflexivity.
Defined.

(** After the initialisation and one pass the recovery is over. *)
Lemma uvp_recovery_first_pass_only_witness :
  let w := vRegulator_iteration example_config
             (vRegulator_init example_config example_ids example_world) in
  precharge_timeout example_world = 300
  /\ precharge_timeout w = 0 /\ Get_Precharge_State w = 0.
Proof.
  split; [reflexivity |].
  destruct (uvp_recovery_first_pass_only example_config example_ids example_world 0
              (vRegulator_iteration example_config
                 (vRegulator_init example_config example_ids example_world)))
    as (H1 & H2 & _).
  - reflexivity.
  - vm_compute. split; [discriminate | reflexivity].
  - apply (at_next_pass _ _ _ 0
             (vRegulator_init example_config example_ids example_world));
      [apply at_first_pass |]; reflexivity.
  - split; [exact H1 | exact H2].
Defined.

(** The controller at 85 degrees: the regulator pass that follows the
    monitor ends with the output disabled. *)
Lemma unsafe_pack_disables_output_witness :
  let w1 := Battery_Connection_State example_config overheated_world in
  let w' := vRegulator_iteration example_config w1 in
  gpio w' ILIM_HIZ = GPIO_PIN_RESET /\ Get_Max_Charge_Current w' = 0.
Proof.
  destruct (unsafe_pack_disables_output example_config overheated_world
              (Battery_Connection_State example_config overheated_world))
    as (H1 & H2 & _).
  - vm_compute. discriminate.
  - left. vm_compute. reflexivity.
  - reflexivity.
  - split; [exact H1 | exact H2].
Defined.

(** Boot with the over-temperature fault set: the first pass still
    switches the output on for the precharge. *)
Lemma precharge_ignores_faults_witness :
  has_error MCU_OVER_TEMP faulted_boot_world = true
  /\ In (EvGpioWrite ILIM_HIZ GPIO_PIN_SET)
        (trace (before_control example_config faulted_boot_world)).
Proof.
  split; [reflexivity |].
  destruct (precharge_ignores_faults example_config faulted_boot_world)
    as [H _].
  - reflexivity.
  - vm_compute. split; reflexivity.
  - vm_compute. reflexivity.
  - exact H.
Defined.

(** The pack of scenario S7 with the communication fault raised: the
    fault outlives the pass and the output ends disabled. *)
Lemma communication_fault_latches_witness :
  let w := Set_Error_State REGULATOR_COMMUNICATION_ERROR (terminating_world 0) in
  let w' := vRegulator_iteration example_config w in
  has_error REGULATOR_COMMUNICATION_ERROR w' = true
  /\ Get_Regulator_Connection_State w' = 0
  /\ gpio w' ILIM_HIZ = GPIO_PIN_RESET
  /\ Get_Max_Charge_Current w' = 0.
Proof.
  intros w w'.
  apply (communication_fault_latches example_config w).
  - vm_compute. discriminate.
  - reflexivity.
Defined.

(** Two terminating passes, one pass with an over-temperature fault,
    then two terminating passes after the fault is gone: the count
    stands at 2 after the faulted pass and the last pass forces high
    impedance. *)
Lemma closed_gate_keeps_count_witness :
  let w1 := terminating_world 0 in
  let w2 := Control_Charger_Output example_config w1 in
  let wb := Set_Error_State MCU_OVER_TEMP
              (Control_Charger_Output example_config w2) in
  let w3 := Clear_Error_State MCU_OVER_TEMP
              (Control_Charger_Output example_config wb) in
  let w4 := Control_Charger_Output example_config w3 in
  termination_counter (Control_Charger_Output example_config wb) = 2
  /\ gpio (Control_Charger_Output example_config w4) ILIM_HIZ = GPIO_PIN_RESET.
Proof.
  intros w1 w2 wb w3 w4.
  apply (closed_gate_keeps_count example_config w1 w2 wb w3 w4).
  - split; reflexivity.
  - split; vm_compute; reflexivity.
  - vm_compute. reflexivity.
  - split; vm_compute; reflexivity.
  - split; vm_compute; reflexivity.
  - vm_compute. reflexivity.
  - vm_compute. reflexivity.
  - vm_compute. reflexivity.
  - vm_compute. reflexivity.
  - vm_compute. split; discriminate.
Defined.
